(** * WebGPU playground: parameter upload and frame loop

    A shallow embedding of the five demos of the repository

    - [Hardcoded]      src/basicTriangle/main.ts, first document
    - [VertexColors]   the demo with per-vertex colours
    - [StorageBuffers] src/basicTriangle/main.ts, second document
    - [Uniforms]       src/uniforms/main.ts
    - [UniformStruct]  the demo with one combined uniform struct

    Every [main] is an asynchronous function that talks to the browser:
    the DOM, the WebGPU device, typed arrays on the JavaScript heap and
    the animation-frame scheduler.  These effects are modelled by a state
    and exception monad over an explicit [world]. *)

From Stdlib Require Import ZArith String SpecFloat Lia.
From stdpp Require Import base option list pretty.

Local Open Scope string_scope.
Local Open Scope list_scope.
Local Open Scope nat_scope.

(** ** Numbers

    A JavaScript number is an IEEE 754 binary64 value and an element of a
    [Float32Array] is a binary32 value.  Both are values of the Standard
    Library's [spec_float]; the format is fixed by the precision and the
    exponent bound given to each operation. *)

Definition number := spec_float.
Definition f32 := spec_float.

Definition prec64 : Z := 53.
Definition emax64 : Z := 1024.
Definition prec32 : Z := 24.
Definition emax32 : Z := 128.

(** An integer literal, or an integer attribute such as [canvas.width],
    as a number. *)
Definition of_Z (z : Z) : number := binary_normalize prec64 emax64 z 0 false.

(** A decimal literal [n / 10^k], correctly rounded: [decimal 2 1] is the
    literal [0.2]. *)
Definition decimal (n : Z) (k : nat) : number :=
  SFdiv prec64 emax64 (of_Z n) (of_Z (10 ^ Z.of_nat k)).

(** The operator [/] on numbers. *)
Definition div (x y : number) : number := SFdiv prec64 emax64 x y.

(** Storing a number into a [Float32Array] rounds it to binary32, to
    nearest with ties to even (Math.fround). *)
Definition fround (x : number) : f32 :=
  match x with
  | S754_finite s m e => binary_round prec32 emax32 s m e
  | _ => x
  end.

Definition zero32 : f32 := S754_zero false.
Definition one32 : f32 := S754_finite false 8388608 (-23).


Arguments of_Z : simpl never.
Arguments decimal : simpl never.
Arguments div : simpl never.
Arguments fround : simpl never.

(** ** The world *)

Inductive exception := TypeError | RangeError | OperationError.

Inductive result (A : Type) :=
| Return (a : A)
| Throw (e : exception).
Arguments Return {A} a.
Arguments Throw {A} e.

(** Handles of the objects the demos create. *)
Definition GPUBuffer := nat.        (* index into [buffers] *)
Definition Float32Array := nat.     (* index into [heap] *)

Record GPUBindGroup := BindGroup {
  bg_label : string;
  bg_entries : list (nat * GPUBuffer)   (* binding, buffer *)
}.

Record buffer_state := BufferState {
  buf_label : string;
  buf_size : nat;                       (* bytes *)
  buf_data : list f32                   (* contents, one element per 4 bytes *)
}.

(** Calls that leave the JavaScript program, in program order. *)
Inductive call :=
| RequestAdapter
| RequestDevice
| GetContext
| GetPreferredCanvasFormat
| Configure
| CreateShaderModule (label : string)
| CreateRenderPipeline (label : string)
| CreateBuffer (label : string) (size : nat)
| CreateBindGroup (g : GPUBindGroup)
| WriteBuffer (buffer : GPUBuffer) (bufferOffset : nat) (data : list f32)
| TypedArraySet (target : Float32Array) (values : list f32) (offset : nat)
| Prepend (text : string)
| Observe
| RequestAnimationFrame
| CreateCommandEncoder
| BeginRenderPass
| SetPipeline
| SetBindGroup (index : nat) (g : GPUBindGroup)
| Draw (vertexCount instanceCount : nat)
| End_
| Finish
| Submit.

Record world := World {
  body : option (list string);   (* the paragraphs of <body>, first on top;
                                    [None]: the document has no body *)
  width : Z;                     (* canvas.width *)
  height : Z;                    (* canvas.height *)
  heap : list (list f32);        (* the Float32Array objects *)
  buffers : list buffer_state;   (* device memory *)
  calls : list call;             (* the calls made so far, oldest first *)
  drawn : nat;                   (* random draws made so far *)
  scheduled : nat                (* frame callbacks waiting for a frame *)
}.

(** What the browser offers to a page. *)
Record host := Host {
  navigator_gpu : bool;          (* navigator.gpu is defined *)
  has_adapter : bool;            (* requestAdapter() resolves to an adapter *)
  has_canvas : bool;             (* the document has a <canvas> *)
  has_context : bool;            (* getContext("webgpu") gives a context *)
  random : nat -> number -> number -> number
                                 (* the k-th draw, for the range asked *)
}.

(** ** The monad *)

Definition M (A : Type) : Type := world -> result A * world.

Definition ret {A} (a : A) : M A := fun w => (Return a, w).

Definition bind {A B} (m : M A) (k : A -> M B) : M B :=
  fun w => match m w with
           | (Return a, w') => k a w'
           | (Throw e, w') => (Throw e, w')
           end.

Definition throw {A} (e : exception) : M A := fun w => (Throw e, w).

Declare Scope M_scope.
Delimit Scope M_scope with M.
Bind Scope M_scope with M.
Notation "'let*' x := m 'in' k" := (bind m (fun x => k))
  (at level 10, x name, m at level 100, k at level 200) : M_scope.
Notation "m ;; k" := (bind m (fun _ => k))
  (at level 100, k at level 200, right associativity) : M_scope.
Local Open Scope M_scope.

Definition log (c : call) : M unit :=
  fun w => (Return tt,
            World (body w) (width w) (height w) (heap w) (buffers w)
                  (calls w ++ [c]) (drawn w) (scheduled w)).

(** [for (const x of xs) { body }] *)
Fixpoint for_of {A} (xs : list A) (body : A -> M unit) : M unit :=
  match xs with
  | [] => ret tt
  | x :: xs' => body x ;; for_of xs' body
  end.

(** [for (const x of xs) { acc = body(acc, x) }]: a loop that grows a
    local variable, such as an array it pushes to. *)
Fixpoint for_acc {A B} (xs : list A) (acc : B) (body : B -> A -> M B) : M B :=
  match xs with
  | [] => ret acc
  | x :: xs' => let* acc' := body acc x in for_acc xs' acc' body
  end.

(** *** Updates of one component of the world *)

Definition set_body (b : option (list string)) (w : world) : world :=
  World b (width w) (height w) (heap w) (buffers w) (calls w) (drawn w) (scheduled w).
Definition set_canvas (x y : Z) (w : world) : world :=
  World (body w) x y (heap w) (buffers w) (calls w) (drawn w) (scheduled w).
Definition set_heap (h : list (list f32)) (w : world) : world :=
  World (body w) (width w) (height w) h (buffers w) (calls w) (drawn w) (scheduled w).
Definition set_buffers (b : list buffer_state) (w : world) : world :=
  World (body w) (width w) (height w) (heap w) b (calls w) (drawn w) (scheduled w).
Definition set_drawn (n : nat) (w : world) : world :=
  World (body w) (width w) (height w) (heap w) (buffers w) (calls w) n (scheduled w).
Definition set_scheduled (n : nat) (w : world) : world :=
  World (body w) (width w) (height w) (heap w) (buffers w) (calls w) (drawn w) n.

Definition get {A} (f : world -> A) : M A := fun w => (Return (f w), w).
Definition modify (f : world -> world) : M unit := fun w => (Return tt, f w).

(** ** The page: src/utils/displayError.ts

    [body?.prepend(errorParagraph)]: nothing is shown in a document
    without a body. *)
Definition displayError (msg : string) : M unit :=
  let* b := get body in
  match b with
  | Some paragraphs => modify (set_body (Some (msg :: paragraphs))) ;; log (Prepend msg)
  | None => ret tt
  end.

(** ** Typed arrays *)

(** [new Float32Array(length)]: a fresh array of zeros. *)
Definition new_Float32Array (length : nat) : M Float32Array :=
  let* h := get heap in
  modify (set_heap (h ++ [replicate length zero32])) ;;
  ret (List.length h).

(** [target.set(values, offset)]: a [RangeError] when the values do not
    fit, otherwise they are rounded and stored from [offset] on. *)
Definition Float32Array_set (target : Float32Array) (values : list number)
    (offset : nat) : M unit :=
  let* h := get heap in
  match h !! target with
  | None => throw TypeError
  | Some a =>
      if decide (offset + List.length values <= List.length a) then
        modify (set_heap (<[target := list_inserts offset (fround <$> values) a]> h)) ;;
        log (TypedArraySet target (fround <$> values) offset)
      else throw RangeError
  end.

(** ** The device *)

(** [device.createBuffer({label, size, usage})]: device memory starts
    out zeroed. *)
Definition createBuffer (label : string) (size : nat) : M GPUBuffer :=
  let* bs := get buffers in
  modify (set_buffers (bs ++ [BufferState label size (replicate (size / 4) zero32)])) ;;
  log (CreateBuffer label size) ;;
  ret (List.length bs).

(** [device.queue.writeBuffer(buffer, bufferOffset, data)]: the whole
    array is copied to the byte offset; the copy must fit. *)
Definition writeBuffer (buffer : GPUBuffer) (bufferOffset : nat)
    (data : Float32Array) : M unit :=
  let* h := get heap in
  let* bs := get buffers in
  match h !! data, bs !! buffer with
  | Some a, Some b =>
      if decide (bufferOffset `mod` 4 = 0 /\
                 bufferOffset + 4 * List.length a <= buf_size b) then
        modify (set_buffers
          (<[buffer := BufferState (buf_label b) (buf_size b)
                         (list_inserts (bufferOffset / 4) a (buf_data b))]> bs)) ;;
        log (WriteBuffer buffer bufferOffset a)
      else throw OperationError
  | _, _ => throw TypeError
  end.

Definition createBindGroup (label : string) (entries : list (nat * GPUBuffer))
    : M GPUBindGroup :=
  log (CreateBindGroup (BindGroup label entries)) ;;
  ret (BindGroup label entries).

(** [requestAnimationFrame(render)]: one more callback waits for the
    next frame. *)
Definition requestAnimationFrame : M unit :=
  let* n := get scheduled in
  modify (set_scheduled (S n)) ;;
  log RequestAnimationFrame.

Inductive GPUAdapter := Adapter.
Inductive GPUDevice := Device.
Inductive HTMLCanvasElement := Canvas.
Inductive GPUCanvasContext := Context.

Section Host.
Variable env : host.

(** [navigator.gpu.requestAdapter()]: reading a property of
    [undefined] is a [TypeError]. *)
Definition requestAdapter : M (option GPUAdapter) :=
  if navigator_gpu env then
    log RequestAdapter ;;
    ret (if has_adapter env then Some Adapter else None)
  else throw TypeError.

(** [navigator.gpu?.requestAdapter()] *)
Definition requestAdapter_optional : M (option GPUAdapter) :=
  if navigator_gpu env then
    log RequestAdapter ;;
    ret (if has_adapter env then Some Adapter else None)
  else ret None.

(** [adapter?.requestDevice()] *)
Definition requestDevice (adapter : option GPUAdapter) : M (option GPUDevice) :=
  match adapter with
  | Some _ => log RequestDevice ;; ret (Some Device)
  | None => ret None
  end.

(** [document.querySelector("canvas")] *)
Definition querySelector_canvas : M (option HTMLCanvasElement) :=
  ret (if has_canvas env then Some Canvas else None).

(** [canvas?.getContext("webgpu")] *)
Definition getContext (canvas : option HTMLCanvasElement)
    : M (option GPUCanvasContext) :=
  match canvas with
  | Some _ => log GetContext ;;
              ret (if has_context env then Some Context else None)
  | None => ret None
  end.

(** [navigator.gpu.getPreferredCanvasFormat()] *)
Definition getPreferredCanvasFormat : M unit :=
  if navigator_gpu env then log GetPreferredCanvasFormat else throw TypeError.

(** Modelled from the spec: [rand] of src/utils/random.ts is not among
    the sources.  The spec says that it draws independent random
    values from the fixed range it is given: the [k]-th call returns
    the [k]-th draw of the host's random source for that range.  That
    the draw lies in the range is [in_range] below. *)
Definition rand (min max : number) : M number :=
  let* k := get drawn in
  modify (set_drawn (S k)) ;;
  ret (random env k min max).
End Host.


(** A browser in which every step of the capability gate succeeds. *)
Definition capable (env : host) : Prop :=
  navigator_gpu env = true /\ has_adapter env = true /\
  has_canvas env = true /\ has_context env = true.

(** The call is a write into the typed array [target]. *)
Definition is_set (target : Float32Array) (e : call) : Prop :=
  exists values offset, e = TypedArraySet target values offset.


(** The computation leaves the frame queue and the page alone and only
    adds to the calls made. *)
Definition quiet {A} (m : M A) : Prop :=
  forall w,
    scheduled (snd (m w)) = scheduled w /\
    body (snd (m w)) = body w /\
    exists l, calls (snd (m w)) = calls w ++ l.

(** A page that was just loaded: an empty body, a canvas of the default
    size, no typed array, no buffer, no call made. *)
Definition fresh_page : world := World (Some []) 300 150 [] [] [] 0 0.

(** A browser without WebGPU: [navigator.gpu] is undefined. *)
Definition no_webgpu : host := Host false false true true (fun _ lo _ => lo).

(** A browser with WebGPU whose document has no canvas. *)
Definition no_canvas : host := Host true true false false (fun _ lo _ => lo).

(** The uploads to buffer [b] among the calls [l]. *)
Definition uploads_to (b : GPUBuffer) (l : list call) : list call :=
  List.filter (fun e => match e with
                        | WriteBuffer b' _ _ => Nat.eqb b' b
                        | _ => false
                        end) l.

(** The buffers uploaded to among the calls [l], in the order of the
    uploads. *)
Definition uploads (l : list call) : list GPUBuffer :=
  omap (fun e => match e with WriteBuffer b _ _ => Some b | _ => None end) l.

(** The draw calls among the calls [l]: the vertex count and the
    instance count of each. *)
Definition draws (l : list call) : list (nat * nat) :=
  omap (fun e => match e with Draw v i => Some (v, i) | _ => None end) l.

(** The sizes of the buffers created among the calls [l]. *)
Definition created_buffers (l : list call) : list nat :=
  omap (fun e => match e with CreateBuffer _ size => Some size | _ => None end) l.

(** The bind groups created among the calls [l]. *)
Definition created_bind_groups (l : list call) : list GPUBindGroup :=
  omap (fun e => match e with CreateBindGroup g => Some g | _ => None end) l.

(** The calls that create a pipeline, a buffer or a bind group, or that
    start the frame loop. *)
Definition creates (e : call) : bool :=
  match e with
  | Configure | CreateShaderModule _ | CreateRenderPipeline _ | CreateBuffer _ _
  | CreateBindGroup _ | WriteBuffer _ _ _ | Observe | RequestAnimationFrame => true
  | _ => false
  end.

(** ** Packed records

    A field of a packed record: its offset and its length, counted in
    32-bit elements as the source counts them. *)
Record field := Field {
  field_name : string;
  field_offset : nat;
  field_length : nat
}.

(** The bytes a field occupies within its record. *)
Definition field_bytes (f : field) : list nat :=
  seq (4 * field_offset f) (4 * field_length f).

(** Fields and padding fill a record of [stride] bytes: the fields follow
    each other from byte 0 on, the padding follows the last field, and
    the stride is a multiple of 16. *)
Fixpoint packed_from (start : nat) (fields : list field) (padding stride : nat)
    : Prop :=
  match fields with
  | [] => start + 4 * padding = stride /\ stride `mod` 16 = 0
  | f :: fields' =>
      4 * field_offset f = start /\
      packed_from (start + 4 * field_length f) fields' padding stride
  end.

(** The world after an initialization that the gate stopped with the
    message [msg], having made the calls [l]. *)
Definition stopped (msg : string) (l : list call) (w : world) : world :=
  World (cons msg <$> body w) (width w) (height w) (heap w) (buffers w)
    (calls w ++ l ++ match body w with Some _ => [Prepend msg] | None => [] end)
    (drawn w) (scheduled w).

(** A browser with WebGPU and a canvas, whose random source always
    draws the lower end of the range. *)
Definition webgpu : host := Host true true true true (fun _ lo _ => lo).



(** ** The render pass shared by all frame callbacks *)

(** [device.createCommandEncoder] and [encoder.beginRenderPass], which
    asks the context for the current texture. *)
Definition beginRenderPass : M unit :=
  log CreateCommandEncoder ;; log BeginRenderPass.

(** [pass.end()], [encoder.finish()] and [device.queue.submit]. *)
Definition endAndSubmit : M unit :=
  log End_ ;; log Finish ;; log Submit.

(** ** The frames the browser delivers

    A frame callback is run by the browser, which passes the time stamp
    of the frame.  Between two frames the page may have been resized, so
    every frame comes with the canvas dimensions of the moment. *)
Record frame := Frame {
  timeStamp : option number;     (* [None]: the argument is undefined *)
  frame_width : Z;
  frame_height : Z
}.

(** One turn of the browser: when a callback waits, it is taken from the
    queue and run.  An exception inside a callback is reported by the
    browser and does not reach the queue. *)
Definition deliver (render : option number -> M unit) (f : frame) (w : world) : world :=
  match scheduled w with
  | 0 => w
  | S n =>
      snd (render (timeStamp f)
             (set_canvas (frame_width f) (frame_height f) (set_scheduled n w)))
  end.

Definition run (render : option number -> M unit) (fs : list frame) (w : world) : world :=
  foldl (fun w f => deliver render f w) w fs.

(** ** The resize observer of the three demos that write buffers

    [Math.min] and [Math.max]: a [NaN] argument gives [NaN], and of two
    zeros the negative one is the smaller. *)
Definition Math_min (x y : number) : number :=
  match SFcompare x y with
  | Some Lt => x
  | Some Gt => y
  | Some Eq => match x with S754_zero false => y | _ => x end
  | None => S754_nan
  end.

Definition Math_max (x y : number) : number :=
  match SFcompare x y with
  | Some Lt => y
  | Some Gt => x
  | Some Eq => match x with S754_zero true => y | _ => x end
  | None => S754_nan
  end.

(** The conversion of a number to the IDL type [unsigned long]: [NaN],
    the zeros and the infinities give 0, any other number is truncated
    towards zero and taken modulo 2^32. *)
Definition to_unsigned_long (x : number) : Z :=
  match x with
  | S754_finite s m e =>
      let n := if (0 <=? e)%Z then (Z.pos m * 2 ^ e)%Z else (Z.pos m / 2 ^ (- e))%Z in
      ((if s then - n else n) mod 2 ^ 32)%Z
  | _ => 0%Z
  end.

(** An assignment to [canvas.width] or [canvas.height], which reflect
    content attributes: a value above 2147483647 gives the default of
    the attribute. *)
Definition canvas_dimension (default : Z) (x : number) : Z :=
  let n := to_unsigned_long x in
  if (n <=? 2147483647)%Z then n else default.

(** What the callback reads of a [ResizeObserverEntry]:
    [entry.target instanceof HTMLCanvasElement] and
    [entry.contentBoxSize[0]]. *)
Record ResizeObserverEntry := Entry {
  target_is_canvas : bool;
  inlineSize : number;
  blockSize : number
}.

(** The callback given to [new ResizeObserver], with
    [device.limits.maxTextureDimension2D]. *)
Definition onResize (maxTextureDimension2D : number)
    (entries : list ResizeObserverEntry) : M unit :=
  for_of entries (fun entry =>
    if target_is_canvas entry then
      modify (fun w =>
        set_canvas
          (canvas_dimension 300
             (Math_max (of_Z 1) (Math_min (inlineSize entry) maxTextureDimension2D)))
          (height w) w) ;;
      modify (fun w =>
        set_canvas (width w)
          (canvas_dimension 150
             (Math_max (of_Z 1) (Math_min (blockSize entry) maxTextureDimension2D)))
          w)
    else ret tt).

(** A size the layout can report: a number that is not [NaN]. *)
Definition is_size (x : number) : Prop :=
  valid_binary prec64 emax64 x = true /\ x <> S754_nan.

(** The calls of a frame that draws one triangle without buffers. *)
Definition triangle_frame : list call :=
  [RequestAnimationFrame; CreateCommandEncoder; BeginRenderPass; SetPipeline;
   Draw 3 1; End_; Finish; Submit].

(** * The demos *)

(** ** src/basicTriangle/main.ts, first document: a triangle whose
    position and colour are written in the shader *)
Module Hardcoded.
Section Demo.
Variable env : host.

Definition render (_ : option number) : M unit :=
  requestAnimationFrame ;;
  beginRenderPass ;;
  log SetPipeline ;;
  log (Draw 3 1) ;;
  endAndSubmit.

Definition main : M unit :=
  let* adapter := requestAdapter_optional env in
  let* device := requestDevice adapter in
  match device with
  | None => displayError "This page requires WebGPU"
  | Some _ =>
    let* canvas := querySelector_canvas env in
    let* context := getContext env canvas in
    match context with
    | None => displayError "Canvas context for WegGPU not found"
    | Some _ =>
      getPreferredCanvasFormat env ;;
      log Configure ;;
      log (CreateShaderModule "Hardcoded WebGPU triangle") ;;
      log (CreateRenderPipeline "Hardcoded WebGPU pipeline") ;;
      requestAnimationFrame
    end
  end.
End Demo.
End Hardcoded.

(** ** The demo with one colour per vertex *)
Module VertexColors.
Section Demo.
Variable env : host.

Definition render (_ : option number) : M unit :=
  requestAnimationFrame ;;
  beginRenderPass ;;
  log SetPipeline ;;
  log (Draw 3 1) ;;
  endAndSubmit.

Definition main : M unit :=
  let* adapter := requestAdapter env in
  let* device := requestDevice adapter in
  match device with
  | None => displayError "This page requires WebGPU"
  | Some _ =>
    let* canvas := querySelector_canvas env in
    let* context := getContext env canvas in
    match context with
    | None => displayError "Canvas not found"
    | Some _ =>
      getPreferredCanvasFormat env ;;
      log Configure ;;
      log (CreateShaderModule "Triangle vertex shader") ;;
      log (CreateRenderPipeline "Hardcoded WebGPU pipeline") ;;
      requestAnimationFrame
    end
  end.
End Demo.
End VertexColors.

(** ** src/basicTriangle/main.ts, second document: all objects in two
    storage buffers, one instanced draw *)
Module StorageBuffers.
Record ObjectInfo := { scale : number }.

Definition staticUnitSize : nat :=
  4 * 4 + (* color *)
  2 * 4 + (* offset *)
  2 * 4.  (* padding *)

Definition changingUnitSize : nat :=
  2 * 4 + (* scale *)
  1 * 4 + (* time *)
  1 * 4.  (* padding *)

(** Offsets to storage values, in elements of the typed array. *)
Definition kColorOffset : nat := 0.
Definition kOffsetOffset : nat := 4.
Definition kScaleOffset : nat := 0.
Definition kTimeOffset : nat := 2.

(** What the closure [render] captures of [main]. *)
Record closure := Closure {
  kNumObjects : nat;
  objectInfos : list ObjectInfo;
  staticStorageBuffer : GPUBuffer;
  changingStorageBuffer : GPUBuffer;
  storageValues : Float32Array;
  bindGroup : GPUBindGroup
}.

(** Lines 310-318: one turn of the loop of [render], for object [i]. *)
Definition update_object (c : closure) (time aspect : number) (i : nat)
    : M unit :=
  let offset := i * (changingUnitSize / 4) in
  match objectInfos c !! i with
  | None => throw TypeError
  | Some o =>
    Float32Array_set (storageValues c)
      [div (scale o) aspect; scale o] (offset + kScaleOffset) ;;
    Float32Array_set (storageValues c) [time] (offset + kTimeOffset)
  end.

(** Lines 309-319: the loop of [render] that recomputes the changing
    values of every object. *)
Definition update (c : closure) (time aspect : number) : M unit :=
  for_of (seq 0 (length (objectInfos c))) (update_object c time aspect).

Definition render (c : closure) (timeStamp : option number) : M unit :=
  requestAnimationFrame ;;
  let time := default (of_Z 0) timeStamp in
  let* width := get width in
  let* height := get height in
  let aspect := div (of_Z width) (of_Z height) in
  beginRenderPass ;;
  log SetPipeline ;;
  update c time aspect ;;
  writeBuffer (changingStorageBuffer c) 0 (storageValues c) ;;
  log (SetBindGroup 0 (bindGroup c)) ;;
  log (Draw 3 (kNumObjects c)) ;;
  endAndSubmit.

Section Demo.
Variable env : host.
(** [const kNumObjects = 100] in the source. *)
Variable kNumObjects : nat.

Definition staticStorageBufferSize : nat := staticUnitSize * kNumObjects.
Definition changingStorageBufferSize : nat := changingUnitSize * kNumObjects.

(** Lines 248-268: one turn of the loop that generates the triangles. *)
Definition generate (staticStorageValues : Float32Array)
    (objectInfos : list ObjectInfo) (i : nat) : M (list ObjectInfo) :=
  let staticOffset := i * (staticUnitSize / 4) in
  let* r := rand env (of_Z 0) (of_Z 1) in
  let* g := rand env (of_Z 0) (of_Z 1) in
  let* b := rand env (of_Z 0) (of_Z 1) in
  Float32Array_set staticStorageValues [r; g; b; of_Z 1]
    (staticOffset + kColorOffset) ;;
  let* x := rand env (of_Z (-1)) (of_Z 1) in
  let* y := rand env (of_Z (-1)) (of_Z 1) in
  Float32Array_set staticStorageValues [x; y] (staticOffset + kOffsetOffset) ;;
  let* s := rand env (decimal 2 1) (decimal 5 1) in
  ret (objectInfos ++ [{| scale := s |}]).

Definition main : M (option closure) :=
  let* adapter := requestAdapter env in
  let* device := requestDevice adapter in
  match device with
  | None => displayError "This page requires WebGPU" ;; ret None
  | Some _ =>
    let* canvas := querySelector_canvas env in
    let* context := getContext env canvas in
    match canvas, context with
    | Some _, Some _ =>
      getPreferredCanvasFormat env ;;
      log Configure ;;
      log (CreateShaderModule "Triangle vertex shader") ;;
      log (CreateRenderPipeline "Hardcoded WebGPU pipeline") ;;
      let* staticStorageBuffer :=
        createBuffer "static storage for triangles" staticStorageBufferSize in
      let* changingStorageBuffer :=
        createBuffer "changing storage for triangles" changingStorageBufferSize in
      let* staticStorageValues := new_Float32Array (staticStorageBufferSize / 4) in
      let* objectInfos :=
        for_acc (seq 0 kNumObjects) [] (generate staticStorageValues) in
      writeBuffer staticStorageBuffer 0 staticStorageValues ;;
      let* storageValues := new_Float32Array (changingStorageBufferSize / 4) in
      let* bindGroup :=
        createBindGroup "bind group for objects"
          [(0, staticStorageBuffer); (1, changingStorageBuffer)] in
      log Observe ;;
      requestAnimationFrame ;;
      ret (Some (Closure kNumObjects objectInfos staticStorageBuffer
                   changingStorageBuffer storageValues bindGroup))
    | _, _ => displayError "Canvas not found" ;; ret None
    end
  end.
End Demo.

(** *** Vocabulary of the statements about this demo *)

(** The changing values of all objects after a frame of time [time] on
    a canvas of aspect ratio [aspect]: per object the scale pair, the
    time, and a padding that is still zero. *)
Definition changing_values (objectInfos : list ObjectInfo) (time aspect : number)
    : list f32 :=
  mjoin ((fun o => [fround (div (scale o) aspect); fround (scale o);
                    fround time; zero32]) <$> objectInfos).

(** The padding of every record of the changing values is zero. *)
Definition padding_zero (a : list f32) : Prop :=
  forall j, j `mod` 4 = 3 -> j < length a -> a !! j = Some zero32.

(** Record [i] of the changing values holds the scale pair and the
    time. *)
Definition changing_record (time aspect : number) (o : ObjectInfo) (i : nat)
    (a : list f32) : Prop :=
  a !! (i * 4) = Some (fround (div (scale o) aspect)) /\
  a !! (i * 4 + 1) = Some (fround (scale o)) /\
  a !! (i * 4 + 2) = Some (fround time).

(** Record [i] of the static values holds the draws [d], ..., [d + 4]:
    three colour channels, the constant alpha and the offset pair. *)
Definition static_record (env : host) (d i : nat) (a : list f32) : Prop :=
  a !! (i * 8) = Some (fround (random env d (of_Z 0) (of_Z 1))) /\
  a !! (i * 8 + 1) = Some (fround (random env (d + 1) (of_Z 0) (of_Z 1))) /\
  a !! (i * 8 + 2) = Some (fround (random env (d + 2) (of_Z 0) (of_Z 1))) /\
  a !! (i * 8 + 3) = Some (fround (of_Z 1)) /\
  a !! (i * 8 + 4) = Some (fround (random env (d + 3) (of_Z (-1)) (of_Z 1))) /\
  a !! (i * 8 + 5) = Some (fround (random env (d + 4) (of_Z (-1)) (of_Z 1))).

(** The closure fits the world: the typed array holds four elements
    per object and the changing buffer has room for all of them. *)
Definition ready (c : closure) (w : world) : Prop :=
  exists a b,
    heap w !! storageValues c = Some a /\
    length a = 4 * length (objectInfos c) /\
    buffers w !! changingStorageBuffer c = Some b /\
    4 * length a <= buf_size b /\
    length (buf_data b) = length a.

(** The calls a frame may make: typed-array writes go to
    [storageValues] and uploads go to the changing buffer. *)
Definition frame_call (c : closure) (e : call) : Prop :=
  match e with
  | WriteBuffer b _ _ => b = changingStorageBuffer c
  | TypedArraySet t _ _ => t = storageValues c
  | RequestAnimationFrame | CreateCommandEncoder | BeginRenderPass
  | SetPipeline | SetBindGroup _ _ | Draw _ _ | End_ | Finish | Submit => True
  | _ => False
  end.

(** What a sequence of frames leaves alone. *)
Definition untouched (c : closure) (w w' : world) : Prop :=
  body w' = body w /\
  drawn w' = drawn w /\
  (forall r, r <> storageValues c -> heap w' !! r = heap w !! r) /\
  (forall b, b <> changingStorageBuffer c -> buffers w' !! b = buffers w !! b) /\
  exists l, calls w' = calls w ++ l /\ Forall (frame_call c) l.

(** The fields of the two packed records, as the writes of [generate]
    and [update_object] lay them out. *)
Definition static_fields : list field :=
  [Field "color" kColorOffset 4; Field "offset" kOffsetOffset 2].
Definition changing_fields : list field :=
  [Field "scale" kScaleOffset 2; Field "time" kTimeOffset 1].

(** The scenario of the spec: one object of base scale 0.4 on a canvas
    twice as wide as high. *)
Definition one_object : closure :=
  Closure 1 [{| scale := decimal 4 1 |}] 0 1 0
    (BindGroup "bind group for objects" [(0, 0); (1, 1)]).
Definition one_object_world : world :=
  World (Some []) 300 150 [replicate 4 zero32]
    [BufferState "static storage for triangles" 32 (replicate 8 zero32);
     BufferState "changing storage for triangles" 16 (replicate 4 zero32)]
    [] 0 1.
End StorageBuffers.

(** ** src/uniforms/main.ts: two uniform buffers per object, one draw
    per object *)
Module Uniforms.
Record ObjectInfo := {
  scale : number;
  uniformBuffer : GPUBuffer;
  uniformValues : Float32Array;
  bindGroup : GPUBindGroup
}.

Definition staticUniformBufferSize : nat :=
  4 * 4 + (* color *)
  2 * 4 + (* offset *)
  2 * 4.  (* padding *)

Definition uniformBufferSize : nat :=
  2 * 4 + (* scale *)
  1 * 4 + (* time *)
  1 * 4.  (* padding *)

(** Offsets to uniform values, in elements of the typed array. *)
Definition kColorOffset : nat := 0.
Definition kOffsetOffset : nat := 4.
Definition kScaleOffset : nat := 0.
Definition kTimeOffset : nat := 2.

(** Lines 198-214: the body of the loop of [render]. *)
Definition update (time aspect : number) (objectInfo : ObjectInfo) : M unit :=
  Float32Array_set (uniformValues objectInfo)
    [div (scale objectInfo) aspect; scale objectInfo] kScaleOffset ;;
  Float32Array_set (uniformValues objectInfo) [time] kTimeOffset ;;
  writeBuffer (uniformBuffer objectInfo) 0 (uniformValues objectInfo) ;;
  log (SetBindGroup 0 (bindGroup objectInfo)) ;;
  log (Draw 3 1).

Definition render (objectInfos : list ObjectInfo) (timeStamp : option number)
    : M unit :=
  requestAnimationFrame ;;
  let time := default (of_Z 0) timeStamp in
  let* width := get width in
  let* height := get height in
  let aspect := div (of_Z width) (of_Z height) in
  beginRenderPass ;;
  log SetPipeline ;;
  for_of objectInfos (update time aspect) ;;
  endAndSubmit.

Section Demo.
Variable env : host.
(** [const kNumObjects = 100] in the source. *)
Variable kNumObjects : nat.

(** Lines 112-172: one turn of the loop that generates the triangles. *)
Definition generate (objectInfos : list ObjectInfo) (i : nat)
    : M (list ObjectInfo) :=
  let* staticUniformBuffer :=
    createBuffer "static uniforms for triangles" staticUniformBufferSize in
  let* staticUniformValues := new_Float32Array (staticUniformBufferSize / 4) in
  let* r := rand env (of_Z 0) (of_Z 1) in
  let* g := rand env (of_Z 0) (of_Z 1) in
  let* b := rand env (of_Z 0) (of_Z 1) in
  Float32Array_set staticUniformValues [r; g; b; of_Z 1] kColorOffset ;;
  let* x := rand env (of_Z (-1)) (of_Z 1) in
  let* y := rand env (of_Z (-1)) (of_Z 1) in
  Float32Array_set staticUniformValues [x; y] kOffsetOffset ;;
  writeBuffer staticUniformBuffer 0 staticUniformValues ;;
  let* uniformValues := new_Float32Array (uniformBufferSize / 4) in
  let* uniformBuffer := createBuffer "uniforms for triangles" uniformBufferSize in
  Float32Array_set uniformValues [of_Z 0] kTimeOffset ;;
  let* bindGroup :=
    createBindGroup ("triangle bind group for obj: " ++ pretty i)
      [(0, staticUniformBuffer); (1, uniformBuffer)] in
  let* s := rand env (decimal 2 1) (decimal 5 1) in
  ret (objectInfos ++ [{| scale := s; uniformBuffer := uniformBuffer;
                          uniformValues := uniformValues;
                          bindGroup := bindGroup |}]).

Definition main : M (option (list ObjectInfo)) :=
  let* adapter := requestAdapter env in
  let* device := requestDevice adapter in
  match device with
  | None => displayError "This page requires WebGPU" ;; ret None
  | Some _ =>
    let* canvas := querySelector_canvas env in
    let* context := getContext env canvas in
    match canvas, context with
    | Some _, Some _ =>
      getPreferredCanvasFormat env ;;
      log Configure ;;
      log (CreateShaderModule "Triangle vertex shader") ;;
      log (CreateRenderPipeline "Hardcoded WebGPU pipeline") ;;
      let* objectInfos := for_acc (seq 0 kNumObjects) [] generate in
      log Observe ;;
      requestAnimationFrame ;;
      ret (Some objectInfos)
    | _, _ => displayError "Canvas not found" ;; ret None
    end
  end.
End Demo.

(** *** Vocabulary of the statements about this demo *)

(** The changing values of one object after a frame: the scale pair
    and the time are overwritten, everything else is kept. *)
Definition updated (time aspect : number) (o : ObjectInfo) (a : list f32)
    : list f32 :=
  list_inserts kTimeOffset (fround <$> [time])
    (list_inserts kScaleOffset
       (fround <$> [div (scale o) aspect; scale o]) a).

(** The changing values of an object after a frame of time [time] on a
    canvas of aspect ratio [aspect], with a padding that is still
    zero. *)
Definition changing_values (o : ObjectInfo) (time aspect : number) : list f32 :=
  [fround (div (scale o) aspect); fround (scale o); fround time; zero32].

(** The object fits the world: its typed array holds one record and
    its buffer has room for it. *)
Definition fits (o : ObjectInfo) (w : world) : Prop :=
  exists a b,
    heap w !! uniformValues o = Some a /\
    length a = uniformBufferSize / 4 /\
    buffers w !! uniformBuffer o = Some b /\
    buf_size b = uniformBufferSize /\
    length (buf_data b) = uniformBufferSize / 4.

(** All objects fit, and no two of them share a typed array or a
    buffer. *)
Definition ready (objectInfos : list ObjectInfo) (w : world) : Prop :=
  Forall (fun o => fits o w) objectInfos /\
  NoDup (uniformValues <$> objectInfos) /\
  NoDup (uniformBuffer <$> objectInfos).

(** The calls a frame may make: typed-array writes and uploads go to
    the arrays and buffers of the objects. *)
Definition frame_call (objectInfos : list ObjectInfo) (e : call) : Prop :=
  match e with
  | WriteBuffer b _ _ => b ∈ uniformBuffer <$> objectInfos
  | TypedArraySet t _ _ => t ∈ uniformValues <$> objectInfos
  | RequestAnimationFrame | CreateCommandEncoder | BeginRenderPass
  | SetPipeline | SetBindGroup _ _ | Draw _ _ | End_ | Finish | Submit => True
  | _ => False
  end.

(** What a sequence of frames leaves alone. *)
Definition untouched (objectInfos : list ObjectInfo) (w w' : world) : Prop :=
  body w' = body w /\
  drawn w' = drawn w /\
  (forall r, r ∉ uniformValues <$> objectInfos -> heap w' !! r = heap w !! r) /\
  (forall b, b ∉ uniformBuffer <$> objectInfos ->
             buffers w' !! b = buffers w !! b) /\
  exists l, calls w' = calls w ++ l /\ Forall (frame_call objectInfos) l.

(** The record the loop of [main] pushes in turn [i], when the turn
    starts with [d] draws made, [h] typed arrays and [b] buffers. *)
Definition generated (env : host) (d h b i : nat) : ObjectInfo :=
  {| scale := random env (d + 5) (decimal 2 1) (decimal 5 1);
     uniformBuffer := S b;
     uniformValues := S h;
     bindGroup :=
       BindGroup ("triangle bind group for obj: " ++ pretty i)
         [(0, b); (1, S b)] |}.

(** The static values of the object generated from draw [d] on. *)
Definition static_values (env : host) (d : nat) : list f32 :=
  [fround (random env d (of_Z 0) (of_Z 1));
   fround (random env (d + 1) (of_Z 0) (of_Z 1));
   fround (random env (d + 2) (of_Z 0) (of_Z 1));
   fround (of_Z 1);
   fround (random env (d + 3) (of_Z (-1)) (of_Z 1));
   fround (random env (d + 4) (of_Z (-1)) (of_Z 1));
   zero32; zero32].

(** The buffer an object's bind group shows to the shader as
    binding 0: its static values. *)
Definition static_buffer (o : ObjectInfo) : GPUBuffer :=
  match bg_entries (bindGroup o) with
  | (_, b) :: _ => b
  | [] => 0
  end.

(** The object is as [main] made it: a drawn scale, a static buffer
    that holds its drawn colour and offset, changing values that are
    still zero. *)
Definition started (env : host) (o : ObjectInfo) (w : world) : Prop :=
  uniformValues o < length (heap w) /\
  uniformBuffer o < length (buffers w) /\
  static_buffer o < length (buffers w) /\
  heap w !! uniformValues o = Some (replicate 4 zero32) /\
  exists d,
    scale o = random env (d + 5) (decimal 2 1) (decimal 5 1) /\
    bg_entries (bindGroup o) = [(0, static_buffer o); (1, uniformBuffer o)] /\
    buffers w !! static_buffer o =
      Some (BufferState "static uniforms for triangles" 32
              (static_values env d)).

(** The state of the loop of [main] between two turns. *)
Definition generating (env : host) (objectInfos : list ObjectInfo)
    (w : world) : Prop :=
  ready objectInfos w /\
  Forall (fun o => started env o w) objectInfos /\
  NoDup ((static_buffer <$> objectInfos) ++ (uniformBuffer <$> objectInfos)).

(** The fields of the two packed records, as the writes of [generate]
    and [update] lay them out. *)
Definition static_fields : list field :=
  [Field "color" kColorOffset 4; Field "offset" kOffsetOffset 2].
Definition changing_fields : list field :=
  [Field "scale" kScaleOffset 2; Field "time" kTimeOffset 1].

(** One object of base scale 0.4 on a canvas twice as wide as high. *)
Definition one_object : ObjectInfo :=
  {| scale := decimal 4 1; uniformBuffer := 0; uniformValues := 0;
     bindGroup := BindGroup "triangle bind group for obj: 0" [(0, 1); (1, 0)] |}.
Definition one_object_world : world :=
  World (Some []) 300 150 [replicate 4 zero32]
    [BufferState "uniforms for triangles" 16 (replicate 4 zero32);
     BufferState "static uniforms for triangles" 32 (replicate 8 zero32)]
    [] 0 1.
End Uniforms.

(** ** The demo with one uniform struct per object: colour, scale,
    offset and time share one buffer *)
Module UniformStruct.
Record ObjectInfo := {
  scale : number;
  uniformBuffer : GPUBuffer;
  uniformValues : Float32Array;
  bindGroup : GPUBindGroup
}.

Definition uniformBufferSize : nat :=
  4 * 4 + (* color *)
  2 * 4 + (* scale *)
  2 * 4 + (* offset *)
  1 * 4 + (* time *)
  3 * 4.  (* padding *)

(** Offsets to uniform values, in elements of the typed array. *)
Definition kColorOffset : nat := 0.
Definition kScaleOffset : nat := 4.
Definition kOffsetOffset : nat := 6.
Definition kTimeOffset : nat := 8.

(** Lines 166-182: the body of the loop of [render]. *)
Definition update (time aspect : number) (objectInfo : ObjectInfo) : M unit :=
  Float32Array_set (uniformValues objectInfo)
    [div (scale objectInfo) aspect; scale objectInfo] kScaleOffset ;;
  Float32Array_set (uniformValues objectInfo) [time] kTimeOffset ;;
  writeBuffer (uniformBuffer objectInfo) 0 (uniformValues objectInfo) ;;
  log (SetBindGroup 0 (bindGroup objectInfo)) ;;
  log (Draw 3 1).

Definition render (objectInfos : list ObjectInfo) (timeStamp : option number)
    : M unit :=
  requestAnimationFrame ;;
  let time := default (of_Z 0) timeStamp in
  let* width := get width in
  let* height := get height in
  let aspect := div (of_Z width) (of_Z height) in
  beginRenderPass ;;
  log SetPipeline ;;
  for_of objectInfos (update time aspect) ;;
  endAndSubmit.

Section Demo.
Variable env : host.
(** [const kNumObjects = 100] in the source. *)
Variable kNumObjects : nat.

(** Lines 104-140: one turn of the loop that generates the triangles. *)
Definition generate (objectInfos : list ObjectInfo) (i : nat)
    : M (list ObjectInfo) :=
  let* uniformBuffer := createBuffer "uniforms for triangle" uniformBufferSize in
  let* uniformValues := new_Float32Array (uniformBufferSize / 4) in
  let* r := rand env (of_Z 0) (of_Z 1) in
  let* g := rand env (of_Z 0) (of_Z 1) in
  let* b := rand env (of_Z 0) (of_Z 1) in
  Float32Array_set uniformValues [r; g; b; of_Z 1] kColorOffset ;;
  let* x := rand env (of_Z (-1)) (of_Z 1) in
  let* y := rand env (of_Z (-1)) (of_Z 1) in
  Float32Array_set uniformValues [x; y] kOffsetOffset ;;
  Float32Array_set uniformValues [of_Z 0] kTimeOffset ;;
  let* bindGroup :=
    createBindGroup ("triangle bind group for obj: " ++ pretty i)
      [(0, uniformBuffer)] in
  let* s := rand env (decimal 2 1) (decimal 5 1) in
  ret (objectInfos ++ [{| scale := s; uniformBuffer := uniformBuffer;
                          uniformValues := uniformValues;
                          bindGroup := bindGroup |}]).

Definition main : M (option (list ObjectInfo)) :=
  let* adapter := requestAdapter env in
  let* device := requestDevice adapter in
  match device with
  | None => displayError "This page requires WebGPU" ;; ret None
  | Some _ =>
    let* canvas := querySelector_canvas env in
    let* context := getContext env canvas in
    match canvas, context with
    | Some _, Some _ =>
      getPreferredCanvasFormat env ;;
      log Configure ;;
      log (CreateShaderModule "Triangle vertex shader") ;;
      log (CreateRenderPipeline "Hardcoded WebGPU pipeline") ;;
      let* objectInfos := for_acc (seq 0 kNumObjects) [] generate in
      log Observe ;;
      requestAnimationFrame ;;
      ret (Some objectInfos)
    | _, _ => displayError "Canvas not found" ;; ret None
    end
  end.
End Demo.

(** *** Vocabulary of the statements about this demo *)

(** The changing values of one object after a frame: the scale pair
    and the time are overwritten, everything else is kept. *)
Definition updated (time aspect : number) (o : ObjectInfo) (a : list f32)
    : list f32 :=
  list_inserts kTimeOffset (fround <$> [time])
    (list_inserts kScaleOffset
       (fround <$> [div (scale o) aspect; scale o]) a).

(** The object fits the world: its typed array holds one record and
    its buffer has room for it. *)
Definition fits (o : ObjectInfo) (w : world) : Prop :=
  exists a b,
    heap w !! uniformValues o = Some a /\
    length a = uniformBufferSize / 4 /\
    buffers w !! uniformBuffer o = Some b /\
    buf_size b = uniformBufferSize /\
    length (buf_data b) = uniformBufferSize / 4.

(** All objects fit, and no two of them share a typed array or a
    buffer. *)
Definition ready (objectInfos : list ObjectInfo) (w : world) : Prop :=
  Forall (fun o => fits o w) objectInfos /\
  NoDup (uniformValues <$> objectInfos) /\
  NoDup (uniformBuffer <$> objectInfos).

(** The calls a frame may make: typed-array writes and uploads go to
    the arrays and buffers of the objects. *)
Definition frame_call (objectInfos : list ObjectInfo) (e : call) : Prop :=
  match e with
  | WriteBuffer b _ _ => b ∈ uniformBuffer <$> objectInfos
  | TypedArraySet t _ _ => t ∈ uniformValues <$> objectInfos
  | RequestAnimationFrame | CreateCommandEncoder | BeginRenderPass
  | SetPipeline | SetBindGroup _ _ | Draw _ _ | End_ | Finish | Submit => True
  | _ => False
  end.

(** What a sequence of frames leaves alone. *)
Definition untouched (objectInfos : list ObjectInfo) (w w' : world) : Prop :=
  body w' = body w /\
  drawn w' = drawn w /\
  (forall r, r ∉ uniformValues <$> objectInfos -> heap w' !! r = heap w !! r) /\
  (forall b, b ∉ uniformBuffer <$> objectInfos ->
             buffers w' !! b = buffers w !! b) /\
  exists l, calls w' = calls w ++ l /\ Forall (frame_call objectInfos) l.

(** The record the loop of [main] pushes in turn [i], when the turn
    starts with [d] draws made, [h] typed arrays and [b] buffers. *)
Definition generated (env : host) (d h b i : nat) : ObjectInfo :=
  {| scale := random env (d + 5) (decimal 2 1) (decimal 5 1);
     uniformBuffer := b;
     uniformValues := h;
     bindGroup :=
       BindGroup ("triangle bind group for obj: " ++ pretty i) [(0, b)] |}.

(** The uniform values of the object generated from draw [d] on:
    colour, scale, offset, time and padding. *)
Definition initial_values (env : host) (d : nat) : list f32 :=
  [fround (random env d (of_Z 0) (of_Z 1));
   fround (random env (d + 1) (of_Z 0) (of_Z 1));
   fround (random env (d + 2) (of_Z 0) (of_Z 1));
   fround (of_Z 1);
   zero32; zero32;
   fround (random env (d + 3) (of_Z (-1)) (of_Z 1));
   fround (random env (d + 4) (of_Z (-1)) (of_Z 1));
   zero32; zero32; zero32; zero32].

(** The record of the object generated from draw [d] on, after a frame
    of time [time] on a canvas of aspect ratio [aspect]. *)
Definition record_values (env : host) (d : nat) (o : ObjectInfo)
    (time aspect : number) : list f32 :=
  [fround (random env d (of_Z 0) (of_Z 1));
   fround (random env (d + 1) (of_Z 0) (of_Z 1));
   fround (random env (d + 2) (of_Z 0) (of_Z 1));
   fround (of_Z 1);
   fround (div (scale o) aspect); fround (scale o);
   fround (random env (d + 3) (of_Z (-1)) (of_Z 1));
   fround (random env (d + 4) (of_Z (-1)) (of_Z 1));
   fround time; zero32; zero32; zero32].

(** The typed array [a] holds the record of an object that [main]
    generated from draw [d] on: its colour, offset and padding are as
    [main] left them, whatever the scale pair and the time are. *)
Definition record_of (env : host) (d : nat) (o : ObjectInfo) (a : list f32)
    : Prop :=
  scale o = random env (d + 5) (decimal 2 1) (decimal 5 1) /\
  exists s0 s1 t,
    a = [fround (random env d (of_Z 0) (of_Z 1));
         fround (random env (d + 1) (of_Z 0) (of_Z 1));
         fround (random env (d + 2) (of_Z 0) (of_Z 1));
         fround (of_Z 1);
         s0; s1;
         fround (random env (d + 3) (of_Z (-1)) (of_Z 1));
         fround (random env (d + 4) (of_Z (-1)) (of_Z 1));
         t; zero32; zero32; zero32].

(** The static fields of a record: the colour and the offset. *)
Definition static_part (a : list f32) : list f32 * list f32 :=
  (take 4 (drop kColorOffset a), take 2 (drop kOffsetOffset a)).

(** The object is as [main] made it: a drawn scale, uniform values
    that hold its drawn colour and offset, a buffer not yet written. *)
Definition started (env : host) (o : ObjectInfo) (w : world) : Prop :=
  uniformValues o < length (heap w) /\
  uniformBuffer o < length (buffers w) /\
  buffers w !! uniformBuffer o =
    Some (BufferState "uniforms for triangle" 48 (replicate 12 zero32)) /\
  exists d,
    scale o = random env (d + 5) (decimal 2 1) (decimal 5 1) /\
    heap w !! uniformValues o = Some (initial_values env d).

(** The state of the loop of [main] between two turns. *)
Definition generating (env : host) (objectInfos : list ObjectInfo)
    (w : world) : Prop :=
  ready objectInfos w /\
  Forall (fun o => started env o w) objectInfos.

(** The fields of the packed record, as the writes of [generate] and
    [update] lay them out. *)
Definition fields : list field :=
  [Field "color" kColorOffset 4; Field "scale" kScaleOffset 2;
   Field "offset" kOffsetOffset 2; Field "time" kTimeOffset 1].

(** One object of base scale 0.4 on a canvas twice as wide as high,
    with a white colour and no offset. *)
Definition one_object : ObjectInfo :=
  {| scale := decimal 4 1; uniformBuffer := 0; uniformValues := 0;
     bindGroup := BindGroup "triangle bind group for obj: 0" [(0, 0)] |}.
Definition one_object_world : world :=
  World (Some []) 300 150
    [[one32; one32; one32; one32; zero32; zero32; zero32; zero32;
      zero32; zero32; zero32; zero32]]
    [BufferState "uniforms for triangle" 48 (replicate 12 zero32)]
    [] 0 1.
End UniformStruct.

(** * Proofs *)

Local Open Scope Z_scope.

(** ** Rounding to binary32 *)

Lemma digits2_pos_size (m : positive) : digits2_pos m = Pos.size m.
Proof. induction m; simpl; congruence. Qed.

Lemma digits2_pos_upper (m : positive) : Z.pos m < 2 ^ Z.pos (digits2_pos m).
Proof.
  rewrite digits2_pos_size.
  pose proof (Pos.size_gt m) as H.
  apply Pos2Z.pos_lt_pos in H. rewrite Pos2Z.inj_pow in H. exact H.
Qed.

Lemma digits2_pos_lower (m : positive) : 2 ^ (Z.pos (digits2_pos m) - 1) <= Z.pos m.
Proof.
  rewrite digits2_pos_size.
  pose proof (Pos.size_le m) as H.
  apply Pos2Z.pos_le_pos in H. rewrite Pos2Z.inj_pow in H.
  replace (Z.pos (Pos.size m)) with (Z.succ (Z.pos (Pos.size m) - 1)) in H by lia.
  rewrite Z.pow_succ_r in H by lia. lia.
Qed.





Lemma Zdigits2_large (m k : Z) : 0 <= k -> 2 ^ k <= m -> k < Zdigits2 m.
Proof.
  intros Hk Hm.
  assert (0 < 2 ^ k) by (apply Z.pow_pos_nonneg; [done|exact Hk]).
  destruct m as [|p|p]; simpl; [exfalso| |exfalso].
  - clear Hk. eapply Z.lt_irrefl, Z.lt_le_trans; eassumption.
  - pose proof (digits2_pos_upper p) as Hup.
    destruct (Z.lt_ge_cases k (Z.pos (digits2_pos p))) as [|Hge]; [done|].
    exfalso. apply (Z.lt_irrefl (Z.pos p)).
    eapply Z.lt_le_trans; [exact Hup|].
    eapply Z.le_trans; [|exact Hm].
    apply Z.pow_le_mono_r; [done|exact Hge].
  - apply (Z.lt_irrefl 0). eapply Z.lt_le_trans; [eassumption|].
    eapply Z.le_trans; [exact Hm|]. done.
Qed.




Lemma valid64_canonical (s : bool) (m : positive) (e : Z) :
  valid_binary prec64 emax64 (S754_finite s m e) = true ->
  Z.max (Z.pos (digits2_pos m) + e - 53) (-1074) = e.
Proof.
  simpl. unfold bounded, canonical_mantissa. intros H.
  apply andb_prop in H as [H _]. apply Z.eqb_eq in H. exact H.
Qed.


Lemma SFleb_finite_pos (m1 m2 : positive) (e1 e2 : Z) :
  SFleb (S754_finite false m1 e1) (S754_finite false m2 e2) =
  match e1 ?= e2 with
  | Lt => true
  | Gt => false
  | Eq => Z.pos m1 <=? Z.pos m2
  end.
Proof.
  unfold SFleb, SFcompare.
  change (IntDef.Z.compare e1 e2) with (e1 ?= e2).
  destruct (e1 ?= e2); reflexivity.
Qed.





Lemma of_Z_one : of_Z 1 = S754_finite false 4503599627370496 (-52).
Proof. reflexivity. Qed.






Local Close Scope Z_scope.

(** ** Running the primitives *)

Lemma bind_run {A B} (m : M A) (k : A -> M B) (w w' : world) (a : A) :
  m w = (Return a, w') -> bind m k w = k a w'.
Proof. unfold bind. intros ->. reflexivity. Qed.

Lemma Float32Array_set_run (target : Float32Array) (values : list number)
    (offset : nat) (w : world) (a : list f32) :
  heap w !! target = Some a ->
  offset + length values <= length a ->
  Float32Array_set target values offset w =
  (Return tt,
   World (body w) (width w) (height w)
     (<[target := list_inserts offset (fround <$> values) a]> (heap w))
     (buffers w)
     (calls w ++ [TypedArraySet target (fround <$> values) offset])
     (drawn w) (scheduled w)).
Proof.
  intros Ha Hfit. unfold Float32Array_set, bind, get. rewrite Ha.
  rewrite decide_True by exact Hfit. reflexivity.
Qed.

Lemma Float32Array_set_out_of_range (target : Float32Array) (values : list number)
    (offset : nat) (w : world) (a : list f32) :
  heap w !! target = Some a ->
  length a < offset + length values ->
  Float32Array_set target values offset w = (Throw RangeError, w).
Proof.
  intros Ha Hfit. unfold Float32Array_set, bind, get. rewrite Ha.
  rewrite decide_False by lia. reflexivity.
Qed.

Lemma writeBuffer_run (buffer : GPUBuffer) (data : Float32Array) (w : world)
    (a : list f32) (b : buffer_state) :
  heap w !! data = Some a ->
  buffers w !! buffer = Some b ->
  4 * length a <= buf_size b ->
  writeBuffer buffer 0 data w =
  (Return tt,
   World (body w) (width w) (height w) (heap w)
     (<[buffer := BufferState (buf_label b) (buf_size b)
                    (list_inserts 0 a (buf_data b))]> (buffers w))
     (calls w ++ [WriteBuffer buffer 0 a])
     (drawn w) (scheduled w)).
Proof.
  intros Ha Hb Hfit. unfold writeBuffer, bind, get. rewrite Ha, Hb.
  rewrite decide_True by (split; [reflexivity|lia]). reflexivity.
Qed.

Lemma list_inserts_0_all {A} (k l : list A) :
  length k = length l -> list_inserts 0 k l = k.
Proof.
  intros Hlen. apply list_eq. intros j.
  destruct (decide (j < length l)) as [Hj|Hj].
  - rewrite list_lookup_inserts by lia. f_equal. lia.
  - rewrite list_lookup_inserts_ge by lia.
    rewrite !lookup_ge_None_2 by lia. reflexivity.
Qed.

Lemma for_of_cons {A} (x : A) (xs : list A) (f : A -> M unit) :
  for_of (x :: xs) f = (f x ;; for_of xs f).
Proof. reflexivity. Qed.

Lemma for_acc_cons {A B} (x : A) (xs : list A) (acc : B) (f : B -> A -> M B) :
  for_acc (x :: xs) acc f = (let* acc' := f acc x in for_acc xs acc' f).
Proof. reflexivity. Qed.

Lemma world_eta (w : world) :
  World (body w) (width w) (height w) (heap w) (buffers w) (calls w)
        (drawn w) (scheduled w) = w.
Proof. destruct w; reflexivity. Qed.


(** ** The storage-buffer demo *)

Lemma storage_update_loop (c : StorageBuffers.closure) (time aspect : number) (idx : list nat) :
  forall (w : world) (a : list f32),
    heap w !! StorageBuffers.storageValues c = Some a ->
    length a = 4 * length (StorageBuffers.objectInfos c) ->
    Forall (fun i => i < length (StorageBuffers.objectInfos c)) idx ->
    exists a' l,
      for_of idx (StorageBuffers.update_object c time aspect) w =
      (Return tt,
       World (body w) (width w) (height w)
         (<[StorageBuffers.storageValues c := a']> (heap w)) (buffers w)
         (calls w ++ l) (drawn w) (scheduled w)) /\
      length a' = length a /\
      Forall (is_set (StorageBuffers.storageValues c)) l /\
      (forall i o, i ∈ idx -> StorageBuffers.objectInfos c !! i = Some o ->
                   StorageBuffers.changing_record time aspect o i a') /\
      (forall j, (forall i, i ∈ idx -> ~ (i * 4 <= j < i * 4 + 3)) ->
                 a' !! j = a !! j).
Proof.
  induction idx as [|i idx IH]; intros w a Ha Hlen Hin.
  - exists a, []. simpl. split; [|split; [done|split; [constructor|split; [|done]]]].
    + unfold ret. rewrite list_insert_id by done. rewrite app_nil_r, world_eta. done.
    + intros i o Hi. by apply elem_of_nil in Hi.
  - apply Forall_cons in Hin as [Hi Hin].
    destruct (lookup_lt_is_Some_2 _ _ Hi) as [o Ho].
    pose proof (lookup_lt_Some _ _ _ Ha) as Hsv.
    set (a1 := list_inserts (i * 4 + 0)
                 (fround <$> [div (StorageBuffers.scale o) aspect; StorageBuffers.scale o]) a).
    set (a2 := list_inserts (i * 4 + 2) (fround <$> [time]) a1).
    assert (Hlen1 : length a1 = length a) by apply length_inserts.
    assert (Hlen2 : length a2 = length a)
      by (unfold a2; rewrite length_inserts; done).
    rewrite for_of_cons. unfold StorageBuffers.update_object at 1. rewrite Ho.
    change (StorageBuffers.changingUnitSize / 4) with 4.
    change StorageBuffers.kScaleOffset with 0. change StorageBuffers.kTimeOffset with 2.
    erewrite bind_run; last first.
    { erewrite bind_run; last first.
      { apply Float32Array_set_run with (a := a); [done|simpl; lia]. }
      apply Float32Array_set_run with (a := a1); simpl.
      - apply list_lookup_insert_eq. done.
      - lia. }
    fold a1. fold a2. cbn [body width height heap buffers calls drawn scheduled].
    match goal with |- context [for_of idx _ ?w1] =>
      destruct (IH w1 a2) as (a' & l & Hrun & Hlen' & Hsets & Hrec & Hframe) end.
    { cbn [heap]. rewrite list_insert_insert_eq. apply list_lookup_insert_eq. done. }
    { lia. }
    { done. }
    exists a', ([TypedArraySet (StorageBuffers.storageValues c)
                   (fround <$> [div (StorageBuffers.scale o) aspect; StorageBuffers.scale o]) (i * 4 + 0);
                 TypedArraySet (StorageBuffers.storageValues c) (fround <$> [time]) (i * 4 + 2)] ++ l).
    split; [|split; [lia|split; [|split]]].
    + rewrite Hrun.
      cbn [body width height heap buffers calls drawn scheduled].
      rewrite !list_insert_insert_eq.
      rewrite <- !app_assoc. reflexivity.
    + repeat constructor; [eexists _, _; reflexivity..|done].
    + intros i0 o0 Hi0 Ho0.
      destruct (decide (i0 ∈ idx)) as [Hmem|Hmem]; [by apply Hrec|].
      apply elem_of_cons in Hi0 as [->|?]; [|done].
      assert (o0 = o) as -> by congruence.
      assert (Hother : forall k, k < 3 -> forall i', i' ∈ idx ->
                ~ (i' * 4 <= i * 4 + k < i' * 4 + 3)).
      { intros k Hk i' Hi' Hr. assert (i' = i) by lia. subst. done. }
      unfold StorageBuffers.changing_record.
      replace (i * 4) with (i * 4 + 0) at 1 by lia.
      rewrite !Hframe by (apply Hother; lia).
      unfold a2. rewrite !list_lookup_inserts_lt by lia.
      rewrite (list_lookup_inserts _ (i * 4 + 2)) by (simpl; lia).
      unfold a1.
      rewrite !list_lookup_inserts by (simpl; lia).
      replace (i * 4 + 0 - (i * 4 + 0)) with 0 by lia.
      replace (i * 4 + 1 - (i * 4 + 0)) with 1 by lia.
      replace (i * 4 + 2 - (i * 4 + 2)) with 0 by lia.
      done.
    + intros j Hj. rewrite Hframe.
      2:{ intros i' Hi'. apply Hj. by apply elem_of_cons; right. }
      assert (~ (i * 4 <= j < i * 4 + 3)) by (apply Hj, elem_of_cons; by left).
      unfold a2, a1.
      destruct (decide (j < i * 4)).
      * rewrite !list_lookup_inserts_lt by lia. done.
      * rewrite !list_lookup_inserts_ge by (simpl; lia). done.
Qed.

Lemma rand_run (env : host) (lo hi : number) (w : world) :
  rand env lo hi w = (Return (random env (drawn w) lo hi), set_drawn (S (drawn w)) w).
Proof. reflexivity. Qed.

Tactic Notation "world_simpl" :=
  cbn [body width height heap buffers calls drawn scheduled
       set_body set_canvas set_heap set_buffers set_drawn set_scheduled].
Tactic Notation "world_simpl" "in" hyp(H) :=
  cbn [body width height heap buffers calls drawn scheduled
       set_body set_canvas set_heap set_buffers set_drawn set_scheduled] in H.

Ltac run_cbv :=
  cbv beta iota zeta delta
    [bind log ret throw createBuffer new_Float32Array get modify createBindGroup
     requestAnimationFrame displayError beginRenderPass endAndSubmit
     body width height heap buffers calls drawn scheduled
     set_body set_canvas set_heap set_buffers set_drawn set_scheduled].

Lemma storage_generate_run (env : host) (sr : Float32Array) (acc : list StorageBuffers.ObjectInfo)
    (i : nat) (w : world) (a : list f32) :
  heap w !! sr = Some a ->
  i * 8 + 6 <= length a ->
  StorageBuffers.generate env sr acc i w =
  (Return (acc ++ [{| StorageBuffers.scale := random env (drawn w + 5) (decimal 2 1) (decimal 5 1) |}]),
   World (body w) (width w) (height w)
     (<[sr := list_inserts (i * 8 + 4)
                (fround <$> [random env (drawn w + 3) (of_Z (-1)) (of_Z 1);
                             random env (drawn w + 4) (of_Z (-1)) (of_Z 1)])
                (list_inserts (i * 8 + 0)
                   (fround <$> [random env (drawn w) (of_Z 0) (of_Z 1);
                                random env (drawn w + 1) (of_Z 0) (of_Z 1);
                                random env (drawn w + 2) (of_Z 0) (of_Z 1);
                                of_Z 1]) a)]> (heap w))
     (buffers w)
     (calls w ++
      [TypedArraySet sr
         (fround <$> [random env (drawn w) (of_Z 0) (of_Z 1);
                      random env (drawn w + 1) (of_Z 0) (of_Z 1);
                      random env (drawn w + 2) (of_Z 0) (of_Z 1);
                      of_Z 1]) (i * 8 + 0);
       TypedArraySet sr
         (fround <$> [random env (drawn w + 3) (of_Z (-1)) (of_Z 1);
                      random env (drawn w + 4) (of_Z (-1)) (of_Z 1)]) (i * 8 + 4)])
     (drawn w + 6) (scheduled w)).
Proof.
  intros Ha Hfit. pose proof (lookup_lt_Some _ _ _ Ha) as Hsr.
  unfold StorageBuffers.generate.
  change (StorageBuffers.staticUnitSize / 4) with 8.
  change StorageBuffers.kColorOffset with 0. change StorageBuffers.kOffsetOffset with 4.
  do 3 (erewrite bind_run by apply rand_run). world_simpl.
  erewrite bind_run; last first.
  { eapply Float32Array_set_run; [exact Ha|]. simpl. lia. }
  do 2 (erewrite bind_run by apply rand_run). world_simpl.
  erewrite bind_run; last first.
  { eapply Float32Array_set_run.
    - world_simpl. apply list_lookup_insert_eq. exact Hsr.
    - rewrite length_inserts. simpl. lia. }
  erewrite bind_run by apply rand_run. world_simpl.
  unfold ret. rewrite list_insert_insert_eq, <- app_assoc.
  replace (S (drawn w)) with (drawn w + 1) by lia.
  replace (S (drawn w + 1)) with (drawn w + 2) by lia.
  replace (S (drawn w + 2)) with (drawn w + 3) by lia.
  replace (S (drawn w + 3)) with (drawn w + 4) by lia.
  replace (S (drawn w + 4)) with (drawn w + 5) by lia.
  replace (S (drawn w + 5)) with (drawn w + 6) by lia.
  reflexivity.
Qed.

Lemma storage_generate_record (env : host) (d i : nat) (a : list f32) :
  i * 8 + 6 <= length a ->
  StorageBuffers.static_record env d i
    (list_inserts (i * 8 + 4)
       (fround <$> [random env (d + 3) (of_Z (-1)) (of_Z 1);
                    random env (d + 4) (of_Z (-1)) (of_Z 1)])
       (list_inserts (i * 8 + 0)
          (fround <$> [random env d (of_Z 0) (of_Z 1);
                       random env (d + 1) (of_Z 0) (of_Z 1);
                       random env (d + 2) (of_Z 0) (of_Z 1);
                       of_Z 1]) a)).
Proof.
  intros Hfit. unfold StorageBuffers.static_record.
  replace (i * 8) with (i * 8 + 0) at 1 by lia.
  rewrite !(list_lookup_inserts_lt _ (i * 8 + 4)) by lia.
  rewrite !(list_lookup_inserts _ (i * 8 + 4)) by (rewrite ?length_inserts; simpl; lia).
  rewrite !(list_lookup_inserts _ (i * 8 + 0)) by (simpl; lia).
  replace (i * 8 + 0 - (i * 8 + 0)) with 0 by lia.
  replace (i * 8 + 1 - (i * 8 + 0)) with 1 by lia.
  replace (i * 8 + 2 - (i * 8 + 0)) with 2 by lia.
  replace (i * 8 + 3 - (i * 8 + 0)) with 3 by lia.
  replace (i * 8 + 4 - (i * 8 + 4)) with 0 by lia.
  replace (i * 8 + 5 - (i * 8 + 4)) with 1 by lia.
  done.
Qed.

Lemma storage_generate_loop (env : host) (sr : Float32Array) (total : nat) (n : nat) :
  forall (k : nat) (w : world) (a : list f32) (acc : list StorageBuffers.ObjectInfo),
    heap w !! sr = Some a ->
    length a = 8 * total ->
    k + n <= total ->
    exists a' l,
      for_acc (seq k n) acc (StorageBuffers.generate env sr) w =
      (Return (acc ++ ((fun j => {| StorageBuffers.scale :=
                 random env (drawn w + 6 * j + 5) (decimal 2 1) (decimal 5 1) |})
               <$> seq 0 n)),
       World (body w) (width w) (height w) (<[sr := a']> (heap w)) (buffers w)
             (calls w ++ l) (drawn w + 6 * n) (scheduled w)) /\
      length a' = length a /\
      Forall (is_set sr) l /\
      (forall j, j < n -> StorageBuffers.static_record env (drawn w + 6 * j) (k + j) a') /\
      (forall p, (forall i, k <= i < k + n -> ~ (i * 8 <= p < i * 8 + 6)) ->
                 a' !! p = a !! p).
Proof.
  induction n as [|n IH]; intros k w a acc Ha Hlen Hk.
  - exists a, []. simpl. unfold ret.
    rewrite list_insert_id by done.
    rewrite !app_nil_r, Nat.add_0_r, world_eta.
    split; [done|]. split; [done|]. split; [constructor|].
    split; [intros j Hj; lia|done].
  - pose proof (lookup_lt_Some _ _ _ Ha) as Hsr.
    rewrite <- cons_seq, for_acc_cons.
    erewrite bind_run by (apply storage_generate_run with (a := a); [done|lia]).
    match goal with |- context [<[sr := ?x]> (heap w)] => set (a1 := x) end.
    assert (Hlen1 : length a1 = length a)
      by (unfold a1; rewrite !length_inserts; done).
    match goal with |- context [for_acc _ ?acc1 _ ?w1] =>
      destruct (IH (S k) w1 a1 acc1) as (a' & l & Hrun & Hlen' & Hsets & Hrec & Hframe)
    end.
    { world_simpl. apply list_lookup_insert_eq. done. }
    { lia. }
    { lia. }
    rewrite Hrun. world_simpl.
    match goal with |- context [calls w ++ ?l0] => exists a', (l0 ++ l) end.
    split; [|split; [lia|split; [|split]]].
    + f_equal.
      * f_equal. rewrite <- app_assoc. f_equal. simpl. f_equal.
        { do 2 f_equal. lia. }
        rewrite <- fmap_S_seq, <- list_fmap_compose.
        apply list_fmap_ext. intros ? j ?. simpl. do 2 f_equal. lia.
      * rewrite list_insert_insert_eq, <- app_assoc.
        f_equal. lia.
    + apply Forall_app. split; [|done].
      repeat constructor; eexists _, _; reflexivity.
    + intros j Hj. destruct j as [|j].
      * rewrite Nat.mul_0_r, !Nat.add_0_r.
        assert (Hst : StorageBuffers.static_record env (drawn w) k a1)
          by (apply storage_generate_record; lia).
        unfold StorageBuffers.static_record in *.
        rewrite !Hframe by (intros i Hi; lia). exact Hst.
      * replace (drawn w + 6 * S j) with (drawn w + 6 + 6 * j) by lia.
        replace (k + S j) with (S k + j) by lia. apply Hrec. lia.
    + intros p Hp. rewrite Hframe by (intros i Hi; apply Hp; lia).
      assert (~ (k * 8 <= p < k * 8 + 6)) by (apply Hp; lia).
      unfold a1.
      destruct (decide (p < k * 8)).
      * rewrite !list_lookup_inserts_lt by lia. done.
      * rewrite !list_lookup_inserts_ge by (simpl; lia). done.
Qed.

Lemma insert_at_length {A} (l r : list A) (x y : A) :
  <[length l := y]> (l ++ x :: r) = l ++ y :: r.
Proof.
  replace (length l) with (length l + 0) by lia.
  rewrite insert_app_r. reflexivity.
Qed.

Lemma snoc_insert_last {A} (l : list A) (x y : A) :
  <[length l := y]> (l ++ [x]) = l ++ [y].
Proof. apply insert_at_length. Qed.

Lemma lookup_snoc_last {A} (l : list A) (x : A) : (l ++ [x]) !! length l = Some x.
Proof. apply list_lookup_middle. reflexivity. Qed.

Lemma storage_main_run (env : host) (N : nat) (w : world) :
  capable env ->
  exists (sdata : list f32) (sets : list call),
    StorageBuffers.main env N w =
    (Return (Some
       (StorageBuffers.Closure N
          ((fun j => {| StorageBuffers.scale :=
              random env (drawn w + 6 * j + 5) (decimal 2 1) (decimal 5 1) |})
           <$> seq 0 N)
          (length (buffers w)) (S (length (buffers w))) (S (length (heap w)))
          (BindGroup "bind group for objects"
             [(0, length (buffers w)); (1, S (length (buffers w)))]))),
     World (body w) (width w) (height w)
       (heap w ++ [sdata; replicate (StorageBuffers.changingUnitSize * N / 4) zero32])
       (buffers w ++
        [BufferState "static storage for triangles" (StorageBuffers.staticUnitSize * N) sdata;
         BufferState "changing storage for triangles" (StorageBuffers.changingUnitSize * N)
           (replicate (StorageBuffers.changingUnitSize * N / 4) zero32)])
       (calls w ++
        [RequestAdapter; RequestDevice; GetContext; GetPreferredCanvasFormat;
         Configure; CreateShaderModule "Triangle vertex shader";
         CreateRenderPipeline "Hardcoded WebGPU pipeline";
         CreateBuffer "static storage for triangles" (StorageBuffers.staticUnitSize * N);
         CreateBuffer "changing storage for triangles" (StorageBuffers.changingUnitSize * N)] ++
        sets ++
        [WriteBuffer (length (buffers w)) 0 sdata;
         CreateBindGroup
           (BindGroup "bind group for objects"
              [(0, length (buffers w)); (1, S (length (buffers w)))]);
         Observe; RequestAnimationFrame])
       (drawn w + 6 * N) (S (scheduled w))) /\
    length sdata = 8 * N /\
    Forall (is_set (length (heap w))) sets /\
    (forall i, i < N -> StorageBuffers.static_record env (drawn w + 6 * i) i sdata) /\
    (forall i, i < N -> sdata !! (i * 8 + 6) = Some zero32 /\
                        sdata !! (i * 8 + 7) = Some zero32).
Proof.
  intros (Hgpu & Had & Hcan & Hctx).
  assert (Hdiv8 : StorageBuffers.staticUnitSize * N / 4 = 8 * N).
  { change StorageBuffers.staticUnitSize with (8 * 4). rewrite <- Nat.mul_assoc, (Nat.mul_comm 4 N), Nat.mul_assoc.
    apply Nat.div_mul. done. }
  set (w3 := World (body w) (width w) (height w)
       (heap w ++ [replicate (StorageBuffers.staticUnitSize * N / 4) zero32])
       (buffers w ++
        [BufferState "static storage for triangles" (StorageBuffers.staticUnitSize * N)
           (replicate (StorageBuffers.staticUnitSize * N / 4) zero32);
         BufferState "changing storage for triangles" (StorageBuffers.changingUnitSize * N)
           (replicate (StorageBuffers.changingUnitSize * N / 4) zero32)])
       (calls w ++
        [RequestAdapter; RequestDevice; GetContext; GetPreferredCanvasFormat;
         Configure; CreateShaderModule "Triangle vertex shader";
         CreateRenderPipeline "Hardcoded WebGPU pipeline";
         CreateBuffer "static storage for triangles" (StorageBuffers.staticUnitSize * N);
         CreateBuffer "changing storage for triangles" (StorageBuffers.changingUnitSize * N)])
       (drawn w) (scheduled w)).
  destruct (storage_generate_loop env (length (heap w)) N N 0 w3
              (replicate (StorageBuffers.staticUnitSize * N / 4) zero32) [])
    as (sdata & sets & Hrun & Hlen & Hsets & Hrec & Hframe).
  { apply lookup_snoc_last. }
  { rewrite length_replicate. exact Hdiv8. }
  { lia. }
  rewrite length_replicate, Hdiv8 in Hlen.
  exists sdata, sets. split; [|split; [done|split; [done|split]]].
  - transitivity
      ((let* objectInfos :=
          for_acc (seq 0 N) [] (StorageBuffers.generate env (length (heap w))) in
        writeBuffer (length (buffers w)) 0 (length (heap w)) ;;
        let* storageValues := new_Float32Array (StorageBuffers.changingUnitSize * N / 4) in
        let* bindGroup :=
          createBindGroup "bind group for objects"
            [(0, length (buffers w)); (1, S (length (buffers w)))] in
        log Observe ;;
        requestAnimationFrame ;;
        ret (Some (StorageBuffers.Closure N objectInfos (length (buffers w))
                     (S (length (buffers w))) storageValues bindGroup))) w3).
    { unfold StorageBuffers.main, requestAdapter, getPreferredCanvasFormat, querySelector_canvas,
        getContext, requestDevice.
      rewrite Hgpu, Had, Hcan, Hctx.
      unfold w3, StorageBuffers.staticStorageBufferSize, StorageBuffers.changingStorageBufferSize.
      run_cbv. rewrite !length_app. simpl length.
      rewrite !Nat.add_1_r. rewrite <- !app_assoc. reflexivity. }
    subst w3. world_simpl in Hrun. rewrite app_nil_l in Hrun.
    erewrite bind_run by exact Hrun.
    world_simpl.
    rewrite snoc_insert_last.
    erewrite bind_run; last first.
    { eapply writeBuffer_run; world_simpl.
      - apply lookup_snoc_last.
      - apply list_lookup_middle. reflexivity.
      - cbn [buf_size]. change StorageBuffers.staticUnitSize with 32. lia. }
    world_simpl. cbn [buf_label buf_size buf_data].
    rewrite list_inserts_0_all by (rewrite length_replicate; lia).
    rewrite insert_at_length.
    run_cbv. rewrite !length_app. simpl length.
    rewrite !Nat.add_1_r. rewrite <- !app_assoc. reflexivity.
  - intros i Hi. specialize (Hrec i Hi). world_simpl in Hrec. exact Hrec.
  - intros i Hi.
    rewrite !Hframe by (intros i' Hi'; lia).
    rewrite Hdiv8. split; apply lookup_replicate_2; lia.
Qed.

Lemma storage_render_run (c : StorageBuffers.closure) (ts : option number) (w : world)
    (a : list f32) (b : buffer_state) :
  heap w !! StorageBuffers.storageValues c = Some a ->
  length a = 4 * length (StorageBuffers.objectInfos c) ->
  buffers w !! StorageBuffers.changingStorageBuffer c = Some b ->
  4 * length a <= buf_size b ->
  exists a' sets,
    StorageBuffers.render c ts w =
    (Return tt,
     World (body w) (width w) (height w)
       (<[StorageBuffers.storageValues c := a']> (heap w))
       (<[StorageBuffers.changingStorageBuffer c :=
            BufferState (buf_label b) (buf_size b)
              (list_inserts 0 a' (buf_data b))]> (buffers w))
       (calls w ++
        [RequestAnimationFrame; CreateCommandEncoder; BeginRenderPass; SetPipeline] ++
        sets ++
        [WriteBuffer (StorageBuffers.changingStorageBuffer c) 0 a';
         SetBindGroup 0 (StorageBuffers.bindGroup c); Draw 3 (StorageBuffers.kNumObjects c);
         End_; Finish; Submit])
       (drawn w) (S (scheduled w))) /\
    length a' = length a /\
    Forall (is_set (StorageBuffers.storageValues c)) sets /\
    (forall i o, StorageBuffers.objectInfos c !! i = Some o ->
       StorageBuffers.changing_record (default (of_Z 0) ts)
         (div (of_Z (width w)) (of_Z (height w))) o i a') /\
    (forall j, j `mod` 4 = 3 \/ length a <= j -> a' !! j = a !! j).
Proof.
  intros Ha Hlen Hb Hfit.
  pose proof (lookup_lt_Some _ _ _ Ha) as Hsv.
  set (w1 := World (body w) (width w) (height w) (heap w) (buffers w)
               (calls w ++ [RequestAnimationFrame; CreateCommandEncoder;
                            BeginRenderPass; SetPipeline])
               (drawn w) (S (scheduled w))).
  destruct (storage_update_loop c (default (of_Z 0) ts)
              (div (of_Z (width w)) (of_Z (height w)))
              (seq 0 (length (StorageBuffers.objectInfos c))) w1 a)
    as (a' & sets & Hrun & Hlen' & Hsets & Hrec & Hframe).
  { exact Ha. }
  { exact Hlen. }
  { apply Forall_forall. intros i Hi. apply elem_of_seq in Hi. lia. }
  exists a', sets. split; [|split; [done|split; [done|split]]].
  - transitivity
      ((StorageBuffers.update c (default (of_Z 0) ts) (div (of_Z (width w)) (of_Z (height w))) ;;
        writeBuffer (StorageBuffers.changingStorageBuffer c) 0 (StorageBuffers.storageValues c) ;;
        log (SetBindGroup 0 (StorageBuffers.bindGroup c)) ;;
        log (Draw 3 (StorageBuffers.kNumObjects c)) ;;
        endAndSubmit) w1).
    { unfold StorageBuffers.render, w1. run_cbv. rewrite <- !app_assoc. reflexivity. }
    unfold StorageBuffers.update. erewrite bind_run by exact Hrun.
    subst w1. world_simpl.
    erewrite bind_run; last first.
    { eapply writeBuffer_run; world_simpl.
      - apply list_lookup_insert_eq. exact Hsv.
      - exact Hb.
      - lia. }
    run_cbv. rewrite <- !app_assoc. reflexivity.
  - intros i o Ho. apply Hrec; [|done].
    apply elem_of_seq. apply lookup_lt_Some in Ho. lia.
  - intros j Hj. apply Hframe. intros i Hi Hr. apply elem_of_seq in Hi.
    destruct Hj as [Hj|Hj]; [|lia].
    pose proof (Nat.div_mod_eq j 4). lia.
Qed.

Lemma storage_untouched_refl (c : StorageBuffers.closure) (w : world) : StorageBuffers.untouched c w w.
Proof.
  repeat split; try done. exists []. rewrite app_nil_r. split; [done|constructor].
Qed.

Lemma storage_untouched_trans (c : StorageBuffers.closure) (w1 w2 w3 : world) :
  StorageBuffers.untouched c w1 w2 -> StorageBuffers.untouched c w2 w3 -> StorageBuffers.untouched c w1 w3.
Proof.
  intros (Hb1 & Hd1 & Hh1 & Hg1 & l1 & Hc1 & Hl1) (Hb2 & Hd2 & Hh2 & Hg2 & l2 & Hc2 & Hl2).
  split; [congruence|]. split; [congruence|].
  split; [intros r Hr; rewrite Hh2, Hh1; done|].
  split; [intros b Hb; rewrite Hg2, Hg1; done|].
  exists (l1 ++ l2). split; [rewrite Hc2, Hc1, app_assoc; done|by apply Forall_app].
Qed.

Lemma storage_is_set_frame_call (c : StorageBuffers.closure) (l : list call) :
  Forall (is_set (StorageBuffers.storageValues c)) l -> Forall (StorageBuffers.frame_call c) l.
Proof.
  intros H. eapply Forall_impl; [exact H|].
  intros e (vs & off & ->). reflexivity.
Qed.

Lemma storage_deliver_ready (c : StorageBuffers.closure) (f : frame) (w : world) :
  StorageBuffers.ready c w ->
  StorageBuffers.ready c (deliver (StorageBuffers.render c) f w) /\
  StorageBuffers.untouched c w (deliver (StorageBuffers.render c) f w) /\
  (0 < scheduled w -> scheduled (deliver (StorageBuffers.render c) f w) = scheduled w).
Proof.
  intros (a & b & Ha & Hlen & Hb & Hfit & Hdata). unfold deliver.
  destruct (scheduled w) as [|n] eqn:Hs.
  { split; [by exists a, b|]. split; [apply storage_untouched_refl|lia]. }
  set (w1 := set_canvas _ _ _).
  destruct (storage_render_run c (timeStamp f) w1 a b) as (a' & sets & Hrun & Hlen' & Hsets & _);
    [done..|].
  rewrite Hrun. cbn [snd]. subst w1. world_simpl.
  pose proof (lookup_lt_Some _ _ _ Ha) as Hsv.
  pose proof (lookup_lt_Some _ _ _ Hb) as Hcb.
  split; [|split; [|done]].
  - eexists a', _. world_simpl.
    split; [apply list_lookup_insert_eq; done|].
    split; [lia|].
    split; [apply list_lookup_insert_eq; done|].
    cbn [buf_size buf_data]. split; [lia|].
    rewrite length_inserts. lia.
  - split; [done|]. split; [done|]. world_simpl.
    split; [intros r Hr; apply list_lookup_insert_ne; done|].
    split; [intros h Hh; apply list_lookup_insert_ne; done|].
    eexists. split; [reflexivity|].
    repeat (apply Forall_cons; split; [exact I|]).
    apply Forall_app. split; [by apply storage_is_set_frame_call|].
    repeat (apply Forall_cons; split; [done|]). constructor.
Qed.

Lemma storage_run_ready (c : StorageBuffers.closure) (fs : list frame) :
  forall w, StorageBuffers.ready c w ->
    StorageBuffers.ready c (run (StorageBuffers.render c) fs w) /\
    StorageBuffers.untouched c w (run (StorageBuffers.render c) fs w) /\
    (0 < scheduled w -> scheduled (run (StorageBuffers.render c) fs w) = scheduled w).
Proof.
  induction fs as [|f fs IH]; intros w Hr.
  - split; [done|]. split; [apply storage_untouched_refl|done].
  - destruct (storage_deliver_ready c f w Hr) as (Hr1 & Hu1 & Hs1).
    destruct (IH _ Hr1) as (Hr2 & Hu2 & Hs2).
    change (run (StorageBuffers.render c) (f :: fs) w)
      with (run (StorageBuffers.render c) fs (deliver (StorageBuffers.render c) f w)).
    split; [done|]. split; [by eapply storage_untouched_trans|].
    intros Hpos. rewrite Hs2 by (rewrite Hs1; done). by apply Hs1.
Qed.

(** *** One frame of the storage demo, from a world the closure fits *)

Lemma storage_frame (c : StorageBuffers.closure) (ts : option number) (w : world) :
  StorageBuffers.ready c w ->
  exists a a' b sets,
    heap w !! StorageBuffers.storageValues c = Some a /\
    buffers w !! StorageBuffers.changingStorageBuffer c = Some b /\
    StorageBuffers.render c ts w =
    (Return tt,
     World (body w) (width w) (height w)
       (<[StorageBuffers.storageValues c := a']> (heap w))
       (<[StorageBuffers.changingStorageBuffer c :=
            BufferState (buf_label b) (buf_size b) a']> (buffers w))
       (calls w ++
        [RequestAnimationFrame; CreateCommandEncoder; BeginRenderPass; SetPipeline] ++
        sets ++
        [WriteBuffer (StorageBuffers.changingStorageBuffer c) 0 a';
         SetBindGroup 0 (StorageBuffers.bindGroup c);
         Draw 3 (StorageBuffers.kNumObjects c);
         End_; Finish; Submit])
       (drawn w) (S (scheduled w))) /\
    length a' = 4 * length (StorageBuffers.objectInfos c) /\
    Forall (is_set (StorageBuffers.storageValues c)) sets /\
    (forall i o, StorageBuffers.objectInfos c !! i = Some o ->
       StorageBuffers.changing_record (default (of_Z 0) ts)
         (div (of_Z (width w)) (of_Z (height w))) o i a') /\
    (forall j, j `mod` 4 = 3 -> a' !! j = a !! j).
Proof.
  intros (a & b & Ha & Hlen & Hb & Hfit & Hdata).
  destruct (storage_render_run c ts w a b Ha Hlen Hb Hfit)
    as (a' & sets & Hrun & Hlen' & Hsets & Hrec & Hframe).
  exists a, a', b, sets.
  rewrite list_inserts_0_all in Hrun by lia.
  split; [done|]. split; [done|]. split; [done|]. split; [lia|].
  split; [done|]. split; [done|].
  intros j Hj. apply Hframe. by left.
Qed.

(** The slots of the changing values, read by index. *)
Lemma storage_changing_lookup (time aspect : number)
    (objs : list StorageBuffers.ObjectInfo) (a : list f32) (j : nat) :
  (forall i o, objs !! i = Some o ->
     StorageBuffers.changing_record time aspect o i a) ->
  j < 4 * length objs ->
  j `mod` 4 <> 3 ->
  exists o, objs !! (j `div` 4) = Some o /\
    a !! j = Some (match j `mod` 4 with
                   | 0 => fround (div (StorageBuffers.scale o) aspect)
                   | 1 => fround (StorageBuffers.scale o)
                   | _ => fround time
                   end).
Proof.
  intros Hrec Hj Hmod.
  pose proof (Nat.div_mod_eq j 4) as Hdm.
  pose proof (Nat.mod_upper_bound j 4) as Hub.
  destruct (lookup_lt_is_Some_2 objs (j `div` 4)) as [o Ho]; [lia|].
  exists o. split; [done|].
  destruct (Hrec _ _ Ho) as (H0 & H1 & H2).
  destruct (j `mod` 4) as [|[|[|n]]] eqn:Hm.
  - rewrite <- H0. f_equal. lia.
  - rewrite <- H1. f_equal. lia.
  - rewrite <- H2. f_equal. lia.
  - lia.
Qed.

(** Two arrays of changing values that hold the same records and the
    same padding are the same array. *)
Lemma storage_changing_ext (time aspect : number)
    (objs : list StorageBuffers.ObjectInfo) (a1 a2 : list f32) :
  length a1 = 4 * length objs ->
  length a2 = 4 * length objs ->
  (forall i o, objs !! i = Some o ->
     StorageBuffers.changing_record time aspect o i a1) ->
  (forall i o, objs !! i = Some o ->
     StorageBuffers.changing_record time aspect o i a2) ->
  (forall j, j `mod` 4 = 3 -> a2 !! j = a1 !! j) ->
  a2 = a1.
Proof.
  intros Hl1 Hl2 Hr1 Hr2 Hpad. apply list_eq. intros j.
  destruct (decide (j < 4 * length objs)) as [Hj|Hj].
  - destruct (decide (j `mod` 4 = 3)) as [Hm|Hm]; [by apply Hpad|].
    destruct (storage_changing_lookup _ _ _ _ j Hr1 Hj Hm) as (o1 & Ho1 & E1).
    destruct (storage_changing_lookup _ _ _ _ j Hr2 Hj Hm) as (o2 & Ho2 & E2).
    rewrite E1, E2. assert (o2 = o1) as -> by congruence. reflexivity.
  - rewrite !lookup_ge_None_2 by lia. done.
Qed.

Lemma lookup_app_first {A} (l : list A) (x y : A) :
  (l ++ [x; y]) !! length l = Some x.
Proof. apply list_lookup_middle. reflexivity. Qed.

Lemma lookup_app_second {A} (l : list A) (x y : A) :
  (l ++ [x; y]) !! S (length l) = Some y.
Proof.
  rewrite lookup_app_r by lia.
  replace (S (length l) - length l) with 1 by lia. reflexivity.
Qed.

(** The storage demo starts from a world its closure fits. *)
Lemma storage_main_ready (env : host) (N : nat) (w : world) :
  capable env ->
  exists c w',
    StorageBuffers.main env N w = (Return (Some c), w') /\
    StorageBuffers.ready c w' /\
    scheduled w' = S (scheduled w) /\
    length (StorageBuffers.objectInfos c) = N /\
    StorageBuffers.kNumObjects c = N /\
    StorageBuffers.staticStorageBuffer c <> StorageBuffers.changingStorageBuffer c.
Proof.
  intros Hcap.
  destruct (storage_main_run env N w Hcap) as (sdata & sets & Hrun & _).
  eexists _, _. split; [exact Hrun|].
  cbn [StorageBuffers.objectInfos StorageBuffers.kNumObjects
       StorageBuffers.staticStorageBuffer StorageBuffers.changingStorageBuffer].
  rewrite length_fmap, length_seq.
  assert (Hdiv4 : StorageBuffers.changingUnitSize * N / 4 = 4 * N).
  { change StorageBuffers.changingUnitSize with 16.
    replace (16 * N) with (4 * N * 4) by lia. apply Nat.div_mul. done. }
  split; [|split; [done|split; [done|split; [done|lia]]]].
  eexists _, _. world_simpl.
  cbn [StorageBuffers.storageValues StorageBuffers.changingStorageBuffer
       StorageBuffers.objectInfos].
  split; [apply lookup_app_second|].
  rewrite length_replicate, length_fmap, length_seq, Hdiv4.
  split; [done|]. split; [apply lookup_app_second|].
  cbn [buf_size buf_data]. rewrite ?length_replicate, ?Hdiv4.
  change StorageBuffers.changingUnitSize with 16. split; lia.
Qed.

(** What [main] of the storage demo leaves behind. *)
Lemma storage_main_facts (env : host) (N : nat) (w : world) :
  capable env ->
  exists c w1 sdata sets,
    StorageBuffers.main env N w = (Return (Some c), w1) /\
    StorageBuffers.ready c w1 /\
    StorageBuffers.kNumObjects c = N /\
    StorageBuffers.objectInfos c =
      ((fun j => {| StorageBuffers.scale :=
          random env (drawn w + 6 * j + 5) (decimal 2 1) (decimal 5 1) |})
       <$> seq 0 N) /\
    StorageBuffers.staticStorageBuffer c <> StorageBuffers.changingStorageBuffer c /\
    buffers w1 !! StorageBuffers.staticStorageBuffer c =
      Some (BufferState "static storage for triangles"
              (StorageBuffers.staticUnitSize * N) sdata) /\
    buffers w1 !! StorageBuffers.changingStorageBuffer c =
      Some (BufferState "changing storage for triangles"
              (StorageBuffers.changingUnitSize * N) (replicate (4 * N) zero32)) /\
    heap w1 !! StorageBuffers.storageValues c = Some (replicate (4 * N) zero32) /\
    calls w1 =
      calls w ++
      [RequestAdapter; RequestDevice; GetContext; GetPreferredCanvasFormat;
       Configure; CreateShaderModule "Triangle vertex shader";
       CreateRenderPipeline "Hardcoded WebGPU pipeline";
       CreateBuffer "static storage for triangles" (StorageBuffers.staticUnitSize * N);
       CreateBuffer "changing storage for triangles"
         (StorageBuffers.changingUnitSize * N)] ++
      sets ++
      [WriteBuffer (StorageBuffers.staticStorageBuffer c) 0 sdata;
       CreateBindGroup (StorageBuffers.bindGroup c);
       Observe; RequestAnimationFrame] /\
    (exists t, Forall (is_set t) sets) /\
    body w1 = body w /\
    scheduled w1 = S (scheduled w) /\
    length sdata = 8 * N /\
    (forall i, i < N ->
       StorageBuffers.static_record env (drawn w + 6 * i) i sdata) /\
    (forall i, i < N -> sdata !! (i * 8 + 6) = Some zero32 /\
                        sdata !! (i * 8 + 7) = Some zero32).
Proof.
  intros Hcap.
  destruct (storage_main_run env N w Hcap)
    as (sdata & sets & Hrun & Hlen & Hsets & Hrec & Hpad).
  destruct (storage_main_ready env N w Hcap)
    as (c & w1 & Hrun' & Hready & Hsch & _ & _ & _).
  rewrite Hrun in Hrun'. injection Hrun' as <- <-.
  assert (Hdiv4 : StorageBuffers.changingUnitSize * N / 4 = 4 * N).
  { change StorageBuffers.changingUnitSize with 16.
    replace (16 * N) with (4 * N * 4) by lia. apply Nat.div_mul. done. }
  eexists _, _, sdata, sets. split; [exact Hrun|].
  split; [exact Hready|].
  cbn [StorageBuffers.kNumObjects StorageBuffers.objectInfos
       StorageBuffers.staticStorageBuffer StorageBuffers.changingStorageBuffer
       StorageBuffers.storageValues StorageBuffers.bindGroup].
  world_simpl. rewrite Hdiv4.
  split; [done|]. split; [done|]. split; [lia|].
  split; [apply lookup_app_first|]. split; [apply lookup_app_second|].
  split; [apply lookup_app_second|]. split; [done|].
  split; [by eexists|]. split; [done|]. split; [done|]. done.
Qed.

(** ** The demo with two uniform buffers per object *)

Lemma uniforms_update_run (time aspect : number) (o : Uniforms.ObjectInfo)
    (w : world) (a : list f32) (b : buffer_state) :
  heap w !! Uniforms.uniformValues o = Some a ->
  length a = Uniforms.uniformBufferSize / 4 ->
  buffers w !! Uniforms.uniformBuffer o = Some b ->
  buf_size b = Uniforms.uniformBufferSize ->
  length (buf_data b) = Uniforms.uniformBufferSize / 4 ->
  Uniforms.update time aspect o w =
  (Return tt,
   World (body w) (width w) (height w)
     (<[Uniforms.uniformValues o := Uniforms.updated time aspect o a]> (heap w))
     (<[Uniforms.uniformBuffer o :=
          BufferState (buf_label b) (buf_size b)
            (Uniforms.updated time aspect o a)]> (buffers w))
     (calls w ++
      [TypedArraySet (Uniforms.uniformValues o)
         (fround <$> [div (Uniforms.scale o) aspect; Uniforms.scale o])
         Uniforms.kScaleOffset;
       TypedArraySet (Uniforms.uniformValues o) (fround <$> [time])
         Uniforms.kTimeOffset;
       WriteBuffer (Uniforms.uniformBuffer o) 0 (Uniforms.updated time aspect o a);
       SetBindGroup 0 (Uniforms.bindGroup o); Draw 3 1])
     (drawn w) (scheduled w)).
Proof.
  intros Ha Hlen Hb Hsize Hdata.
  change (Uniforms.uniformBufferSize / 4) with 4 in *.
  pose proof (lookup_lt_Some _ _ _ Ha) as Huv.
  unfold Uniforms.update.
  erewrite bind_run; last first.
  { eapply Float32Array_set_run; [exact Ha|]. simpl. unfold Uniforms.kScaleOffset. lia. }
  erewrite bind_run; last first.
  { eapply Float32Array_set_run; world_simpl.
    - apply list_lookup_insert_eq. exact Huv.
    - rewrite length_inserts. simpl. unfold Uniforms.kTimeOffset. lia. }
  world_simpl. rewrite list_insert_insert_eq.
  fold (Uniforms.updated time aspect o a).
  assert (Hlen' : length (Uniforms.updated time aspect o a) = 4)
    by (unfold Uniforms.updated; rewrite !length_inserts; done).
  erewrite bind_run; last first.
  { eapply writeBuffer_run; world_simpl.
    - apply list_lookup_insert_eq. exact Huv.
    - exact Hb.
    - rewrite Hsize, Hlen'. done. }
  rewrite list_inserts_0_all by lia.
  run_cbv. rewrite <- !app_assoc. reflexivity.
Qed.

Lemma uniforms_updated_record (time aspect : number) (o : Uniforms.ObjectInfo)
    (a : list f32) :
  length a = Uniforms.uniformBufferSize / 4 ->
  exists pad, a !! 3 = Some pad /\
    Uniforms.updated time aspect o a =
    [fround (div (Uniforms.scale o) aspect); fround (Uniforms.scale o);
     fround time; pad].
Proof.
  change (Uniforms.uniformBufferSize / 4) with 4. intros Hlen.
  destruct a as [|x0 [|x1 [|x2 [|x3 [|x4 a]]]]]; try discriminate.
  exists x3. split; reflexivity.
Qed.

Lemma uniforms_fits_unchanged (o : Uniforms.ObjectInfo) (w w' : world) :
  heap w' !! Uniforms.uniformValues o = heap w !! Uniforms.uniformValues o ->
  buffers w' !! Uniforms.uniformBuffer o = buffers w !! Uniforms.uniformBuffer o ->
  Uniforms.fits o w -> Uniforms.fits o w'.
Proof.
  intros Hh Hb (a & b & Ha & Hlen & Hbuf & Hrest).
  exists a, b. rewrite Hh, Hb. done.
Qed.

Lemma uniforms_render_loop (time aspect : number) (objs : list Uniforms.ObjectInfo) :
  forall w,
    Uniforms.ready objs w ->
    exists w',
      for_of objs (Uniforms.update time aspect) w = (Return tt, w') /\
      body w' = body w /\ width w' = width w /\ height w' = height w /\
      drawn w' = drawn w /\ scheduled w' = scheduled w /\
      (forall o a, o ∈ objs -> heap w !! Uniforms.uniformValues o = Some a ->
         heap w' !! Uniforms.uniformValues o =
           Some (Uniforms.updated time aspect o a) /\
         exists b, buffers w !! Uniforms.uniformBuffer o = Some b /\
           buffers w' !! Uniforms.uniformBuffer o =
             Some (BufferState (buf_label b) (buf_size b)
                     (Uniforms.updated time aspect o a))) /\
      (forall r, r ∉ Uniforms.uniformValues <$> objs -> heap w' !! r = heap w !! r) /\
      (forall h, h ∉ Uniforms.uniformBuffer <$> objs ->
                 buffers w' !! h = buffers w !! h) /\
      exists l, calls w' = calls w ++ l /\ Forall (Uniforms.frame_call objs) l.
Proof.
  induction objs as [|o objs IH]; intros w (Hfits & Hnd1 & Hnd2).
  - exists w. simpl. unfold ret. split; [done|]. do 5 (split; [done|]).
    split; [intros ? ? Ho; by apply elem_of_nil in Ho|].
    split; [done|]. split; [done|].
    exists []. rewrite app_nil_r. split; [done|constructor].
  - apply Forall_cons in Hfits as [Hfit Hfits].
    rewrite fmap_cons in Hnd1, Hnd2.
    apply NoDup_cons in Hnd1 as [Hnot1 Hnd1].
    apply NoDup_cons in Hnd2 as [Hnot2 Hnd2].
    destruct Hfit as (a & b & Ha & Hlen & Hb & Hsize & Hdata).
    rewrite for_of_cons.
    erewrite bind_run by (by apply uniforms_update_run with (b := b)).
    match goal with |- context [for_of objs _ ?w0] => set (w1 := w0) end.
    assert (Hh1 : forall r, r <> Uniforms.uniformValues o -> heap w1 !! r = heap w !! r)
      by (intros r Hr; apply list_lookup_insert_ne; done).
    assert (Hb1 : forall h, h <> Uniforms.uniformBuffer o -> buffers w1 !! h = buffers w !! h)
      by (intros h Hh; apply list_lookup_insert_ne; done).
    assert (Hne1 : forall o', o' ∈ objs -> Uniforms.uniformValues o' <> Uniforms.uniformValues o).
    { intros o' Ho' E. apply Hnot1. rewrite <- E. by apply list_elem_of_fmap_2. }
    assert (Hne2 : forall o', o' ∈ objs -> Uniforms.uniformBuffer o' <> Uniforms.uniformBuffer o).
    { intros o' Ho' E. apply Hnot2. rewrite <- E. by apply list_elem_of_fmap_2. }
    destruct (IH w1) as (w' & Hrun & Hbody & Hwid & Hhei & Hdr & Hsch & Hobj & Hheap & Hbuf & l & Hcalls & Hl).
    { split; [|done]. apply Forall_forall. intros o' Ho'.
      rewrite Forall_forall in Hfits.
      apply (uniforms_fits_unchanged o' w w1); [apply Hh1|apply Hb1|]; auto. }
    exists w'. rewrite Hrun. split; [done|].
    split; [done|]. split; [done|]. split; [done|]. split; [done|]. split; [done|].
    pose proof (lookup_lt_Some _ _ _ Ha) as Huv.
    pose proof (lookup_lt_Some _ _ _ Hb) as Hub.
    split; [|split; [|split]].
    + intros o' a' Ho' Ha'.
      apply elem_of_cons in Ho' as [->|Hmem].
      * assert (a' = a) as -> by congruence.
        split.
        { rewrite Hheap by done. unfold w1. world_simpl.
          apply list_lookup_insert_eq. done. }
        exists b. split; [done|].
        rewrite Hbuf by done. unfold w1. world_simpl.
        apply list_lookup_insert_eq. done.
      * destruct (Hobj o' a' Hmem) as (Hres & b' & Hb' & Hres').
        { rewrite Hh1; auto. }
        split; [done|]. exists b'. rewrite <- Hb1 by auto. done.
    + intros r Hr. rewrite fmap_cons in Hr. apply not_elem_of_cons in Hr as [Hr1 Hr2].
      rewrite Hheap by done. apply Hh1. done.
    + intros h Hh. rewrite fmap_cons in Hh. apply not_elem_of_cons in Hh as [Hh0 Hh2].
      rewrite Hbuf by done. apply Hb1. done.
    + eexists. split.
      { rewrite Hcalls. unfold w1. world_simpl. rewrite <- app_assoc. reflexivity. }
      apply Forall_app. split.
      * repeat (apply Forall_cons; split); try exact I; try constructor;
          cbn [Uniforms.frame_call]; rewrite fmap_cons; apply elem_of_cons; by left.
      * eapply Forall_impl; [exact Hl|]. intros e He.
        destruct e; cbn [Uniforms.frame_call] in *; try done;
          rewrite fmap_cons; apply elem_of_cons; by right.
Qed.

Lemma createBuffer_run (label : string) (size : nat) (w : world) :
  createBuffer label size w =
  (Return (length (buffers w)),
   World (body w) (width w) (height w) (heap w)
     (buffers w ++ [BufferState label size (replicate (size / 4) zero32)])
     (calls w ++ [CreateBuffer label size]) (drawn w) (scheduled w)).
Proof. reflexivity. Qed.

Lemma new_Float32Array_run (n : nat) (w : world) :
  new_Float32Array n w =
  (Return (length (heap w)),
   World (body w) (width w) (height w) (heap w ++ [replicate n zero32])
     (buffers w) (calls w) (drawn w) (scheduled w)).
Proof. reflexivity. Qed.

Lemma createBindGroup_run (label : string) (entries : list (nat * GPUBuffer))
    (w : world) :
  createBindGroup label entries w =
  (Return (BindGroup label entries),
   World (body w) (width w) (height w) (heap w) (buffers w)
     (calls w ++ [CreateBindGroup (BindGroup label entries)])
     (drawn w) (scheduled w)).
Proof. reflexivity. Qed.

Lemma uniforms_generate_run (env : host) (acc : list Uniforms.ObjectInfo)
    (i : nat) (w : world) :
  Uniforms.generate env acc i w =
  (Return (acc ++ [Uniforms.generated env (drawn w) (length (heap w)) (length (buffers w)) i]),
   World (body w) (width w) (height w)
     (heap w ++ [Uniforms.static_values env (drawn w); replicate 4 zero32])
     (buffers w ++
      [BufferState "static uniforms for triangles" 32 (Uniforms.static_values env (drawn w));
       BufferState "uniforms for triangles" 16 (replicate 4 zero32)])
     (calls w ++
      [CreateBuffer "static uniforms for triangles" 32;
       TypedArraySet (length (heap w))
         (fround <$> [random env (drawn w) (of_Z 0) (of_Z 1);
                      random env (drawn w + 1) (of_Z 0) (of_Z 1);
                      random env (drawn w + 2) (of_Z 0) (of_Z 1);
                      of_Z 1]) 0;
       TypedArraySet (length (heap w))
         (fround <$> [random env (drawn w + 3) (of_Z (-1)) (of_Z 1);
                      random env (drawn w + 4) (of_Z (-1)) (of_Z 1)]) 4;
       WriteBuffer (length (buffers w)) 0 (Uniforms.static_values env (drawn w));
       CreateBuffer "uniforms for triangles" 16;
       TypedArraySet (S (length (heap w))) (fround <$> [of_Z 0]) 2;
       CreateBindGroup
         (BindGroup ("triangle bind group for obj: " ++ pretty i)
            [(0, length (buffers w)); (1, S (length (buffers w)))])])
     (drawn w + 6) (scheduled w)).
Proof.
  unfold Uniforms.generate.
  change Uniforms.staticUniformBufferSize with 32.
  change Uniforms.uniformBufferSize with 16.
  change (32 / 4) with 8. change (16 / 4) with 4.
  change Uniforms.kColorOffset with 0. change Uniforms.kOffsetOffset with 4.
  change Uniforms.kTimeOffset with 2.
  erewrite bind_run by apply createBuffer_run.
  erewrite bind_run by apply new_Float32Array_run. world_simpl.
  do 3 (erewrite bind_run by apply rand_run). world_simpl.
  erewrite bind_run; last first.
  { eapply Float32Array_set_run; world_simpl; [apply lookup_snoc_last|].
    rewrite length_replicate. simpl. lia. }
  world_simpl. rewrite snoc_insert_last.
  do 2 (erewrite bind_run by apply rand_run). world_simpl.
  erewrite bind_run; last first.
  { eapply Float32Array_set_run; world_simpl; [apply lookup_snoc_last|].
    rewrite length_inserts, length_replicate. simpl. lia. }
  world_simpl. rewrite snoc_insert_last.
  replace (S (drawn w)) with (drawn w + 1) by lia.
  replace (S (drawn w + 1)) with (drawn w + 2) by lia.
  replace (S (drawn w + 2)) with (drawn w + 3) by lia.
  replace (S (drawn w + 3)) with (drawn w + 4) by lia.
  replace (S (drawn w + 4)) with (drawn w + 5) by lia.
  change (list_inserts 4 _ (list_inserts 0 _ (replicate 8 zero32)))
    with (Uniforms.static_values env (drawn w)).
  erewrite bind_run; last first.
  { eapply writeBuffer_run; world_simpl.
    - apply lookup_snoc_last.
    - apply lookup_snoc_last.
    - simpl. lia. }
  world_simpl. cbn [buf_label buf_size buf_data].
  rewrite snoc_insert_last.
  rewrite (list_inserts_0_all (Uniforms.static_values env (drawn w))) by reflexivity.
  erewrite bind_run by apply new_Float32Array_run. world_simpl.
  erewrite bind_run by apply createBuffer_run. world_simpl.
  erewrite bind_run; last first.
  { eapply Float32Array_set_run; world_simpl; [apply lookup_snoc_last|].
    rewrite length_replicate. simpl. lia. }
  world_simpl. rewrite snoc_insert_last.
  erewrite bind_run by apply createBindGroup_run. world_simpl.
  erewrite bind_run by apply rand_run. world_simpl.
  unfold ret, Uniforms.generated.
  rewrite !length_app. simpl length. rewrite !Nat.add_1_r.
  rewrite <- !app_assoc. simpl app.
  replace (S (drawn w + 5)) with (drawn w + 6) by lia.
  replace (S (drawn w)) with (drawn w + 1) by lia.
  reflexivity.
Qed.

Lemma uniforms_generate_step (env : host) (acc : list Uniforms.ObjectInfo)
    (i : nat) (w : world) :
  Uniforms.generating env acc w ->
  exists o w',
    Uniforms.generate env acc i w = (Return (acc ++ [o]), w') /\
    Uniforms.generating env (acc ++ [o]) w' /\
    body w' = body w /\ scheduled w' = scheduled w /\
    (forall r, r < length (heap w) -> heap w' !! r = heap w !! r) /\
    (forall b, b < length (buffers w) -> buffers w' !! b = buffers w !! b) /\
    exists l, calls w' = calls w ++ l.
Proof.
  intros ((Hfits & Hnd1 & Hnd2) & Hstarted & Hnd).
  eexists _, _. split; [apply uniforms_generate_run|].
  set (o := Uniforms.generated env (drawn w) (length (heap w)) (length (buffers w)) i).
  assert (Hold : Forall (fun o' => Uniforms.uniformValues o' < length (heap w) /\
                                   Uniforms.uniformBuffer o' < length (buffers w) /\
                                   Uniforms.static_buffer o' < length (buffers w)) acc).
  { eapply Forall_impl; [exact Hstarted|]. intros o' (? & ? & ? & _). done. }
  rewrite Forall_forall in Hold.
  split; [|split; [done|split; [done|split; [|split]]]].
  - split; [split; [|split]|split].
    + apply Forall_app. split.
      * apply Forall_forall. intros o' Ho'. destruct (Hold o' Ho') as (H1 & H2 & H3).
        rewrite Forall_forall in Hfits.
        apply (uniforms_fits_unchanged o' w); [| |by apply Hfits]; world_simpl;
          apply lookup_app_l; done.
      * apply Forall_singleton. eexists _, _. world_simpl.
        cbn [Uniforms.uniformValues Uniforms.uniformBuffer o Uniforms.generated].
        split; [apply lookup_app_second|]. split; [reflexivity|].
        split; [apply lookup_app_second|]. split; reflexivity.
    + rewrite fmap_app. apply NoDup_app. split; [done|]. split; [|apply NoDup_singleton].
      intros x Hx Hx'. apply list_elem_of_fmap in Hx as (o' & -> & Ho').
      apply list_elem_of_singleton in Hx'. cbn in Hx'.
      destruct (Hold o' Ho') as (H1 & _). lia.
    + rewrite fmap_app. apply NoDup_app. split; [done|]. split; [|apply NoDup_singleton].
      intros x Hx Hx'. apply list_elem_of_fmap in Hx as (o' & -> & Ho').
      apply list_elem_of_singleton in Hx'. cbn in Hx'.
      destruct (Hold o' Ho') as (_ & H2 & _). lia.
    + apply Forall_app. split.
      * apply Forall_forall. intros o' Ho'.
        rewrite Forall_forall in Hstarted.
        destruct (Hstarted o' Ho') as (H1 & H2 & H3 & Hz & d & Hs & Hbg & Hsb).
        unfold Uniforms.started. world_simpl. rewrite !length_app. simpl length.
        split; [lia|]. split; [lia|]. split; [lia|].
        split; [rewrite lookup_app_l by done; done|].
        exists d. split; [done|]. split; [done|].
        rewrite lookup_app_l by done. done.
      * apply Forall_singleton. unfold Uniforms.started. world_simpl.
        rewrite !length_app. simpl length.
        cbn [Uniforms.uniformValues Uniforms.uniformBuffer o Uniforms.generated
             Uniforms.static_buffer Uniforms.bindGroup bg_entries Uniforms.scale].
        split; [lia|]. split; [lia|]. split; [lia|].
        split; [apply lookup_app_second|].
        exists (drawn w). split; [done|]. split; [done|]. apply lookup_app_first.
    + rewrite !fmap_app. simpl.
      cbn [Uniforms.uniformBuffer o Uniforms.generated
           Uniforms.static_buffer Uniforms.bindGroup bg_entries].
      apply NoDup_app in Hnd as (Hs & Hdisj & Hu).
      assert (Hlt1 : forall x, x ∈ Uniforms.static_buffer <$> acc -> x < length (buffers w)).
      { intros x Hx. apply list_elem_of_fmap in Hx as (o' & -> & Ho').
        destruct (Hold o' Ho') as (_ & _ & ?). done. }
      assert (Hlt2 : forall x, x ∈ Uniforms.uniformBuffer <$> acc -> x < length (buffers w)).
      { intros x Hx. apply list_elem_of_fmap in Hx as (o' & -> & Ho').
        destruct (Hold o' Ho') as (_ & ? & _). done. }
      apply NoDup_app. split; [|split].
      * apply NoDup_app. split; [done|]. split; [|apply NoDup_singleton].
        intros x Hx Hx'. apply list_elem_of_singleton in Hx'. apply Hlt1 in Hx. lia.
      * intros x Hx Hx'. apply elem_of_app in Hx as [Hx|Hx]; apply elem_of_app in Hx' as [Hx'|Hx'].
        -- by eapply Hdisj.
        -- apply list_elem_of_singleton in Hx'. apply Hlt1 in Hx. lia.
        -- apply list_elem_of_singleton in Hx. apply Hlt2 in Hx'. lia.
        -- apply list_elem_of_singleton in Hx. apply list_elem_of_singleton in Hx'. lia.
      * apply NoDup_app. split; [done|]. split; [|apply NoDup_singleton].
        intros x Hx Hx'. apply list_elem_of_singleton in Hx'. apply Hlt2 in Hx. lia.
  - intros r Hr. world_simpl. apply lookup_app_l. done.
  - intros b Hb. world_simpl. apply lookup_app_l. done.
  - eexists. reflexivity.
Qed.

Lemma uniforms_generating_ext (env : host) (objs : list Uniforms.ObjectInfo)
    (w w' : world) :
  heap w' = heap w -> buffers w' = buffers w ->
  Uniforms.generating env objs w -> Uniforms.generating env objs w'.
Proof.
  intros Hh Hb ((Hfits & Hnd1 & Hnd2) & Hstarted & Hnd).
  split; [split; [|done]|split; [|done]].
  - eapply Forall_impl; [exact Hfits|]. intros o Ho.
    apply (uniforms_fits_unchanged o w); [rewrite Hh|rewrite Hb|]; done.
  - eapply Forall_impl; [exact Hstarted|]. intros o Ho.
    unfold Uniforms.started in *. rewrite Hh, Hb. exact Ho.
Qed.

Lemma uniforms_generate_loop (env : host) (n : nat) :
  forall (k : nat) (acc : list Uniforms.ObjectInfo) (w : world),
    Uniforms.generating env acc w ->
    exists acc' w',
      for_acc (seq k n) acc (Uniforms.generate env) w = (Return acc', w') /\
      Uniforms.generating env acc' w' /\
      length acc' = length acc + n /\
      body w' = body w /\ scheduled w' = scheduled w /\
      (forall r, r < length (heap w) -> heap w' !! r = heap w !! r) /\
      (forall b, b < length (buffers w) -> buffers w' !! b = buffers w !! b) /\
      exists l, calls w' = calls w ++ l.
Proof.
  induction n as [|n IH]; intros k acc w Hgen.
  - exists acc, w. simpl. unfold ret. split; [done|]. split; [done|].
    split; [lia|]. do 4 (split; [done|]). exists []. by rewrite app_nil_r.
  - rewrite <- cons_seq, for_acc_cons.
    destruct (uniforms_generate_step env acc k w Hgen)
      as (o & w1 & Hrun & Hgen1 & Hbody1 & Hsch1 & Hh1 & Hb1 & l1 & Hc1).
    erewrite bind_run by exact Hrun.
    destruct (IH (S k) _ _ Hgen1)
      as (acc' & w' & Hrun' & Hgen' & Hlen' & Hbody' & Hsch' & Hh' & Hb' & l' & Hc').
    exists acc', w'. split; [done|]. split; [done|].
    split; [rewrite Hlen', length_app; simpl; lia|].
    split; [congruence|]. split; [congruence|].
    split; [|split].
    + intros r Hr. rewrite <- Hh1 by done. apply Hh'.
      apply lookup_lt_is_Some. rewrite Hh1 by done. by apply lookup_lt_is_Some.
    + intros b Hb. rewrite <- Hb1 by done. apply Hb'.
      apply lookup_lt_is_Some. rewrite Hb1 by done. by apply lookup_lt_is_Some.
    + exists (l1 ++ l'). rewrite Hc', Hc1, app_assoc. done.
Qed.

Lemma uniforms_main_run (env : host) (N : nat) (w : world) :
  capable env ->
  exists objs w',
    Uniforms.main env N w = (Return (Some objs), w') /\
    Uniforms.generating env objs w' /\
    length objs = N /\
    body w' = body w /\
    scheduled w' = S (scheduled w) /\
    (forall r, r < length (heap w) -> heap w' !! r = heap w !! r) /\
    (forall b, b < length (buffers w) -> buffers w' !! b = buffers w !! b).
Proof.
  intros (Hgpu & Had & Hcan & Hctx).
  set (w3 := World (body w) (width w) (height w) (heap w) (buffers w)
       (calls w ++
        [RequestAdapter; RequestDevice; GetContext; GetPreferredCanvasFormat;
         Configure; CreateShaderModule "Triangle vertex shader";
         CreateRenderPipeline "Hardcoded WebGPU pipeline"])
       (drawn w) (scheduled w)).
  destruct (uniforms_generate_loop env N 0 [] w3)
    as (objs & w' & Hrun & Hgen & Hlen & Hbody & Hsch & Hh & Hb & l & Hc).
  { split; [split; [constructor|split; constructor]|split; constructor]. }
  eexists objs, _. split.
  - transitivity
      ((let* objectInfos := for_acc (seq 0 N) [] (Uniforms.generate env) in
        log Observe ;; requestAnimationFrame ;; ret (Some objectInfos)) w3).
    { unfold Uniforms.main, requestAdapter, getPreferredCanvasFormat,
        querySelector_canvas, getContext, requestDevice.
      rewrite Hgpu, Had, Hcan, Hctx. unfold w3.
      run_cbv. rewrite <- !app_assoc. reflexivity. }
    erewrite bind_run by exact Hrun. run_cbv. reflexivity.
  - split; [by apply (uniforms_generating_ext env objs w')|].
    world_simpl. split; [done|]. split; [exact Hbody|].
    split; [f_equal; exact Hsch|]. split; [exact Hh|exact Hb].
Qed.

Lemma endAndSubmit_run (w : world) :
  endAndSubmit w =
  (Return tt,
   World (body w) (width w) (height w) (heap w) (buffers w)
     (calls w ++ [End_; Finish; Submit]) (drawn w) (scheduled w)).
Proof. unfold endAndSubmit. run_cbv. rewrite <- !app_assoc. reflexivity. Qed.

Lemma uniforms_render_run (objs : list Uniforms.ObjectInfo) (ts : option number)
    (w : world) :
  Uniforms.ready objs w ->
  exists w',
    Uniforms.render objs ts w = (Return tt, w') /\
    body w' = body w /\ width w' = width w /\ height w' = height w /\
    drawn w' = drawn w /\ scheduled w' = S (scheduled w) /\
    (forall o a, o ∈ objs -> heap w !! Uniforms.uniformValues o = Some a ->
       heap w' !! Uniforms.uniformValues o =
         Some (Uniforms.updated (default (of_Z 0) ts)
                 (div (of_Z (width w)) (of_Z (height w))) o a) /\
       exists b, buffers w !! Uniforms.uniformBuffer o = Some b /\
         buffers w' !! Uniforms.uniformBuffer o =
           Some (BufferState (buf_label b) (buf_size b)
                   (Uniforms.updated (default (of_Z 0) ts)
                      (div (of_Z (width w)) (of_Z (height w))) o a))) /\
    (forall r, r ∉ Uniforms.uniformValues <$> objs -> heap w' !! r = heap w !! r) /\
    (forall h, h ∉ Uniforms.uniformBuffer <$> objs ->
               buffers w' !! h = buffers w !! h) /\
    exists l, calls w' = calls w ++ RequestAnimationFrame :: l /\
              Forall (Uniforms.frame_call objs) l.
Proof.
  intros Hready.
  set (w1 := World (body w) (width w) (height w) (heap w) (buffers w)
               (calls w ++ [RequestAnimationFrame; CreateCommandEncoder;
                            BeginRenderPass; SetPipeline])
               (drawn w) (S (scheduled w))).
  destruct (uniforms_render_loop (default (of_Z 0) ts)
              (div (of_Z (width w)) (of_Z (height w))) objs w1)
    as (w' & Hrun & Hbody & Hwid & Hhei & Hdr & Hsch & Hobj & Hheap & Hbuf & l & Hcalls & Hl).
  { destruct Hready as (Hfits & Hnd). split; [|done].
    eapply Forall_impl; [exact Hfits|]. intros o Ho.
    by apply (uniforms_fits_unchanged o w). }
  eexists. split.
  - transitivity
      ((for_of objs (Uniforms.update (default (of_Z 0) ts)
                       (div (of_Z (width w)) (of_Z (height w)))) ;;
        endAndSubmit) w1).
    { unfold Uniforms.render, w1. run_cbv. rewrite <- !app_assoc. reflexivity. }
    erewrite bind_run by exact Hrun. apply endAndSubmit_run.
  - world_simpl.
    split; [exact Hbody|]. split; [exact Hwid|]. split; [exact Hhei|].
    split; [exact Hdr|]. split; [exact Hsch|].
    split; [exact Hobj|]. split; [exact Hheap|]. split; [exact Hbuf|].
    exists ([CreateCommandEncoder; BeginRenderPass; SetPipeline] ++ l ++
            [End_; Finish; Submit]).
    split.
    + rewrite Hcalls. unfold w1. world_simpl. rewrite <- !app_assoc. reflexivity.
    + repeat (apply Forall_cons; split; [exact I|]).
      apply Forall_app. split; [done|].
      repeat (apply Forall_cons; split; [exact I|]). constructor.
Qed.

Lemma uniforms_untouched_refl (objs : list Uniforms.ObjectInfo) (w : world) :
  Uniforms.untouched objs w w.
Proof.
  repeat split; try done. exists []. rewrite app_nil_r. split; [done|constructor].
Qed.

Lemma uniforms_untouched_trans (objs : list Uniforms.ObjectInfo) (w1 w2 w3 : world) :
  Uniforms.untouched objs w1 w2 -> Uniforms.untouched objs w2 w3 ->
  Uniforms.untouched objs w1 w3.
Proof.
  intros (Hb1 & Hd1 & Hh1 & Hg1 & l1 & Hc1 & Hl1) (Hb2 & Hd2 & Hh2 & Hg2 & l2 & Hc2 & Hl2).
  split; [congruence|]. split; [congruence|].
  split; [intros r Hr; rewrite Hh2, Hh1; done|].
  split; [intros b Hb; rewrite Hg2, Hg1; done|].
  exists (l1 ++ l2). split; [rewrite Hc2, Hc1, app_assoc; done|by apply Forall_app].
Qed.

Lemma uniforms_updated_length (time aspect : number) (o : Uniforms.ObjectInfo)
    (a : list f32) :
  length (Uniforms.updated time aspect o a) = length a.
Proof. unfold Uniforms.updated. rewrite !length_inserts. done. Qed.

Lemma uniforms_deliver_ready (objs : list Uniforms.ObjectInfo) (f : frame) (w : world) :
  Uniforms.ready objs w ->
  Uniforms.ready objs (deliver (Uniforms.render objs) f w) /\
  Uniforms.untouched objs w (deliver (Uniforms.render objs) f w) /\
  (0 < scheduled w -> scheduled (deliver (Uniforms.render objs) f w) = scheduled w).
Proof.
  intros Hready. unfold deliver.
  destruct (scheduled w) as [|n] eqn:Hs.
  { split; [done|]. split; [apply uniforms_untouched_refl|lia]. }
  set (w1 := set_canvas _ _ _).
  assert (Hready1 : Uniforms.ready objs w1).
  { destruct Hready as (Hfits & Hnd). split; [|done].
    eapply Forall_impl; [exact Hfits|]. intros o Ho.
    by apply (uniforms_fits_unchanged o w). }
  destruct (uniforms_render_run objs (timeStamp f) w1 Hready1)
    as (w' & Hrun & Hbody & Hwid & Hhei & Hdr & Hsch & Hobj & Hheap & Hbuf & l & Hcalls & Hl).
  rewrite Hrun. cbn [snd].
  split; [|split].
  - destruct Hready1 as (Hfits & Hnd). split; [|done].
    apply Forall_forall. intros o Ho. rewrite Forall_forall in Hfits.
    destruct (Hfits o Ho) as (a & b & Ha & Hlen & Hb & Hsize & Hdata).
    destruct (Hobj o a Ho Ha) as (Ha' & b' & Hb' & Hb'').
    assert (b' = b) as -> by congruence.
    eexists _, _. split; [exact Ha'|]. split; [by rewrite uniforms_updated_length|].
    split; [exact Hb''|]. cbn [buf_size buf_data].
    split; [done|]. by rewrite uniforms_updated_length.
  - split; [exact Hbody|]. split; [exact Hdr|]. split; [exact Hheap|].
    split; [exact Hbuf|].
    exists (RequestAnimationFrame :: l). split; [exact Hcalls|].
    apply Forall_cons. split; [exact I|done].
  - intros _. rewrite Hsch. reflexivity.
Qed.

Lemma uniforms_run_ready (objs : list Uniforms.ObjectInfo) (fs : list frame) :
  forall w, Uniforms.ready objs w ->
    Uniforms.ready objs (run (Uniforms.render objs) fs w) /\
    Uniforms.untouched objs w (run (Uniforms.render objs) fs w) /\
    (0 < scheduled w -> scheduled (run (Uniforms.render objs) fs w) = scheduled w).
Proof.
  induction fs as [|f fs IH]; intros w Hr.
  - split; [done|]. split; [apply uniforms_untouched_refl|done].
  - destruct (uniforms_deliver_ready objs f w Hr) as (Hr1 & Hu1 & Hs1).
    destruct (IH _ Hr1) as (Hr2 & Hu2 & Hs2).
    change (run (Uniforms.render objs) (f :: fs) w)
      with (run (Uniforms.render objs) fs (deliver (Uniforms.render objs) f w)).
    split; [done|]. split; [by eapply uniforms_untouched_trans|].
    intros Hpos. rewrite Hs2 by (rewrite Hs1; done). by apply Hs1.
Qed.

(** ** The demo with one uniform struct per object *)

Lemma struct_update_run (time aspect : number) (o : UniformStruct.ObjectInfo)
    (w : world) (a : list f32) (b : buffer_state) :
  heap w !! UniformStruct.uniformValues o = Some a ->
  length a = UniformStruct.uniformBufferSize / 4 ->
  buffers w !! UniformStruct.uniformBuffer o = Some b ->
  buf_size b = UniformStruct.uniformBufferSize ->
  length (buf_data b) = UniformStruct.uniformBufferSize / 4 ->
  UniformStruct.update time aspect o w =
  (Return tt,
   World (body w) (width w) (height w)
     (<[UniformStruct.uniformValues o := UniformStruct.updated time aspect o a]> (heap w))
     (<[UniformStruct.uniformBuffer o :=
          BufferState (buf_label b) (buf_size b)
            (UniformStruct.updated time aspect o a)]> (buffers w))
     (calls w ++
      [TypedArraySet (UniformStruct.uniformValues o)
         (fround <$> [div (UniformStruct.scale o) aspect; UniformStruct.scale o])
         UniformStruct.kScaleOffset;
       TypedArraySet (UniformStruct.uniformValues o) (fround <$> [time])
         UniformStruct.kTimeOffset;
       WriteBuffer (UniformStruct.uniformBuffer o) 0 (UniformStruct.updated time aspect o a);
       SetBindGroup 0 (UniformStruct.bindGroup o); Draw 3 1])
     (drawn w) (scheduled w)).
Proof.
  intros Ha Hlen Hb Hsize Hdata.
  change (UniformStruct.uniformBufferSize / 4) with 12 in *.
  pose proof (lookup_lt_Some _ _ _ Ha) as Huv.
  unfold UniformStruct.update.
  erewrite bind_run; last first.
  { eapply Float32Array_set_run; [exact Ha|]. simpl. unfold UniformStruct.kScaleOffset. lia. }
  erewrite bind_run; last first.
  { eapply Float32Array_set_run; world_simpl.
    - apply list_lookup_insert_eq. exact Huv.
    - rewrite length_inserts. simpl. unfold UniformStruct.kTimeOffset. lia. }
  world_simpl. rewrite list_insert_insert_eq.
  fold (UniformStruct.updated time aspect o a).
  assert (Hlen' : length (UniformStruct.updated time aspect o a) = 12)
    by (unfold UniformStruct.updated; rewrite !length_inserts; done).
  erewrite bind_run; last first.
  { eapply writeBuffer_run; world_simpl.
    - apply list_lookup_insert_eq. exact Huv.
    - exact Hb.
    - rewrite Hsize, Hlen'. done. }
  rewrite list_inserts_0_all by lia.
  run_cbv. rewrite <- !app_assoc. reflexivity.
Qed.

Lemma struct_fits_unchanged (o : UniformStruct.ObjectInfo) (w w' : world) :
  heap w' !! UniformStruct.uniformValues o = heap w !! UniformStruct.uniformValues o ->
  buffers w' !! UniformStruct.uniformBuffer o = buffers w !! UniformStruct.uniformBuffer o ->
  UniformStruct.fits o w -> UniformStruct.fits o w'.
Proof.
  intros Hh Hb (a & b & Ha & Hlen & Hbuf & Hrest).
  exists a, b. rewrite Hh, Hb. done.
Qed.

Lemma struct_render_loop (time aspect : number) (objs : list UniformStruct.ObjectInfo) :
  forall w,
    UniformStruct.ready objs w ->
    exists w',
      for_of objs (UniformStruct.update time aspect) w = (Return tt, w') /\
      body w' = body w /\ width w' = width w /\ height w' = height w /\
      drawn w' = drawn w /\ scheduled w' = scheduled w /\
      (forall o a, o ∈ objs -> heap w !! UniformStruct.uniformValues o = Some a ->
         heap w' !! UniformStruct.uniformValues o =
           Some (UniformStruct.updated time aspect o a) /\
         exists b, buffers w !! UniformStruct.uniformBuffer o = Some b /\
           buffers w' !! UniformStruct.uniformBuffer o =
             Some (BufferState (buf_label b) (buf_size b)
                     (UniformStruct.updated time aspect o a))) /\
      (forall r, r ∉ UniformStruct.uniformValues <$> objs -> heap w' !! r = heap w !! r) /\
      (forall h, h ∉ UniformStruct.uniformBuffer <$> objs ->
                 buffers w' !! h = buffers w !! h) /\
      exists l, calls w' = calls w ++ l /\ Forall (UniformStruct.frame_call objs) l.
Proof.
  induction objs as [|o objs IH]; intros w (Hfits & Hnd1 & Hnd2).
  - exists w. simpl. unfold ret. split; [done|]. do 5 (split; [done|]).
    split; [intros ? ? Ho; by apply elem_of_nil in Ho|].
    split; [done|]. split; [done|].
    exists []. rewrite app_nil_r. split; [done|constructor].
  - apply Forall_cons in Hfits as [Hfit Hfits].
    rewrite fmap_cons in Hnd1, Hnd2.
    apply NoDup_cons in Hnd1 as [Hnot1 Hnd1].
    apply NoDup_cons in Hnd2 as [Hnot2 Hnd2].
    destruct Hfit as (a & b & Ha & Hlen & Hb & Hsize & Hdata).
    rewrite for_of_cons.
    erewrite bind_run by (by apply struct_update_run with (b := b)).
    match goal with |- context [for_of objs _ ?w0] => set (w1 := w0) end.
    assert (Hh1 : forall r, r <> UniformStruct.uniformValues o -> heap w1 !! r = heap w !! r)
      by (intros r Hr; apply list_lookup_insert_ne; done).
    assert (Hb1 : forall h, h <> UniformStruct.uniformBuffer o -> buffers w1 !! h = buffers w !! h)
      by (intros h Hh; apply list_lookup_insert_ne; done).
    assert (Hne1 : forall o', o' ∈ objs -> UniformStruct.uniformValues o' <> UniformStruct.uniformValues o).
    { intros o' Ho' E. apply Hnot1. rewrite <- E. by apply list_elem_of_fmap_2. }
    assert (Hne2 : forall o', o' ∈ objs -> UniformStruct.uniformBuffer o' <> UniformStruct.uniformBuffer o).
    { intros o' Ho' E. apply Hnot2. rewrite <- E. by apply list_elem_of_fmap_2. }
    destruct (IH w1) as (w' & Hrun & Hbody & Hwid & Hhei & Hdr & Hsch & Hobj & Hheap & Hbuf & l & Hcalls & Hl).
    { split; [|done]. apply Forall_forall. intros o' Ho'.
      rewrite Forall_forall in Hfits.
      apply (struct_fits_unchanged o' w w1); [apply Hh1|apply Hb1|]; auto. }
    exists w'. rewrite Hrun. split; [done|].
    split; [done|]. split; [done|]. split; [done|]. split; [done|]. split; [done|].
    pose proof (lookup_lt_Some _ _ _ Ha) as Huv.
    pose proof (lookup_lt_Some _ _ _ Hb) as Hub.
    split; [|split; [|split]].
    + intros o' a' Ho' Ha'.
      apply elem_of_cons in Ho' as [->|Hmem].
      * assert (a' = a) as -> by congruence.
        split.
        { rewrite Hheap by done. unfold w1. world_simpl.
          apply list_lookup_insert_eq. done. }
        exists b. split; [done|].
        rewrite Hbuf by done. unfold w1. world_simpl.
        apply list_lookup_insert_eq. done.
      * destruct (Hobj o' a' Hmem) as (Hres & b' & Hb' & Hres').
        { rewrite Hh1; auto. }
        split; [done|]. exists b'. rewrite <- Hb1 by auto. done.
    + intros r Hr. rewrite fmap_cons in Hr. apply not_elem_of_cons in Hr as [Hr1 Hr2].
      rewrite Hheap by done. apply Hh1. done.
    + intros h Hh. rewrite fmap_cons in Hh. apply not_elem_of_cons in Hh as [Hh0 Hh2].
      rewrite Hbuf by done. apply Hb1. done.
    + eexists. split.
      { rewrite Hcalls. unfold w1. world_simpl. rewrite <- app_assoc. reflexivity. }
      apply Forall_app. split.
      * repeat (apply Forall_cons; split); try exact I; try constructor;
          cbn [UniformStruct.frame_call]; rewrite fmap_cons; apply elem_of_cons; by left.
      * eapply Forall_impl; [exact Hl|]. intros e He.
        destruct e; cbn [UniformStruct.frame_call] in *; try done;
          rewrite fmap_cons; apply elem_of_cons; by right.
Qed.

Lemma struct_render_run (objs : list UniformStruct.ObjectInfo) (ts : option number)
    (w : world) :
  UniformStruct.ready objs w ->
  exists w',
    UniformStruct.render objs ts w = (Return tt, w') /\
    body w' = body w /\ width w' = width w /\ height w' = height w /\
    drawn w' = drawn w /\ scheduled w' = S (scheduled w) /\
    (forall o a, o ∈ objs -> heap w !! UniformStruct.uniformValues o = Some a ->
       heap w' !! UniformStruct.uniformValues o =
         Some (UniformStruct.updated (default (of_Z 0) ts)
                 (div (of_Z (width w)) (of_Z (height w))) o a) /\
       exists b, buffers w !! UniformStruct.uniformBuffer o = Some b /\
         buffers w' !! UniformStruct.uniformBuffer o =
           Some (BufferState (buf_label b) (buf_size b)
                   (UniformStruct.updated (default (of_Z 0) ts)
                      (div (of_Z (width w)) (of_Z (height w))) o a))) /\
    (forall r, r ∉ UniformStruct.uniformValues <$> objs -> heap w' !! r = heap w !! r) /\
    (forall h, h ∉ UniformStruct.uniformBuffer <$> objs ->
               buffers w' !! h = buffers w !! h) /\
    exists l, calls w' = calls w ++ RequestAnimationFrame :: l /\
              Forall (UniformStruct.frame_call objs) l.
Proof.
  intros Hready.
  set (w1 := World (body w) (width w) (height w) (heap w) (buffers w)
               (calls w ++ [RequestAnimationFrame; CreateCommandEncoder;
                            BeginRenderPass; SetPipeline])
               (drawn w) (S (scheduled w))).
  destruct (struct_render_loop (default (of_Z 0) ts)
              (div (of_Z (width w)) (of_Z (height w))) objs w1)
    as (w' & Hrun & Hbody & Hwid & Hhei & Hdr & Hsch & Hobj & Hheap & Hbuf & l & Hcalls & Hl).
  { destruct Hready as (Hfits & Hnd). split; [|done].
    eapply Forall_impl; [exact Hfits|]. intros o Ho.
    by apply (struct_fits_unchanged o w). }
  eexists. split.
  - transitivity
      ((for_of objs (UniformStruct.update (default (of_Z 0) ts)
                       (div (of_Z (width w)) (of_Z (height w)))) ;;
        endAndSubmit) w1).
    { unfold UniformStruct.render, w1. run_cbv. rewrite <- !app_assoc. reflexivity. }
    erewrite bind_run by exact Hrun. apply endAndSubmit_run.
  - world_simpl.
    split; [exact Hbody|]. split; [exact Hwid|]. split; [exact Hhei|].
    split; [exact Hdr|]. split; [exact Hsch|].
    split; [exact Hobj|]. split; [exact Hheap|]. split; [exact Hbuf|].
    exists ([CreateCommandEncoder; BeginRenderPass; SetPipeline] ++ l ++
            [End_; Finish; Submit]).
    split.
    + rewrite Hcalls. unfold w1. world_simpl. rewrite <- !app_assoc. reflexivity.
    + repeat (apply Forall_cons; split; [exact I|]).
      apply Forall_app. split; [done|].
      repeat (apply Forall_cons; split; [exact I|]). constructor.
Qed.

Lemma struct_untouched_refl (objs : list UniformStruct.ObjectInfo) (w : world) :
  UniformStruct.untouched objs w w.
Proof.
  repeat split; try done. exists []. rewrite app_nil_r. split; [done|constructor].
Qed.

Lemma struct_untouched_trans (objs : list UniformStruct.ObjectInfo) (w1 w2 w3 : world) :
  UniformStruct.untouched objs w1 w2 -> UniformStruct.untouched objs w2 w3 ->
  UniformStruct.untouched objs w1 w3.
Proof.
  intros (Hb1 & Hd1 & Hh1 & Hg1 & l1 & Hc1 & Hl1) (Hb2 & Hd2 & Hh2 & Hg2 & l2 & Hc2 & Hl2).
  split; [congruence|]. split; [congruence|].
  split; [intros r Hr; rewrite Hh2, Hh1; done|].
  split; [intros b Hb; rewrite Hg2, Hg1; done|].
  exists (l1 ++ l2). split; [rewrite Hc2, Hc1, app_assoc; done|by apply Forall_app].
Qed.

Lemma struct_updated_length (time aspect : number) (o : UniformStruct.ObjectInfo)
    (a : list f32) :
  length (UniformStruct.updated time aspect o a) = length a.
Proof. unfold UniformStruct.updated. rewrite !length_inserts. done. Qed.

Lemma struct_deliver_ready (objs : list UniformStruct.ObjectInfo) (f : frame) (w : world) :
  UniformStruct.ready objs w ->
  UniformStruct.ready objs (deliver (UniformStruct.render objs) f w) /\
  UniformStruct.untouched objs w (deliver (UniformStruct.render objs) f w) /\
  (0 < scheduled w -> scheduled (deliver (UniformStruct.render objs) f w) = scheduled w).
Proof.
  intros Hready. unfold deliver.
  destruct (scheduled w) as [|n] eqn:Hs.
  { split; [done|]. split; [apply struct_untouched_refl|lia]. }
  set (w1 := set_canvas _ _ _).
  assert (Hready1 : UniformStruct.ready objs w1).
  { destruct Hready as (Hfits & Hnd). split; [|done].
    eapply Forall_impl; [exact Hfits|]. intros o Ho.
    by apply (struct_fits_unchanged o w). }
  destruct (struct_render_run objs (timeStamp f) w1 Hready1)
    as (w' & Hrun & Hbody & Hwid & Hhei & Hdr & Hsch & Hobj & Hheap & Hbuf & l & Hcalls & Hl).
  rewrite Hrun. cbn [snd].
  split; [|split].
  - destruct Hready1 as (Hfits & Hnd). split; [|done].
    apply Forall_forall. intros o Ho. rewrite Forall_forall in Hfits.
    destruct (Hfits o Ho) as (a & b & Ha & Hlen & Hb & Hsize & Hdata).
    destruct (Hobj o a Ho Ha) as (Ha' & b' & Hb' & Hb'').
    assert (b' = b) as -> by congruence.
    eexists _, _. split; [exact Ha'|]. split; [by rewrite struct_updated_length|].
    split; [exact Hb''|]. cbn [buf_size buf_data].
    split; [done|]. by rewrite struct_updated_length.
  - split; [exact Hbody|]. split; [exact Hdr|]. split; [exact Hheap|].
    split; [exact Hbuf|].
    exists (RequestAnimationFrame :: l). split; [exact Hcalls|].
    apply Forall_cons. split; [exact I|done].
  - intros _. rewrite Hsch. reflexivity.
Qed.

Lemma struct_run_ready (objs : list UniformStruct.ObjectInfo) (fs : list frame) :
  forall w, UniformStruct.ready objs w ->
    UniformStruct.ready objs (run (UniformStruct.render objs) fs w) /\
    UniformStruct.untouched objs w (run (UniformStruct.render objs) fs w) /\
    (0 < scheduled w -> scheduled (run (UniformStruct.render objs) fs w) = scheduled w).
Proof.
  induction fs as [|f fs IH]; intros w Hr.
  - split; [done|]. split; [apply struct_untouched_refl|done].
  - destruct (struct_deliver_ready objs f w Hr) as (Hr1 & Hu1 & Hs1).
    destruct (IH _ Hr1) as (Hr2 & Hu2 & Hs2).
    change (run (UniformStruct.render objs) (f :: fs) w)
      with (run (UniformStruct.render objs) fs (deliver (UniformStruct.render objs) f w)).
    split; [done|]. split; [by eapply struct_untouched_trans|].
    intros Hpos. rewrite Hs2 by (rewrite Hs1; done). by apply Hs1.
Qed.

Lemma struct_generate_run (env : host) (acc : list UniformStruct.ObjectInfo)
    (i : nat) (w : world) :
  UniformStruct.generate env acc i w =
  (Return (acc ++ [UniformStruct.generated env (drawn w) (length (heap w))
                     (length (buffers w)) i]),
   World (body w) (width w) (height w)
     (heap w ++ [UniformStruct.initial_values env (drawn w)])
     (buffers w ++
      [BufferState "uniforms for triangle" 48 (replicate 12 zero32)])
     (calls w ++
      [CreateBuffer "uniforms for triangle" 48;
       TypedArraySet (length (heap w))
         (fround <$> [random env (drawn w) (of_Z 0) (of_Z 1);
                      random env (drawn w + 1) (of_Z 0) (of_Z 1);
                      random env (drawn w + 2) (of_Z 0) (of_Z 1);
                      of_Z 1]) 0;
       TypedArraySet (length (heap w))
         (fround <$> [random env (drawn w + 3) (of_Z (-1)) (of_Z 1);
                      random env (drawn w + 4) (of_Z (-1)) (of_Z 1)]) 6;
       TypedArraySet (length (heap w)) (fround <$> [of_Z 0]) 8;
       CreateBindGroup
         (BindGroup ("triangle bind group for obj: " ++ pretty i)
            [(0, length (buffers w))])])
     (drawn w + 6) (scheduled w)).
Proof.
  unfold UniformStruct.generate.
  change UniformStruct.uniformBufferSize with 48.
  change (48 / 4) with 12.
  change UniformStruct.kColorOffset with 0. change UniformStruct.kOffsetOffset with 6.
  change UniformStruct.kTimeOffset with 8.
  erewrite bind_run by apply createBuffer_run.
  erewrite bind_run by apply new_Float32Array_run. world_simpl.
  do 3 (erewrite bind_run by apply rand_run). world_simpl.
  erewrite bind_run; last first.
  { eapply Float32Array_set_run; world_simpl; [apply lookup_snoc_last|].
    rewrite length_replicate. simpl. lia. }
  world_simpl. rewrite snoc_insert_last.
  do 2 (erewrite bind_run by apply rand_run). world_simpl.
  erewrite bind_run; last first.
  { eapply Float32Array_set_run; world_simpl; [apply lookup_snoc_last|].
    rewrite length_inserts, length_replicate. simpl. lia. }
  world_simpl. rewrite snoc_insert_last.
  erewrite bind_run; last first.
  { eapply Float32Array_set_run; world_simpl; [apply lookup_snoc_last|].
    rewrite !length_inserts, length_replicate. simpl. lia. }
  world_simpl. rewrite snoc_insert_last.
  erewrite bind_run by apply createBindGroup_run. world_simpl.
  erewrite bind_run by apply rand_run. world_simpl.
  unfold ret, UniformStruct.generated.
  rewrite <- !app_assoc. simpl app.
  replace (S (drawn w)) with (drawn w + 1) by lia.
  replace (S (drawn w + 1)) with (drawn w + 2) by lia.
  replace (S (drawn w + 2)) with (drawn w + 3) by lia.
  replace (S (drawn w + 3)) with (drawn w + 4) by lia.
  replace (S (drawn w + 4)) with (drawn w + 5) by lia.
  replace (S (drawn w + 5)) with (drawn w + 6) by lia.
  reflexivity.
Qed.

Lemma struct_generate_step (env : host) (acc : list UniformStruct.ObjectInfo)
    (i : nat) (w : world) :
  UniformStruct.generating env acc w ->
  exists o w',
    UniformStruct.generate env acc i w = (Return (acc ++ [o]), w') /\
    UniformStruct.generating env (acc ++ [o]) w' /\
    body w' = body w /\ scheduled w' = scheduled w /\
    (forall r, r < length (heap w) -> heap w' !! r = heap w !! r) /\
    (forall b, b < length (buffers w) -> buffers w' !! b = buffers w !! b) /\
    exists l, calls w' = calls w ++ l.
Proof.
  intros ((Hfits & Hnd1 & Hnd2) & Hstarted).
  eexists _, _. split; [apply struct_generate_run|].
  set (o := UniformStruct.generated env (drawn w) (length (heap w))
              (length (buffers w)) i).
  assert (Hold : Forall (fun o' => UniformStruct.uniformValues o' < length (heap w) /\
                                   UniformStruct.uniformBuffer o' < length (buffers w)) acc).
  { eapply Forall_impl; [exact Hstarted|]. intros o' (? & ? & _). done. }
  rewrite Forall_forall in Hold.
  split; [|split; [done|split; [done|split; [|split]]]].
  - split; [split; [|split]|].
    + apply Forall_app. split.
      * apply Forall_forall. intros o' Ho'. destruct (Hold o' Ho') as (H1 & H2).
        rewrite Forall_forall in Hfits.
        apply (struct_fits_unchanged o' w); [| |by apply Hfits]; world_simpl;
          apply lookup_app_l; done.
      * apply Forall_singleton. eexists _, _. world_simpl.
        cbn [UniformStruct.uniformValues UniformStruct.uniformBuffer o
             UniformStruct.generated].
        split; [apply lookup_snoc_last|]. split; [reflexivity|].
        split; [apply lookup_snoc_last|]. split; reflexivity.
    + rewrite fmap_app. apply NoDup_app. split; [done|]. split; [|apply NoDup_singleton].
      intros x Hx Hx'. apply list_elem_of_fmap in Hx as (o' & -> & Ho').
      apply list_elem_of_singleton in Hx'. cbn in Hx'.
      destruct (Hold o' Ho') as (H1 & _). lia.
    + rewrite fmap_app. apply NoDup_app. split; [done|]. split; [|apply NoDup_singleton].
      intros x Hx Hx'. apply list_elem_of_fmap in Hx as (o' & -> & Ho').
      apply list_elem_of_singleton in Hx'. cbn in Hx'.
      destruct (Hold o' Ho') as (_ & H2). lia.
    + apply Forall_app. split.
      * apply Forall_forall. intros o' Ho'.
        rewrite Forall_forall in Hstarted.
        destruct (Hstarted o' Ho') as (H1 & H2 & Hb & d & Hs & Hv).
        unfold UniformStruct.started. world_simpl. rewrite !length_app. simpl length.
        split; [lia|]. split; [lia|].
        split; [rewrite lookup_app_l by done; done|].
        exists d. split; [done|]. rewrite lookup_app_l by done. done.
      * apply Forall_singleton. unfold UniformStruct.started. world_simpl.
        rewrite !length_app. simpl length.
        cbn [UniformStruct.uniformValues UniformStruct.uniformBuffer o
             UniformStruct.generated UniformStruct.scale].
        split; [lia|]. split; [lia|].
        split; [apply lookup_snoc_last|].
        exists (drawn w). split; [done|]. apply lookup_snoc_last.
  - intros r Hr. world_simpl. apply lookup_app_l. done.
  - intros b Hb. world_simpl. apply lookup_app_l. done.
  - eexists. reflexivity.
Qed.

Lemma struct_generating_ext (env : host) (objs : list UniformStruct.ObjectInfo)
    (w w' : world) :
  heap w' = heap w -> buffers w' = buffers w ->
  UniformStruct.generating env objs w -> UniformStruct.generating env objs w'.
Proof.
  intros Hh Hb ((Hfits & Hnd1 & Hnd2) & Hstarted).
  split; [split; [|done]|].
  - eapply Forall_impl; [exact Hfits|]. intros o Ho.
    apply (struct_fits_unchanged o w); [rewrite Hh|rewrite Hb|]; done.
  - eapply Forall_impl; [exact Hstarted|]. intros o Ho.
    unfold UniformStruct.started in *. rewrite Hh, Hb. exact Ho.
Qed.

Lemma struct_generate_loop (env : host) (n : nat) :
  forall (k : nat) (acc : list UniformStruct.ObjectInfo) (w : world),
    UniformStruct.generating env acc w ->
    exists acc' w',
      for_acc (seq k n) acc (UniformStruct.generate env) w = (Return acc', w') /\
      UniformStruct.generating env acc' w' /\
      length acc' = length acc + n /\
      body w' = body w /\ scheduled w' = scheduled w /\
      (forall r, r < length (heap w) -> heap w' !! r = heap w !! r) /\
      (forall b, b < length (buffers w) -> buffers w' !! b = buffers w !! b) /\
      exists l, calls w' = calls w ++ l.
Proof.
  induction n as [|n IH]; intros k acc w Hgen.
  - exists acc, w. simpl. unfold ret. split; [done|]. split; [done|].
    split; [lia|]. do 4 (split; [done|]). exists []. by rewrite app_nil_r.
  - rewrite <- cons_seq, for_acc_cons.
    destruct (struct_generate_step env acc k w Hgen)
      as (o & w1 & Hrun & Hgen1 & Hbody1 & Hsch1 & Hh1 & Hb1 & l1 & Hc1).
    erewrite bind_run by exact Hrun.
    destruct (IH (S k) _ _ Hgen1)
      as (acc' & w' & Hrun' & Hgen' & Hlen' & Hbody' & Hsch' & Hh' & Hb' & l' & Hc').
    exists acc', w'. split; [done|]. split; [done|].
    split; [rewrite Hlen', length_app; simpl; lia|].
    split; [congruence|]. split; [congruence|].
    split; [|split].
    + intros r Hr. rewrite <- Hh1 by done. apply Hh'.
      apply lookup_lt_is_Some. rewrite Hh1 by done. by apply lookup_lt_is_Some.
    + intros b Hb. rewrite <- Hb1 by done. apply Hb'.
      apply lookup_lt_is_Some. rewrite Hb1 by done. by apply lookup_lt_is_Some.
    + exists (l1 ++ l'). rewrite Hc', Hc1, app_assoc. done.
Qed.

Lemma struct_main_run (env : host) (N : nat) (w : world) :
  capable env ->
  exists objs w',
    UniformStruct.main env N w = (Return (Some objs), w') /\
    UniformStruct.generating env objs w' /\
    length objs = N /\
    body w' = body w /\
    scheduled w' = S (scheduled w) /\
    (forall r, r < length (heap w) -> heap w' !! r = heap w !! r) /\
    (forall b, b < length (buffers w) -> buffers w' !! b = buffers w !! b).
Proof.
  intros (Hgpu & Had & Hcan & Hctx).
  set (w3 := World (body w) (width w) (height w) (heap w) (buffers w)
       (calls w ++
        [RequestAdapter; RequestDevice; GetContext; GetPreferredCanvasFormat;
         Configure; CreateShaderModule "Triangle vertex shader";
         CreateRenderPipeline "Hardcoded WebGPU pipeline"])
       (drawn w) (scheduled w)).
  destruct (struct_generate_loop env N 0 [] w3)
    as (objs & w' & Hrun & Hgen & Hlen & Hbody & Hsch & Hh & Hb & l & Hc).
  { split; [split; [constructor|split; constructor]|constructor]. }
  eexists objs, _. split.
  - transitivity
      ((let* objectInfos := for_acc (seq 0 N) [] (UniformStruct.generate env) in
        log Observe ;; requestAnimationFrame ;; ret (Some objectInfos)) w3).
    { unfold UniformStruct.main, requestAdapter, getPreferredCanvasFormat,
        querySelector_canvas, getContext, requestDevice.
      rewrite Hgpu, Had, Hcan, Hctx. unfold w3.
      run_cbv. rewrite <- !app_assoc. reflexivity. }
    erewrite bind_run by exact Hrun. run_cbv. reflexivity.
  - split; [by apply (struct_generating_ext env objs w')|].
    world_simpl. split; [done|]. split; [exact Hbody|].
    split; [f_equal; exact Hsch|]. split; [exact Hh|exact Hb].
Qed.

(** A frame keeps the colour and the offset of a record. *)
Lemma struct_updated_static (time aspect : number) (o : UniformStruct.ObjectInfo)
    (a : list f32) :
  length a = UniformStruct.uniformBufferSize / 4 ->
  UniformStruct.static_part (UniformStruct.updated time aspect o a) =
  UniformStruct.static_part a.
Proof.
  change (UniformStruct.uniformBufferSize / 4) with 12. intros Hlen.
  do 13 (destruct a as [|? a]; try discriminate).
  reflexivity.
Qed.

(** ** Computations that leave the frame queue alone *)

Lemma quiet_ret {A} (a : A) : quiet (ret a).
Proof. intros w. simpl. split; [done|]. split; [done|]. exists []. by rewrite app_nil_r. Qed.

Lemma quiet_throw {A} (e : exception) : quiet (@throw A e).
Proof. intros w. simpl. split; [done|]. split; [done|]. exists []. by rewrite app_nil_r. Qed.

Lemma quiet_bind {A B} (m : M A) (k : A -> M B) :
  quiet m -> (forall a, quiet (k a)) -> quiet (bind m k).
Proof.
  intros Hm Hk w. unfold bind.
  destruct (Hm w) as (Hs & Hb & l & Hl).
  destruct (m w) as [[a|e] w1]; cbn [snd] in *.
  - destruct (Hk a w1) as (Hs' & Hb' & l' & Hl').
    split; [congruence|]. split; [congruence|].
    exists (l ++ l'). rewrite Hl', Hl, app_assoc. done.
  - split; [done|]. split; [done|]. by exists l.
Qed.

Lemma quiet_log (c : call) : quiet (log c).
Proof. intros w. simpl. split; [done|]. split; [done|]. by exists [c]. Qed.

Lemma quiet_get {A} (f : world -> A) : quiet (get f).
Proof. intros w. simpl. split; [done|]. split; [done|]. exists []. by rewrite app_nil_r. Qed.

Lemma quiet_set (target : Float32Array) (values : list number) (offset : nat) :
  quiet (Float32Array_set target values offset).
Proof.
  intros w. unfold Float32Array_set, bind, get.
  destruct (heap w !! target) as [a|]; [|apply quiet_throw].
  destruct (decide (offset + length values <= length a)); [|apply quiet_throw].
  simpl. split; [done|]. split; [done|]. eexists. reflexivity.
Qed.

Lemma quiet_writeBuffer (buffer : GPUBuffer) (bufferOffset : nat) (data : Float32Array) :
  quiet (writeBuffer buffer bufferOffset data).
Proof.
  intros w. unfold writeBuffer, bind, get.
  destruct (heap w !! data) as [a|]; [|apply quiet_throw].
  destruct (buffers w !! buffer) as [b|]; [|apply quiet_throw].
  destruct (decide _); [|apply quiet_throw].
  simpl. split; [done|]. split; [done|]. eexists. reflexivity.
Qed.

Lemma quiet_for_of {A} (xs : list A) (f : A -> M unit) :
  (forall x, quiet (f x)) -> quiet (for_of xs f).
Proof.
  intros Hf. induction xs as [|x xs IH]; [apply quiet_ret|].
  rewrite for_of_cons. apply quiet_bind; [apply Hf|]. intros _. exact IH.
Qed.

Lemma quiet_beginRenderPass : quiet beginRenderPass.
Proof. apply quiet_bind; [apply quiet_log|]. intros _. apply quiet_log. Qed.

Lemma quiet_endAndSubmit : quiet endAndSubmit.
Proof.
  apply quiet_bind; [apply quiet_log|]. intros _.
  apply quiet_bind; [apply quiet_log|]. intros _. apply quiet_log.
Qed.

Create HintDb quiet.
#[local] Hint Resolve quiet_ret quiet_throw quiet_log quiet_get quiet_set
  quiet_writeBuffer quiet_beginRenderPass quiet_endAndSubmit : quiet.

Ltac quiet :=
  repeat first
    [ solve [auto with quiet]
    | apply quiet_for_of; intros ?
    | apply quiet_bind; [|intros ?] ].

(** A callback that starts with [requestAnimationFrame] and goes on
    quietly has asked for the next frame before anything else is
    called, and leaves one more callback in the queue. *)
Lemma reschedules_first (rest : M unit) (w : world) :
  quiet rest ->
  (exists l, calls (snd ((requestAnimationFrame ;; rest) w)) =
               calls w ++ RequestAnimationFrame :: l) /\
  scheduled (snd ((requestAnimationFrame ;; rest) w)) = S (scheduled w) /\
  body (snd ((requestAnimationFrame ;; rest) w)) = body w.
Proof.
  intros Hq.
  change ((requestAnimationFrame ;; rest) w)
    with (rest (World (body w) (width w) (height w) (heap w) (buffers w)
                  (calls w ++ [RequestAnimationFrame]) (drawn w) (S (scheduled w)))).
  match goal with |- context [rest ?w1] => destruct (Hq w1) as (Hs & Hb & l & Hl) end.
  split; [|split; [exact Hs|exact Hb]].
  exists l. rewrite Hl. world_simpl. rewrite <- app_assoc. reflexivity.
Qed.

Lemma storage_update_object_quiet (c : StorageBuffers.closure)
    (time aspect : number) (i : nat) :
  quiet (StorageBuffers.update_object c time aspect i).
Proof.
  unfold StorageBuffers.update_object. cbv zeta.
  destruct (StorageBuffers.objectInfos c !! i); quiet.
Qed.

Lemma storage_render_reschedules (c : StorageBuffers.closure)
    (ts : option number) (w : world) :
  (exists l, calls (snd (StorageBuffers.render c ts w)) =
               calls w ++ RequestAnimationFrame :: l) /\
  scheduled (snd (StorageBuffers.render c ts w)) = S (scheduled w) /\
  body (snd (StorageBuffers.render c ts w)) = body w.
Proof.
  apply reschedules_first. unfold StorageBuffers.update. quiet.
  apply storage_update_object_quiet.
Qed.

Lemma uniforms_render_reschedules (objs : list Uniforms.ObjectInfo)
    (ts : option number) (w : world) :
  (exists l, calls (snd (Uniforms.render objs ts w)) =
               calls w ++ RequestAnimationFrame :: l) /\
  scheduled (snd (Uniforms.render objs ts w)) = S (scheduled w) /\
  body (snd (Uniforms.render objs ts w)) = body w.
Proof. apply reschedules_first. unfold Uniforms.update. quiet. Qed.

Lemma struct_render_reschedules (objs : list UniformStruct.ObjectInfo)
    (ts : option number) (w : world) :
  (exists l, calls (snd (UniformStruct.render objs ts w)) =
               calls w ++ RequestAnimationFrame :: l) /\
  scheduled (snd (UniformStruct.render objs ts w)) = S (scheduled w) /\
  body (snd (UniformStruct.render objs ts w)) = body w.
Proof. apply reschedules_first. unfold UniformStruct.update. quiet. Qed.

Lemma hardcoded_render_reschedules (ts : option number) (w : world) :
  (exists l, calls (snd (Hardcoded.render ts w)) =
               calls w ++ RequestAnimationFrame :: l) /\
  scheduled (snd (Hardcoded.render ts w)) = S (scheduled w) /\
  body (snd (Hardcoded.render ts w)) = body w.
Proof. apply reschedules_first. quiet. Qed.

Lemma vertex_render_reschedules (ts : option number) (w : world) :
  (exists l, calls (snd (VertexColors.render ts w)) =
               calls w ++ RequestAnimationFrame :: l) /\
  scheduled (snd (VertexColors.render ts w)) = S (scheduled w) /\
  body (snd (VertexColors.render ts w)) = body w.
Proof. apply reschedules_first. quiet. Qed.

(** The frame loop never runs dry: when every run of the callback
    leaves one more callback in the queue than it found, the queue that
    held a callback before a sequence of frames holds as many after. *)
Lemma run_keeps_queue (render : option number -> M unit) :
  (forall ts w, scheduled (snd (render ts w)) = S (scheduled w)) ->
  forall fs w, scheduled (run render fs w) = scheduled w.
Proof.
  intros Hr fs. induction fs as [|f fs IH]; intros w; [done|].
  change (run render (f :: fs) w) with (run render fs (deliver render f w)).
  rewrite IH. unfold deliver.
  destruct (scheduled w) as [|n] eqn:Hs; [done|].
  rewrite Hr. reflexivity.
Qed.

(** ** The capability gate *)

Ltac gate_run w :=
  unfold requestAdapter, requestAdapter_optional, getPreferredCanvasFormat,
    querySelector_canvas, getContext, requestDevice;
  repeat match goal with H : _ = _ |- _ => rewrite H end;
  destruct w as [[paragraphs|] ? ? ? ? ? ? ?];
  run_cbv; cbn [fmap option_fmap option_map];
  rewrite <- ?app_assoc, ?app_nil_r; reflexivity.

Lemma not_capable (env : host) :
  navigator_gpu env = true -> ~ capable env ->
  has_adapter env = false \/
  (has_adapter env = true /\ has_canvas env = false) \/
  (has_adapter env = true /\ has_canvas env = true /\ has_context env = false).
Proof.
  intros Hgpu Hnot. unfold capable in Hnot.
  destruct (has_adapter env); [|by left].
  destruct (has_canvas env); [|right; left; done].
  destruct (has_context env); [|right; right; done].
  exfalso. apply Hnot. done.
Qed.

Lemma storage_gate_closed (env : host) (N : nat) (w : world) :
  navigator_gpu env = true -> ~ capable env ->
  exists msg l,
    StorageBuffers.main env N w = (Return None, stopped msg l w) /\
    Forall (fun e => creates e = false) l.
Proof.
  intros Hgpu Hnot.
  destruct (not_capable env Hgpu Hnot) as [Ha|[[Ha Hc]|(Ha & Hc & Hx)]].
  - exists "This page requires WebGPU", [RequestAdapter].
    split; [|repeat constructor]. unfold StorageBuffers.main, stopped. gate_run w.
  - exists "Canvas not found", [RequestAdapter; RequestDevice].
    split; [|repeat constructor]. unfold StorageBuffers.main, stopped. gate_run w.
  - exists "Canvas not found", [RequestAdapter; RequestDevice; GetContext].
    split; [|repeat constructor]. unfold StorageBuffers.main, stopped. gate_run w.
Qed.

Lemma uniforms_gate_closed (env : host) (N : nat) (w : world) :
  navigator_gpu env = true -> ~ capable env ->
  exists msg l,
    Uniforms.main env N w = (Return None, stopped msg l w) /\
    Forall (fun e => creates e = false) l.
Proof.
  intros Hgpu Hnot.
  destruct (not_capable env Hgpu Hnot) as [Ha|[[Ha Hc]|(Ha & Hc & Hx)]].
  - exists "This page requires WebGPU", [RequestAdapter].
    split; [|repeat constructor]. unfold Uniforms.main, stopped. gate_run w.
  - exists "Canvas not found", [RequestAdapter; RequestDevice].
    split; [|repeat constructor]. unfold Uniforms.main, stopped. gate_run w.
  - exists "Canvas not found", [RequestAdapter; RequestDevice; GetContext].
    split; [|repeat constructor]. unfold Uniforms.main, stopped. gate_run w.
Qed.

Lemma struct_gate_closed (env : host) (N : nat) (w : world) :
  navigator_gpu env = true -> ~ capable env ->
  exists msg l,
    UniformStruct.main env N w = (Return None, stopped msg l w) /\
    Forall (fun e => creates e = false) l.
Proof.
  intros Hgpu Hnot.
  destruct (not_capable env Hgpu Hnot) as [Ha|[[Ha Hc]|(Ha & Hc & Hx)]].
  - exists "This page requires WebGPU", [RequestAdapter].
    split; [|repeat constructor]. unfold UniformStruct.main, stopped. gate_run w.
  - exists "Canvas not found", [RequestAdapter; RequestDevice].
    split; [|repeat constructor]. unfold UniformStruct.main, stopped. gate_run w.
  - exists "Canvas not found", [RequestAdapter; RequestDevice; GetContext].
    split; [|repeat constructor]. unfold UniformStruct.main, stopped. gate_run w.
Qed.

Lemma vertex_gate_closed (env : host) (w : world) :
  navigator_gpu env = true -> ~ capable env ->
  exists msg l,
    VertexColors.main env w = (Return tt, stopped msg l w) /\
    Forall (fun e => creates e = false) l.
Proof.
  intros Hgpu Hnot.
  destruct (not_capable env Hgpu Hnot) as [Ha|[[Ha Hc]|(Ha & Hc & Hx)]].
  - exists "This page requires WebGPU", [RequestAdapter].
    split; [|repeat constructor]. unfold VertexColors.main, stopped. gate_run w.
  - exists "Canvas not found", [RequestAdapter; RequestDevice].
    split; [|repeat constructor]. unfold VertexColors.main, stopped. gate_run w.
  - exists "Canvas not found", [RequestAdapter; RequestDevice; GetContext].
    split; [|repeat constructor]. unfold VertexColors.main, stopped. gate_run w.
Qed.

(** The first demo asks for the adapter with [?.], so its gate also
    closes in a browser without WebGPU. *)
Lemma hardcoded_gate_closed (env : host) (w : world) :
  ~ capable env ->
  exists msg l,
    Hardcoded.main env w = (Return tt, stopped msg l w) /\
    Forall (fun e => creates e = false) l.
Proof.
  intros Hnot.
  destruct (navigator_gpu env) eqn:Hgpu.
  - destruct (not_capable env Hgpu Hnot) as [Ha|[[Ha Hc]|(Ha & Hc & Hx)]].
    + exists "This page requires WebGPU", [RequestAdapter].
      split; [|repeat constructor]. unfold Hardcoded.main, stopped. gate_run w.
    + exists "Canvas context for WegGPU not found", [RequestAdapter; RequestDevice].
      split; [|repeat constructor]. unfold Hardcoded.main, stopped. gate_run w.
    + exists "Canvas context for WegGPU not found",
        [RequestAdapter; RequestDevice; GetContext].
      split; [|repeat constructor]. unfold Hardcoded.main, stopped. gate_run w.
  - exists "This page requires WebGPU", [].
    split; [|constructor]. unfold Hardcoded.main, stopped. gate_run w.
Qed.

(** Without [navigator.gpu] the other four demos stop with a
    [TypeError] before any message is shown. *)
Lemma gate_without_gpu (env : host) (N : nat) (w : world) :
  navigator_gpu env = false ->
  StorageBuffers.main env N w = (Throw TypeError, w) /\
  Uniforms.main env N w = (Throw TypeError, w) /\
  UniformStruct.main env N w = (Throw TypeError, w) /\
  VertexColors.main env w = (Throw TypeError, w).
Proof.
  intros Hgpu.
  unfold StorageBuffers.main, Uniforms.main, UniformStruct.main, VertexColors.main,
    requestAdapter.
  rewrite Hgpu. done.
Qed.

(** ** Uploads and frames *)

Lemma uploads_to_app (b : GPUBuffer) (l1 l2 : list call) :
  uploads_to b (l1 ++ l2) = uploads_to b l1 ++ uploads_to b l2.
Proof. unfold uploads_to. apply List.filter_app. Qed.

Lemma uploads_to_sets (b : GPUBuffer) (t : Float32Array) (l : list call) :
  Forall (is_set t) l -> uploads_to b l = [].
Proof.
  induction 1 as [|e l (vs & off & ->) _ IH]; [done|]. simpl. exact IH.
Qed.

Lemma uploads_to_storage_frames (c : StorageBuffers.closure) (b : GPUBuffer)
    (l : list call) :
  b <> StorageBuffers.changingStorageBuffer c ->
  Forall (StorageBuffers.frame_call c) l -> uploads_to b l = [].
Proof.
  intros Hne. induction 1 as [|e l He _ IH]; [done|].
  destruct e; simpl in *; try done.
  destruct (Nat.eqb_spec buffer b); [congruence|done].
Qed.

Lemma struct_run_static (objs : list UniformStruct.ObjectInfo) (fs : list frame) :
  forall w, UniformStruct.ready objs w ->
    forall o a, o ∈ objs -> heap w !! UniformStruct.uniformValues o = Some a ->
      exists a',
        heap (run (UniformStruct.render objs) fs w) !! UniformStruct.uniformValues o
          = Some a' /\
        UniformStruct.static_part a' = UniformStruct.static_part a.
Proof.
  induction fs as [|f fs IH]; intros w Hready o a Ho Ha.
  - exists a. done.
  - change (run (UniformStruct.render objs) (f :: fs) w)
      with (run (UniformStruct.render objs) fs
              (deliver (UniformStruct.render objs) f w)).
    destruct (struct_deliver_ready objs f w Hready) as (Hready1 & _).
    assert (Hstep : exists a1,
      heap (deliver (UniformStruct.render objs) f w) !! UniformStruct.uniformValues o
        = Some a1 /\
      UniformStruct.static_part a1 = UniformStruct.static_part a).
    { unfold deliver. destruct (scheduled w) as [|n]; [by exists a|].
      set (w1 := set_canvas _ _ _).
      assert (Hready' : UniformStruct.ready objs w1).
      { destruct Hready as (Hfits & Hnd). split; [|done].
        eapply Forall_impl; [exact Hfits|]. intros o' Ho'.
        by apply (struct_fits_unchanged o' w). }
      destruct (struct_render_run objs (timeStamp f) w1 Hready')
        as (w' & Hrun & _ & _ & _ & _ & _ & Hobj & _).
      rewrite Hrun. cbn [snd].
      destruct (Hobj o a Ho Ha) as (Ha' & _).
      eexists. split; [exact Ha'|].
      apply struct_updated_static.
      destruct Hready as (Hfits & _). rewrite Forall_forall in Hfits.
      destruct (Hfits o Ho) as (a0 & b0 & Ha0 & Hlen & _).
      congruence. }
    destruct Hstep as (a1 & Ha1 & Hs1).
    destruct (IH _ Hready1 o a1 Ho Ha1) as (a' & Ha' & Hs').
    exists a'. split; [done|congruence].
Qed.

Lemma static_part_lookup (a a' : list f32) (j : nat) :
  UniformStruct.static_part a' = UniformStruct.static_part a ->
  j < 4 \/ 6 <= j < 8 ->
  a' !! j = a !! j.
Proof.
  unfold UniformStruct.static_part.
  change UniformStruct.kColorOffset with 0. change UniformStruct.kOffsetOffset with 6.
  intros [= H1 H2] [Hj|Hj].
  - rewrite <- (lookup_take_lt a' 4 j), <- (lookup_take_lt a 4 j) by lia.
    rewrite !drop_0 in H1. by rewrite H1.
  - replace j with (6 + (j - 6)) by lia.
    rewrite <- !lookup_drop.
    rewrite <- (lookup_take_lt (drop 6 a') 2), <- (lookup_take_lt (drop 6 a) 2) by lia.
    by rewrite H2.
Qed.

Lemma fround_one : fround (of_Z 1) = one32.
Proof. reflexivity. Qed.

Lemma fround_zero : fround (of_Z 0) = zero32.
Proof. reflexivity. Qed.

Lemma webgpu_capable : capable webgpu.
Proof. repeat split. Qed.



Lemma fifth_of_two :
  fround (div (decimal 4 1) (of_Z 2)) = fround (decimal 2 1).
Proof. vm_compute. reflexivity. Qed.

Lemma length_4_inv {A} (l : list A) :
  length l = 4 -> exists a b c d, l = [a; b; c; d].
Proof.
  destruct l as [|a [|b [|c [|d [|e l]]]]]; try discriminate.
  intros _. by exists a, b, c, d.
Qed.

(** From here on the numbers are left folded. *)
#[local] Opaque fround div decimal of_Z.

(** * The properties of the specification *)

Lemma storage_update_run (c : StorageBuffers.closure) (time aspect : number)
    (w : world) :
  StorageBuffers.ready c w ->
  exists a a' sets,
    heap w !! StorageBuffers.storageValues c = Some a /\
    StorageBuffers.update c time aspect w =
    (Return tt,
     World (body w) (width w) (height w)
       (<[StorageBuffers.storageValues c := a']> (heap w)) (buffers w)
       (calls w ++ sets) (drawn w) (scheduled w)) /\
    length a' = 4 * length (StorageBuffers.objectInfos c) /\
    Forall (is_set (StorageBuffers.storageValues c)) sets /\
    (forall i o, StorageBuffers.objectInfos c !! i = Some o ->
       StorageBuffers.changing_record time aspect o i a') /\
    (forall j, j `mod` 4 = 3 -> a' !! j = a !! j).
Proof.
  intros (a & b & Ha & Hlen & _).
  destruct (storage_update_loop c time aspect
              (seq 0 (length (StorageBuffers.objectInfos c))) w a)
    as (a' & sets & Hrun & Hlen' & Hsets & Hrec & Hframe); [done|done| |].
  { apply Forall_forall. intros i Hi. apply elem_of_seq in Hi. lia. }
  exists a, a', sets. split; [done|]. split; [exact Hrun|]. split; [lia|].
  split; [done|]. split.
  - intros i o Ho. apply Hrec; [|done].
    apply elem_of_seq. apply lookup_lt_Some in Ho. lia.
  - intros j Hj. apply Hframe. intros i _ Hr.
    pose proof (Nat.div_mod_eq j 4). lia.
Qed.

Lemma storage_update_ready (c : StorageBuffers.closure) (time aspect : number)
    (w : world) :
  StorageBuffers.ready c w ->
  StorageBuffers.ready c (snd (StorageBuffers.update c time aspect w)).
Proof.
  intros Hready.
  destruct (storage_update_run c time aspect w Hready)
    as (a & a' & sets & Ha & Hrun & Hlen' & _).
  destruct Hready as (a0 & b & Ha0 & Hlen & Hb & Hfit & Hdata).
  assert (a0 = a) as -> by congruence.
  rewrite Hrun. cbn [snd]. exists a', b. world_simpl.
  split; [apply list_lookup_insert_eq; by eapply lookup_lt_Some|].
  split; [done|]. split; [done|]. split; lia.
Qed.

(** C1: in every frame, for every object, the update writes the scale
    pair (base scale / aspect ratio, base scale) and the elapsed time
    into the changing values at the record of the object, and the
    upload copies them to the buffer.  With one object of base scale 0.4
    and an aspect ratio of 2 the values written are 0.2, 0.4 and the
    time. *)
Theorem update_writes_scale_and_time :
  (forall (c : StorageBuffers.closure) (ts : option number) (w : world),
     StorageBuffers.ready c w ->
     exists a' b',
       fst (StorageBuffers.render c ts w) = Return tt /\
       heap (snd (StorageBuffers.render c ts w)) !! StorageBuffers.storageValues c
         = Some a' /\
       buffers (snd (StorageBuffers.render c ts w))
         !! StorageBuffers.changingStorageBuffer c = Some b' /\
       buf_data b' = a' /\
       WriteBuffer (StorageBuffers.changingStorageBuffer c) 0 a'
         ∈ calls (snd (StorageBuffers.render c ts w)) /\
       forall i o, StorageBuffers.objectInfos c !! i = Some o ->
         StorageBuffers.changing_record (default (of_Z 0) ts)
           (div (of_Z (width w)) (of_Z (height w))) o i a') /\
  (forall (objs : list Uniforms.ObjectInfo) (ts : option number) (w : world),
     Uniforms.ready objs w ->
     fst (Uniforms.render objs ts w) = Return tt /\
     forall o, o ∈ objs ->
       exists pad b',
         heap (snd (Uniforms.render objs ts w)) !! Uniforms.uniformValues o =
           Some [fround (div (Uniforms.scale o) (div (of_Z (width w)) (of_Z (height w))));
                 fround (Uniforms.scale o); fround (default (of_Z 0) ts); pad] /\
         buffers (snd (Uniforms.render objs ts w)) !! Uniforms.uniformBuffer o
           = Some b' /\
         Some (buf_data b') =
           heap (snd (Uniforms.render objs ts w)) !! Uniforms.uniformValues o) /\
  (forall (c : StorageBuffers.closure) (ts : option number) (w : world),
     StorageBuffers.ready c w ->
     StorageBuffers.objectInfos c = [{| StorageBuffers.scale := decimal 4 1 |}] ->
     div (of_Z (width w)) (of_Z (height w)) = of_Z 2 ->
     exists pad,
       heap (snd (StorageBuffers.render c ts w)) !! StorageBuffers.storageValues c
         = Some [fround (decimal 2 1); fround (decimal 4 1);
                 fround (default (of_Z 0) ts); pad] /\
       WriteBuffer (StorageBuffers.changingStorageBuffer c) 0
         [fround (decimal 2 1); fround (decimal 4 1);
          fround (default (of_Z 0) ts); pad]
         ∈ calls (snd (StorageBuffers.render c ts w))).
Proof.
  assert (Hstorage :
    forall (c : StorageBuffers.closure) (ts : option number) (w : world),
     StorageBuffers.ready c w ->
     exists a' b',
       fst (StorageBuffers.render c ts w) = Return tt /\
       heap (snd (StorageBuffers.render c ts w)) !! StorageBuffers.storageValues c
         = Some a' /\
       buffers (snd (StorageBuffers.render c ts w))
         !! StorageBuffers.changingStorageBuffer c = Some b' /\
       buf_data b' = a' /\
       WriteBuffer (StorageBuffers.changingStorageBuffer c) 0 a'
         ∈ calls (snd (StorageBuffers.render c ts w)) /\
       length a' = 4 * length (StorageBuffers.objectInfos c) /\
       forall i o, StorageBuffers.objectInfos c !! i = Some o ->
         StorageBuffers.changing_record (default (of_Z 0) ts)
           (div (of_Z (width w)) (of_Z (height w))) o i a').
  { intros c ts w Hready.
    destruct (storage_frame c ts w Hready)
      as (a & a' & b & sets & Ha & Hb & Hrun & Hlen & Hsets & Hrec & Hpad).
    exists a', (BufferState (buf_label b) (buf_size b) a').
    rewrite Hrun. cbn [fst snd]. world_simpl.
    split; [done|].
    split; [apply list_lookup_insert_eq; by eapply lookup_lt_Some|].
    split; [apply list_lookup_insert_eq; by eapply lookup_lt_Some|].
    split; [done|]. split; [|done].
    apply elem_of_app. right. apply elem_of_app. right.
    apply elem_of_app. right. apply elem_of_cons. by left. }
  split; [|split].
  - intros c ts w Hready.
    destruct (Hstorage c ts w Hready) as (a' & b' & H1 & H2 & H3 & H4 & H5 & _ & H6).
    by exists a', b'.
  - intros objs ts w Hready.
    destruct (uniforms_render_run objs ts w Hready)
      as (w' & Hrun & _ & _ & _ & _ & _ & Hobj & _).
    rewrite Hrun. cbn [fst snd]. split; [done|].
    intros o Ho.
    destruct Hready as (Hfits & _). rewrite Forall_forall in Hfits.
    destruct (Hfits o Ho) as (a & b & Ha & Hlen & Hb & _).
    destruct (Hobj o a Ho Ha) as (Ha' & b0 & Hb0 & Hb').
    destruct (uniforms_updated_record (default (of_Z 0) ts)
                (div (of_Z (width w)) (of_Z (height w))) o a Hlen)
      as (pad & _ & Hupd).
    rewrite Hupd in Ha', Hb'.
    eexists pad, _. split; [exact Ha'|]. split; [exact Hb'|].
    rewrite Ha'. reflexivity.
  - intros c ts w Hready Hobjs Haspect.
    destruct (Hstorage c ts w Hready) as (a' & b' & _ & Ha' & _ & _ & Hcall & Hlen & Hrec).
    rewrite Hobjs in Hlen, Hrec. rewrite Haspect in Hrec.
    destruct (Hrec 0 _ eq_refl) as (H0 & H1 & H2).
    cbn [StorageBuffers.scale] in *.
    destruct (length_4_inv a' Hlen) as (x0 & x1 & x2 & x3 & ->).
    cbn [lookup list_lookup Nat.mul Nat.add] in H0, H1, H2.
    apply (inj Some) in H0, H1, H2. subst x0 x1 x2.
    exists x3. rewrite <- fifth_of_two. split; [exact Ha'|exact Hcall].
Qed.

Lemma storage_one_object_ready :
  StorageBuffers.ready StorageBuffers.one_object StorageBuffers.one_object_world.
Proof.
  exists (replicate 4 zero32),
    (BufferState "changing storage for triangles" 16 (replicate 4 zero32)).
  repeat split; simpl; lia.
Qed.

Lemma uniforms_one_object_ready :
  Uniforms.ready [Uniforms.one_object] Uniforms.one_object_world.
Proof.
  split; [|split; apply NoDup_singleton].
  constructor; [|constructor].
  eexists _, _. repeat split; reflexivity.
Qed.

Lemma update_writes_scale_and_time_witness :
  (exists pad,
     heap (snd (StorageBuffers.render StorageBuffers.one_object (Some (of_Z 16))
                  StorageBuffers.one_object_world))
       !! StorageBuffers.storageValues StorageBuffers.one_object
     = Some [fround (decimal 2 1); fround (decimal 4 1);
             fround (default (of_Z 0) (Some (of_Z 16))); pad] /\
     WriteBuffer (StorageBuffers.changingStorageBuffer StorageBuffers.one_object) 0
       [fround (decimal 2 1); fround (decimal 4 1);
        fround (default (of_Z 0) (Some (of_Z 16))); pad]
       ∈ calls (snd (StorageBuffers.render StorageBuffers.one_object (Some (of_Z 16))
                       StorageBuffers.one_object_world))) /\
  fst (Uniforms.render [Uniforms.one_object] (Some (of_Z 16))
         Uniforms.one_object_world) = Return tt.
Proof.
  split.
  - apply (proj2 (proj2 update_writes_scale_and_time)).
    + exact storage_one_object_ready.
    + reflexivity.
    + vm_compute. reflexivity.
  - apply (proj1 (proj2 update_writes_scale_and_time)).
    exact uniforms_one_object_ready.
Defined.

Lemma struct_one_object_ready :
  UniformStruct.ready [UniformStruct.one_object] UniformStruct.one_object_world.
Proof.
  split; [|split; apply NoDup_singleton].
  apply Forall_singleton. eexists _, _.
  repeat split; reflexivity.
Qed.

(** C3: the update is a function of the stored scales and of its two
    arguments: run twice with the same time and aspect ratio it leaves
    the changing values as one run left them, and what it leaves does
    not depend on the scale and time values that were there before.
    The same holds for whole frames and the bytes they upload. *)
Theorem update_idempotent :
  forall (c : StorageBuffers.closure) (time aspect : number) (ts : option number)
         (w : world),
    StorageBuffers.ready c w ->
    heap (snd (StorageBuffers.update c time aspect
                 (snd (StorageBuffers.update c time aspect w))))
      !! StorageBuffers.storageValues c =
    heap (snd (StorageBuffers.update c time aspect w))
      !! StorageBuffers.storageValues c /\
    (forall w', StorageBuffers.ready c w' ->
       (forall a a' j, heap w !! StorageBuffers.storageValues c = Some a ->
                       heap w' !! StorageBuffers.storageValues c = Some a' ->
                       j `mod` 4 = 3 -> a' !! j = a !! j) ->
       heap (snd (StorageBuffers.update c time aspect w'))
         !! StorageBuffers.storageValues c =
       heap (snd (StorageBuffers.update c time aspect w))
         !! StorageBuffers.storageValues c) /\
    heap (snd (StorageBuffers.render c ts (snd (StorageBuffers.render c ts w))))
      !! StorageBuffers.storageValues c =
    heap (snd (StorageBuffers.render c ts w)) !! StorageBuffers.storageValues c /\
    buffers (snd (StorageBuffers.render c ts (snd (StorageBuffers.render c ts w))))
      !! StorageBuffers.changingStorageBuffer c =
    buffers (snd (StorageBuffers.render c ts w))
      !! StorageBuffers.changingStorageBuffer c.
Proof.
  intros c time aspect ts w Hready.
  assert (Hpure : forall w1 w2,
    StorageBuffers.ready c w1 -> StorageBuffers.ready c w2 ->
    (forall a1 a2 j, heap w1 !! StorageBuffers.storageValues c = Some a1 ->
                     heap w2 !! StorageBuffers.storageValues c = Some a2 ->
                     j `mod` 4 = 3 -> a2 !! j = a1 !! j) ->
    heap (snd (StorageBuffers.update c time aspect w2))
      !! StorageBuffers.storageValues c =
    heap (snd (StorageBuffers.update c time aspect w1))
      !! StorageBuffers.storageValues c).
  { intros w1 w2 Hr1 Hr2 Hpad.
    destruct (storage_update_run c time aspect w1 Hr1)
      as (a1 & a1' & s1 & Ha1 & Hrun1 & Hl1 & _ & Hrec1 & Hpad1).
    destruct (storage_update_run c time aspect w2 Hr2)
      as (a2 & a2' & s2 & Ha2 & Hrun2 & Hl2 & _ & Hrec2 & Hpad2).
    rewrite Hrun1, Hrun2. cbn [snd]. world_simpl.
    rewrite !list_lookup_insert_eq by (by eapply lookup_lt_Some).
    f_equal. eapply storage_changing_ext; try eassumption.
    intros j Hj. rewrite Hpad2, Hpad1 by done. by eapply Hpad. }
  split; [|split].
  - apply Hpure; [done|by apply storage_update_ready|].
    intros a1 a2 j Ha1 Ha2 Hj.
    destruct (storage_update_run c time aspect w Hready)
      as (a & a' & s & Ha & Hrun & Hl & _ & _ & Hpad).
    rewrite Hrun in Ha2. cbn [snd] in Ha2. world_simpl in Ha2.
    rewrite list_lookup_insert_eq in Ha2 by (by eapply lookup_lt_Some).
    assert (a1 = a) as -> by congruence.
    assert (a2 = a') as -> by congruence. by apply Hpad.
  - intros w' Hready' Hpad. apply Hpure; [done|done|].
    intros a1 a2 j Ha1 Ha2 Hj. by eapply Hpad.
  - destruct (storage_frame c ts w Hready)
      as (a & a1 & b & s1 & Ha & Hb & Hrun1 & Hl1 & _ & Hrec1 & Hpad1).
    pose proof (storage_deliver_ready c (Frame ts (width w) (height w))
                  (set_scheduled (S (scheduled w)) w)) as Hdel.
    assert (Hready1 : StorageBuffers.ready c (snd (StorageBuffers.render c ts w))).
    { rewrite Hrun1. cbn [snd]. destruct Hready as (a0 & b0 & Ha0 & Hlen0 & Hb0 & Hfit & Hdata).
      assert (b0 = b) as -> by congruence.
      exists a1, (BufferState (buf_label b) (buf_size b) a1). world_simpl.
      split; [apply list_lookup_insert_eq; by eapply lookup_lt_Some|].
      split; [done|].
      split; [apply list_lookup_insert_eq; by eapply lookup_lt_Some|].
      cbn [buf_size buf_data]. split; lia. }
    destruct (storage_frame c ts _ Hready1)
      as (a1' & a2 & b1 & s2 & Ha1' & Hb1 & Hrun2 & Hl2 & _ & Hrec2 & Hpad2).
    assert (Heq : a2 = a1).
    { rewrite Hrun1 in Hrec2, Ha1'. cbn [snd] in Hrec2, Ha1'. world_simpl in Hrec2.
      world_simpl in Ha1'.
      rewrite list_lookup_insert_eq in Ha1' by (by eapply lookup_lt_Some).
      injection Ha1' as <-.
      eapply storage_changing_ext; try eassumption. }
    subst a2. rewrite Hrun2. cbn [snd]. world_simpl.
    rewrite Hrun1 in Hb1 |- *. cbn [snd] in Hb1. world_simpl in Hb1.
    rewrite list_lookup_insert_eq in Hb1 by (by eapply lookup_lt_Some).
    injection Hb1 as <-.
    cbn [snd buf_label buf_size]. world_simpl.
    rewrite !list_insert_insert_eq.
    done.
Qed.

Lemma update_idempotent_witness :
  heap (snd (StorageBuffers.update StorageBuffers.one_object (of_Z 16) (of_Z 2)
               (snd (StorageBuffers.update StorageBuffers.one_object (of_Z 16) (of_Z 2)
                       StorageBuffers.one_object_world))))
    !! StorageBuffers.storageValues StorageBuffers.one_object =
  heap (snd (StorageBuffers.update StorageBuffers.one_object (of_Z 16) (of_Z 2)
               StorageBuffers.one_object_world))
    !! StorageBuffers.storageValues StorageBuffers.one_object.
Proof.
  exact (proj1 (update_idempotent StorageBuffers.one_object (of_Z 16) (of_Z 2) None
                  StorageBuffers.one_object_world storage_one_object_ready)).
Defined.

(** C4: what the capability gate does when it fails.  Where
    [navigator.gpu] exists and the adapter, the canvas or its context is
    missing, [main] of the storage-buffer demo and of the uniform demo
    prepends exactly one message to the page, returns, and has made no
    call that creates a pipeline, a buffer or a bind group or that starts
    the frame loop.  Where [navigator.gpu] itself is missing, both throw
    a TypeError from [navigator.gpu.requestAdapter()] before the gate is
    reached: no message is shown and the page is left as it was. *)
Theorem gate_failure :
  forall (env : host) (N : nat) (w : world),
    ~ capable env ->
    (navigator_gpu env = true ->
     (exists msg l,
        StorageBuffers.main env N w = (Return None, stopped msg l w) /\
        Forall (fun e => creates e = false) l) /\
     (exists msg l,
        Uniforms.main env N w = (Return None, stopped msg l w) /\
        Forall (fun e => creates e = false) l)) /\
    (navigator_gpu env = false ->
     StorageBuffers.main env N w = (Throw TypeError, w) /\
     Uniforms.main env N w = (Throw TypeError, w)).
Proof.
  intros env N w Hnot. split; intros Hgpu.
  - split.
    + by apply storage_gate_closed.
    + by apply uniforms_gate_closed.
  - destruct (gate_without_gpu env N w Hgpu) as (Hs & Hu & _). done.
Qed.

Lemma gate_failure_witness :
  (StorageBuffers.main no_webgpu 100 fresh_page = (Throw TypeError, fresh_page) /\
   Uniforms.main no_webgpu 100 fresh_page = (Throw TypeError, fresh_page)) /\
  ((exists msg l,
      StorageBuffers.main no_canvas 100 fresh_page =
        (Return None, stopped msg l fresh_page) /\
      Forall (fun e => creates e = false) l) /\
   (exists msg l,
      Uniforms.main no_canvas 100 fresh_page =
        (Return None, stopped msg l fresh_page) /\
      Forall (fun e => creates e = false) l)).
Proof.
  split.
  - apply (proj2 (gate_failure no_webgpu 100 fresh_page
                    ltac:(intros (H & _); discriminate H))).
    reflexivity.
  - apply (proj1 (gate_failure no_canvas 100 fresh_page
                    ltac:(intros (_ & _ & H & _); discriminate H))).
    reflexivity.
Defined.

(** C5: in each packed record the fields follow each other from byte 0
    on without overlapping, the fields and the padding add up to the
    declared size of the record, and that size is a multiple of 16
    bytes. *)
Theorem record_layout :
  (packed_from 0 StorageBuffers.static_fields 2 StorageBuffers.staticUnitSize /\
   NoDup (concat (field_bytes <$> StorageBuffers.static_fields))) /\
  (packed_from 0 StorageBuffers.changing_fields 1 StorageBuffers.changingUnitSize /\
   NoDup (concat (field_bytes <$> StorageBuffers.changing_fields))) /\
  (packed_from 0 Uniforms.static_fields 2 Uniforms.staticUniformBufferSize /\
   NoDup (concat (field_bytes <$> Uniforms.static_fields))) /\
  (packed_from 0 Uniforms.changing_fields 1 Uniforms.uniformBufferSize /\
   NoDup (concat (field_bytes <$> Uniforms.changing_fields))) /\
  (packed_from 0 UniformStruct.fields 3 UniformStruct.uniformBufferSize /\
   NoDup (concat (field_bytes <$> UniformStruct.fields))).
Proof.
  repeat split; try reflexivity;
    apply (bool_decide_unpack _); vm_compute; reflexivity.
Qed.

(** C6: for every object count [N], initialization creates exactly [N]
    object records, a static buffer of [N] times the static record size
    and a changing buffer of [N] times the changing record size, and the
    typed arrays behind them hold that many bytes. *)
Theorem allocates_N_records :
  forall (env : host) (N : nat) (w : world),
    capable env ->
    exists c w1 sb cb a,
      StorageBuffers.main env N w = (Return (Some c), w1) /\
      length (StorageBuffers.objectInfos c) = N /\
      buffers w1 !! StorageBuffers.staticStorageBuffer c = Some sb /\
      buf_size sb = N * StorageBuffers.staticUnitSize /\
      4 * length (buf_data sb) = N * StorageBuffers.staticUnitSize /\
      buffers w1 !! StorageBuffers.changingStorageBuffer c = Some cb /\
      buf_size cb = N * StorageBuffers.changingUnitSize /\
      heap w1 !! StorageBuffers.storageValues c = Some a /\
      4 * length a = N * StorageBuffers.changingUnitSize.
Proof.
  intros env N w Hcap.
  destruct (storage_main_facts env N w Hcap)
    as (c & w1 & sdata & sets & Hrun & _ & _ & Hobjs & _ & Hsb & Hcb & Ha & _ & _ &
        _ & _ & Hlen & _).
  eexists c, w1, _, _, _.
  split; [exact Hrun|].
  split; [by rewrite Hobjs, length_fmap, length_seq|].
  split; [exact Hsb|]. cbn [buf_size buf_data].
  split; [lia|].
  split; [rewrite Hlen; unfold StorageBuffers.staticUnitSize; lia|].
  split; [exact Hcb|]. cbn [buf_size].
  split; [lia|].
  split; [exact Ha|].
  rewrite length_replicate. unfold StorageBuffers.changingUnitSize. lia.
Qed.

Lemma allocates_N_records_witness :
  exists c w1 sb cb a,
    StorageBuffers.main webgpu 2 fresh_page = (Return (Some c), w1) /\
    length (StorageBuffers.objectInfos c) = 2 /\
    buffers w1 !! StorageBuffers.staticStorageBuffer c = Some sb /\
    buf_size sb = 2 * StorageBuffers.staticUnitSize /\
    4 * length (buf_data sb) = 2 * StorageBuffers.staticUnitSize /\
    buffers w1 !! StorageBuffers.changingStorageBuffer c = Some cb /\
    buf_size cb = 2 * StorageBuffers.changingUnitSize /\
    heap w1 !! StorageBuffers.storageValues c = Some a /\
    4 * length a = 2 * StorageBuffers.changingUnitSize.
Proof.
  exact (allocates_N_records webgpu 2 fresh_page webgpu_capable).
Defined.






(** C8: the frame callback asks for the next frame before it does
    anything else: whatever the state it is called in, the first call it
    adds is [requestAnimationFrame], and one more callback is pending
    when it returns, also when a later step of the frame failed.  So the
    browser's queue holds as many callbacks after any number of frames as
    it did before them: the loop has no last frame. *)
Theorem reschedules_before_work :
  forall (c : StorageBuffers.closure) (objs : list Uniforms.ObjectInfo)
         (ts : option number) (fs : list frame) (w : world),
    ((exists l, calls (snd (StorageBuffers.render c ts w)) =
                  calls w ++ RequestAnimationFrame :: l) /\
     scheduled (snd (StorageBuffers.render c ts w)) = S (scheduled w)) /\
    ((exists l, calls (snd (Uniforms.render objs ts w)) =
                  calls w ++ RequestAnimationFrame :: l) /\
     scheduled (snd (Uniforms.render objs ts w)) = S (scheduled w)) /\
    scheduled (run (StorageBuffers.render c) fs w) = scheduled w /\
    scheduled (run (Uniforms.render objs) fs w) = scheduled w.
Proof.
  intros c objs ts fs w.
  split; [|split; [|split]].
  - destruct (storage_render_reschedules c ts w) as (Hl & Hs & _). done.
  - destruct (uniforms_render_reschedules objs ts w) as (Hl & Hs & _). done.
  - apply run_keeps_queue. intros ts' w'.
    by destruct (storage_render_reschedules c ts' w') as (_ & Hs & _).
  - apply run_keeps_queue. intros ts' w'.
    by destruct (uniforms_render_reschedules objs ts' w') as (_ & Hs & _).
Qed.

(** C10: the alpha component of every record's colour is exactly 1 from
    the moment [main] has created the record, and it still is after any
    number of frames; the three channels before it are draws.  This
    holds for the static storage buffer, for the static uniform buffer
    of each object and for the uniform values of the single-struct
    demo. *)
Theorem alpha_is_one :
  forall (env : host) (N : nat) (fs : list frame) (w : world),
    capable env ->
    (exists c w1 sb,
       StorageBuffers.main env N w = (Return (Some c), w1) /\
       buffers (run (StorageBuffers.render c) fs w1)
         !! StorageBuffers.staticStorageBuffer c = Some sb /\
       forall i, i < N ->
         buf_data sb !! (i * 8 + StorageBuffers.kColorOffset + 3) = Some one32 /\
         forall j, j < 3 ->
           buf_data sb !! (i * 8 + StorageBuffers.kColorOffset + j) =
             Some (fround (random env (drawn w + 6 * i + j) (of_Z 0) (of_Z 1)))) /\
    (exists objs w1,
       Uniforms.main env N w = (Return (Some objs), w1) /\
       Forall (fun o => exists sb d,
                 buffers (run (Uniforms.render objs) fs w1)
                   !! Uniforms.static_buffer o = Some sb /\
                 buf_data sb !! (Uniforms.kColorOffset + 3) = Some one32 /\
                 forall j, j < 3 ->
                   buf_data sb !! (Uniforms.kColorOffset + j) =
                     Some (fround (random env (d + j) (of_Z 0) (of_Z 1))))
              objs) /\
    (exists objs w1,
       UniformStruct.main env N w = (Return (Some objs), w1) /\
       Forall (fun o => exists a d,
                 heap (run (UniformStruct.render objs) fs w1)
                   !! UniformStruct.uniformValues o = Some a /\
                 a !! (UniformStruct.kColorOffset + 3) = Some one32 /\
                 forall j, j < 3 ->
                   a !! (UniformStruct.kColorOffset + j) =
                     Some (fround (random env (d + j) (of_Z 0) (of_Z 1))))
              objs).
Proof.
  intros env N fs w Hcap. split; [|split].
  - destruct (storage_main_facts env N w Hcap)
      as (c & w1 & sdata & sets & Hrun & Hready & _ & _ & Hne & Hsb & _ & _ & _ & _ &
          _ & _ & Hlen & Hrec & _).
    destruct (storage_run_ready c fs w1 Hready) as (_ & (_ & _ & _ & Hbuf & _) & _).
    eexists c, w1, _. split; [exact Hrun|].
    split; [rewrite (Hbuf _ Hne); exact Hsb|].
    cbn [buf_data]. intros i Hi.
    destruct (Hrec i Hi) as (Hr & Hg & Hb & Ha & _).
    change StorageBuffers.kColorOffset with 0. rewrite !Nat.add_0_r.
    split; [by rewrite Ha, fround_one|].
    intros j Hj.
    destruct j as [|[|[|j]]]; [| | |lia]; rewrite ?Nat.add_0_r; done.
  - destruct (uniforms_main_run env N w Hcap)
      as (objs & w1 & Hrun & (Hready & Hstarted & Hnd) & _).
    exists objs, w1. split; [exact Hrun|].
    destruct (uniforms_run_ready objs fs w1 Hready) as (_ & (_ & _ & _ & Hbuf & _) & _).
    apply Forall_forall. intros o Ho.
    rewrite Forall_forall in Hstarted.
    destruct (Hstarted o Ho) as (_ & _ & _ & _ & d & _ & _ & Hsb).
    eexists _, d. split.
    + rewrite Hbuf; [exact Hsb|].
      apply NoDup_app in Hnd as (_ & Hdisj & _).
      apply Hdisj. by apply list_elem_of_fmap_2.
    + cbn [buf_data]. change Uniforms.kColorOffset with 0.
      unfold Uniforms.static_values.
      split; [cbn [lookup list_lookup Nat.add]; by rewrite fround_one|].
      intros j Hj.
      destruct j as [|[|[|j]]]; [| | |lia]; rewrite ?Nat.add_0_r; done.
  - destruct (struct_main_run env N w Hcap)
      as (objs & w1 & Hrun & (Hready & Hstarted) & _).
    exists objs, w1. split; [exact Hrun|].
    apply Forall_forall. intros o Ho.
    rewrite Forall_forall in Hstarted.
    destruct (Hstarted o Ho) as (_ & _ & _ & d & _ & Ha).
    destruct (struct_run_static objs fs w1 Hready o _ Ho Ha) as (a' & Ha' & Hstatic).
    exists a', d. split; [exact Ha'|].
    change UniformStruct.kColorOffset with 0.
    split.
    + change (0 + 3) with 3.
      rewrite (static_part_lookup _ _ 3 Hstatic) by lia.
      unfold UniformStruct.initial_values.
      cbn [lookup list_lookup Nat.add]. by rewrite fround_one.
    + intros j Hj.
      rewrite (static_part_lookup _ _ (0 + j) Hstatic) by lia.
      unfold UniformStruct.initial_values.
      destruct j as [|[|[|j]]]; [| | |lia]; rewrite ?Nat.add_0_r; done.
Qed.

Lemma alpha_is_one_witness :
  exists c w1 sb,
    StorageBuffers.main webgpu 2 fresh_page = (Return (Some c), w1) /\
    buffers (run (StorageBuffers.render c) [Frame None 300 150; Frame (Some (of_Z 16)) 300 150] w1)
      !! StorageBuffers.staticStorageBuffer c = Some sb /\
    forall i, i < 2 ->
      buf_data sb !! (i * 8 + StorageBuffers.kColorOffset + 3) = Some one32 /\
      forall j, j < 3 ->
        buf_data sb !! (i * 8 + StorageBuffers.kColorOffset + j) =
          Some (fround (random webgpu (drawn fresh_page + 6 * i + j) (of_Z 0) (of_Z 1))).
Proof.
  exact (proj1 (alpha_is_one webgpu 2
                  [Frame None 300 150; Frame (Some (of_Z 16)) 300 150]
                  fresh_page webgpu_capable)).
Defined.

(** * Further properties of the demos *)

(** X1: the first demo asks for the adapter with
    [navigator.gpu?.requestAdapter()], so its gate closes in every
    browser that cannot run it, one without WebGPU included: [main]
    returns normally, the page gets exactly one message that tells which
    step failed, and no pipeline is created and no frame is asked for. *)
Theorem hardcoded_gate_any_browser :
  forall (env : host) (w : world),
    ~ capable env ->
    exists l,
      Hardcoded.main env w =
        (Return tt,
         stopped (if navigator_gpu env && has_adapter env
                  then "Canvas context for WegGPU not found"
                  else "This page requires WebGPU") l w) /\
      Forall (fun e => creates e = false) l.
Proof.
  intros env w Hnot.
  destruct (navigator_gpu env) eqn:Hgpu.
  - destruct (not_capable env Hgpu Hnot) as [Ha|[[Ha Hc]|(Ha & Hc & Hx)]];
      rewrite Ha; cbn [andb].
    + exists [RequestAdapter].
      split; [|repeat constructor]. unfold Hardcoded.main, stopped. gate_run w.
    + exists [RequestAdapter; RequestDevice].
      split; [|repeat constructor]. unfold Hardcoded.main, stopped. gate_run w.
    + exists [RequestAdapter; RequestDevice; GetContext].
      split; [|repeat constructor]. unfold Hardcoded.main, stopped. gate_run w.
  - exists []. cbn [andb].
    split; [|constructor]. unfold Hardcoded.main, stopped. gate_run w.
Qed.

Lemma hardcoded_gate_any_browser_witness :
  exists l,
    Hardcoded.main no_webgpu fresh_page =
      (Return tt, stopped "This page requires WebGPU" l fresh_page) /\
    Forall (fun e => creates e = false) l.
Proof.
  apply (hardcoded_gate_any_browser no_webgpu fresh_page).
  intros (H & _). discriminate H.
Defined.

(** X2: the gate of the vertex-colour demo and of the single-struct
    demo.  With [navigator.gpu] present and the adapter, the canvas or
    the context missing, [main] returns after one message, "This page
    requires WebGPU" without an adapter and "Canvas not found"
    otherwise (the vertex-colour demo tests the context alone, which is
    missing when the canvas is), and nothing was created.  Without
    [navigator.gpu] both throw a TypeError and show nothing. *)
Theorem other_gates :
  forall (env : host) (N : nat) (w : world),
    ~ capable env ->
    (navigator_gpu env = true ->
     exists l l',
       VertexColors.main env w =
         (Return tt,
          stopped (if has_adapter env then "Canvas not found"
                   else "This page requires WebGPU") l w) /\
       UniformStruct.main env N w =
         (Return None,
          stopped (if has_adapter env then "Canvas not found"
                   else "This page requires WebGPU") l' w) /\
       Forall (fun e => creates e = false) (l ++ l')) /\
    (navigator_gpu env = false ->
     VertexColors.main env w = (Throw TypeError, w) /\
     UniformStruct.main env N w = (Throw TypeError, w)).
Proof.
  intros env N w Hnot. split; intros Hgpu.
  - destruct (not_capable env Hgpu Hnot) as [Ha|[[Ha Hc]|(Ha & Hc & Hx)]];
      rewrite Ha.
    + exists [RequestAdapter], [RequestAdapter].
      split; [|split; [|repeat constructor]].
      * unfold VertexColors.main, stopped. gate_run w.
      * unfold UniformStruct.main, stopped. gate_run w.
    + exists [RequestAdapter; RequestDevice], [RequestAdapter; RequestDevice].
      split; [|split; [|repeat constructor]].
      * unfold VertexColors.main, stopped. gate_run w.
      * unfold UniformStruct.main, stopped. gate_run w.
    + exists [RequestAdapter; RequestDevice; GetContext],
        [RequestAdapter; RequestDevice; GetContext].
      split; [|split; [|repeat constructor]].
      * unfold VertexColors.main, stopped. gate_run w.
      * unfold UniformStruct.main, stopped. gate_run w.
  - destruct (gate_without_gpu env N w Hgpu) as (_ & _ & Hs & Hv). done.
Qed.

Lemma other_gates_witness :
  (exists l l',
     VertexColors.main no_canvas fresh_page =
       (Return tt, stopped "Canvas not found" l fresh_page) /\
     UniformStruct.main no_canvas 100 fresh_page =
       (Return None, stopped "Canvas not found" l' fresh_page) /\
     Forall (fun e => creates e = false) (l ++ l')) /\
  VertexColors.main no_webgpu fresh_page = (Throw TypeError, fresh_page) /\
  UniformStruct.main no_webgpu 100 fresh_page = (Throw TypeError, fresh_page).
Proof.
  split.
  - apply (proj1 (other_gates no_canvas 100 fresh_page
                    ltac:(intros (_ & _ & H & _); discriminate H))).
    reflexivity.
  - apply (proj2 (other_gates no_webgpu 100 fresh_page
                    ltac:(intros (H & _); discriminate H))).
    reflexivity.
Defined.

(** X3: [displayError] never throws.  In a document with a body every
    message becomes the first paragraph, so of several messages the last
    one shown is on top and the paragraphs that were there follow in
    their order; in a document without a body nothing happens at all. *)
Theorem displayError_stacks :
  forall (msgs : list string) (w : world),
    for_of msgs displayError w =
      (Return tt,
       match body w with
       | Some paragraphs =>
           World (Some (rev msgs ++ paragraphs)) (width w) (height w) (heap w)
             (buffers w) (calls w ++ (Prepend <$> msgs)) (drawn w) (scheduled w)
       | None => w
       end).
Proof.
  induction msgs as [|msg msgs IH]; intros w.
  - destruct w as [[ps|] ? ? ? ? ? ? ?]; cbn; unfold ret; by rewrite ?app_nil_r.
  - rewrite for_of_cons.
    assert (Hone : displayError msg w =
      (Return tt,
       match body w with
       | Some paragraphs =>
           World (Some (msg :: paragraphs)) (width w) (height w) (heap w)
             (buffers w) (calls w ++ [Prepend msg]) (drawn w) (scheduled w)
       | None => w
       end)).
    { destruct w as [[ps|] ? ? ? ? ? ? ?]; reflexivity. }
    erewrite bind_run by exact Hone. rewrite IH.
    destruct (body w) as [ps|] eqn:Hbody.
    + world_simpl. cbn [rev fmap list_fmap]. by rewrite <- !app_assoc.
    + by rewrite Hbody.
Qed.

Lemma struct_updated_record (time aspect : number) (o : UniformStruct.ObjectInfo)
    (a : list f32) :
  length a = UniformStruct.uniformBufferSize / 4 ->
  exists c0 c1 c2 c3 s0 s1 x y t p0 p1 p2,
    a = [c0; c1; c2; c3; s0; s1; x; y; t; p0; p1; p2] /\
    UniformStruct.updated time aspect o a =
      [c0; c1; c2; c3;
       fround (div (UniformStruct.scale o) aspect); fround (UniformStruct.scale o);
       x; y; fround time; p0; p1; p2].
Proof.
  change (UniformStruct.uniformBufferSize / 4) with 12. intros Hlen.
  do 13 (destruct a as [|? a]; try discriminate Hlen).
  eexists _, _, _, _, _, _, _, _, _, _, _, _. split; reflexivity.
Qed.

(** X4: a frame of the single-struct demo rewrites, in the record of
    every object, the scale pair (base scale over aspect ratio, base
    scale) and the time, and keeps the colour, the offset and the
    padding that share the record with them; the buffer of the object
    then holds the same twelve values. *)
Theorem struct_frame_record :
  forall (objs : list UniformStruct.ObjectInfo) (ts : option number) (w : world),
    UniformStruct.ready objs w ->
    fst (UniformStruct.render objs ts w) = Return tt /\
    forall o, o ∈ objs ->
      exists c0 c1 c2 c3 s0 s1 x y t p0 p1 p2 b',
        heap w !! UniformStruct.uniformValues o =
          Some [c0; c1; c2; c3; s0; s1; x; y; t; p0; p1; p2] /\
        heap (snd (UniformStruct.render objs ts w)) !! UniformStruct.uniformValues o =
          Some [c0; c1; c2; c3;
                fround (div (UniformStruct.scale o)
                          (div (of_Z (width w)) (of_Z (height w))));
                fround (UniformStruct.scale o);
                x; y; fround (default (of_Z 0) ts); p0; p1; p2] /\
        buffers (snd (UniformStruct.render objs ts w)) !! UniformStruct.uniformBuffer o =
          Some b' /\
        Some (buf_data b') =
          heap (snd (UniformStruct.render objs ts w)) !! UniformStruct.uniformValues o.
Proof.
  intros objs ts w Hready.
  destruct (struct_render_run objs ts w Hready)
    as (w' & Hrun & _ & _ & _ & _ & _ & Hobj & _).
  rewrite Hrun. cbn [fst snd]. split; [done|].
  intros o Ho.
  destruct Hready as (Hfits & _). rewrite Forall_forall in Hfits.
  destruct (Hfits o Ho) as (a & b & Ha & Hlen & Hb & _).
  destruct (Hobj o a Ho Ha) as (Ha' & b0 & Hb0 & Hb').
  destruct (struct_updated_record (default (of_Z 0) ts)
              (div (of_Z (width w)) (of_Z (height w))) o a Hlen)
    as (c0 & c1 & c2 & c3 & s0 & s1 & x & y & t & p0 & p1 & p2 & Heq & Hupd).
  rewrite Hupd in Ha', Hb'. rewrite Heq in Ha.
  eexists c0, c1, c2, c3, s0, s1, x, y, t, p0, p1, p2, _.
  split; [exact Ha|]. split; [exact Ha'|]. split; [exact Hb'|].
  rewrite Ha'. reflexivity.
Qed.

Lemma struct_frame_record_witness :
  fst (UniformStruct.render [UniformStruct.one_object] (Some (of_Z 16))
         UniformStruct.one_object_world) = Return tt.
Proof.
  exact (proj1 (struct_frame_record [UniformStruct.one_object] (Some (of_Z 16))
                  UniformStruct.one_object_world struct_one_object_ready)).
Defined.

Lemma uniforms_render_ready (objs : list Uniforms.ObjectInfo) (ts : option number)
    (w : world) :
  Uniforms.ready objs w -> Uniforms.ready objs (snd (Uniforms.render objs ts w)).
Proof.
  intros Hready.
  destruct (uniforms_render_run objs ts w Hready)
    as (w' & Hrun & _ & _ & _ & _ & _ & Hobj & _).
  rewrite Hrun. cbn [snd].
  destruct Hready as (Hfits & Hnd). split; [|done].
  apply Forall_forall. intros o Ho. rewrite Forall_forall in Hfits.
  destruct (Hfits o Ho) as (a & b & Ha & Hlen & Hb & Hsize & Hdata).
  destruct (Hobj o a Ho Ha) as (Ha' & b0 & Hb0 & Hb').
  assert (b0 = b) as -> by congruence.
  eexists _, _. split; [exact Ha'|].
  rewrite uniforms_updated_length. split; [done|].
  split; [exact Hb'|]. cbn [buf_size buf_data].
  rewrite uniforms_updated_length. done.
Qed.

Lemma struct_render_ready (objs : list UniformStruct.ObjectInfo) (ts : option number)
    (w : world) :
  UniformStruct.ready objs w ->
  UniformStruct.ready objs (snd (UniformStruct.render objs ts w)).
Proof.
  intros Hready.
  destruct (struct_render_run objs ts w Hready)
    as (w' & Hrun & _ & _ & _ & _ & _ & Hobj & _).
  rewrite Hrun. cbn [snd].
  destruct Hready as (Hfits & Hnd). split; [|done].
  apply Forall_forall. intros o Ho. rewrite Forall_forall in Hfits.
  destruct (Hfits o Ho) as (a & b & Ha & Hlen & Hb & Hsize & Hdata).
  destruct (Hobj o a Ho Ha) as (Ha' & b0 & Hb0 & Hb').
  assert (b0 = b) as -> by congruence.
  eexists _, _. split; [exact Ha'|].
  rewrite struct_updated_length. split; [done|].
  split; [exact Hb'|]. cbn [buf_size buf_data].
  rewrite struct_updated_length. done.
Qed.

Lemma uniforms_updated_twice (time aspect : number) (o : Uniforms.ObjectInfo)
    (a : list f32) :
  length a = Uniforms.uniformBufferSize / 4 ->
  Uniforms.updated time aspect o (Uniforms.updated time aspect o a) =
  Uniforms.updated time aspect o a.
Proof.
  intros Hlen.
  destruct (uniforms_updated_record time aspect o a Hlen) as (pad & _ & ->).
  reflexivity.
Qed.

Lemma struct_updated_twice (time aspect : number) (o : UniformStruct.ObjectInfo)
    (a : list f32) :
  length a = UniformStruct.uniformBufferSize / 4 ->
  UniformStruct.updated time aspect o (UniformStruct.updated time aspect o a) =
  UniformStruct.updated time aspect o a.
Proof.
  intros Hlen.
  destruct (struct_updated_record time aspect o a Hlen)
    as (c0 & c1 & c2 & c3 & s0 & s1 & x & y & t & p0 & p1 & p2 & _ & ->).
  reflexivity.
Qed.

(** X5: in the two uniform demos a second frame with the time stamp of
    the first, on a canvas that was not resized in between, leaves the
    uniform values and the buffer of every object as the first frame
    left them: what a frame uploads depends on the time stamp, the
    canvas and the stored scale only. *)
Theorem uniform_frames_idempotent :
  forall (objs : list Uniforms.ObjectInfo) (objs' : list UniformStruct.ObjectInfo)
         (ts : option number) (w w' : world),
    Uniforms.ready objs w -> UniformStruct.ready objs' w' ->
    (forall o, o ∈ objs ->
       heap (snd (Uniforms.render objs ts (snd (Uniforms.render objs ts w))))
         !! Uniforms.uniformValues o =
       heap (snd (Uniforms.render objs ts w)) !! Uniforms.uniformValues o /\
       buffers (snd (Uniforms.render objs ts (snd (Uniforms.render objs ts w))))
         !! Uniforms.uniformBuffer o =
       buffers (snd (Uniforms.render objs ts w)) !! Uniforms.uniformBuffer o) /\
    (forall o, o ∈ objs' ->
       heap (snd (UniformStruct.render objs' ts
                    (snd (UniformStruct.render objs' ts w'))))
         !! UniformStruct.uniformValues o =
       heap (snd (UniformStruct.render objs' ts w')) !! UniformStruct.uniformValues o /\
       buffers (snd (UniformStruct.render objs' ts
                       (snd (UniformStruct.render objs' ts w'))))
         !! UniformStruct.uniformBuffer o =
       buffers (snd (UniformStruct.render objs' ts w'))
         !! UniformStruct.uniformBuffer o).
Proof.
  intros objs objs' ts w w' Hready Hready'. split.
  - intros o Ho.
    pose proof (uniforms_render_ready objs ts w Hready) as Hready1.
    destruct (uniforms_render_run objs ts w Hready)
      as (w1 & Hrun & _ & Hwid & Hhei & _ & _ & Hobj & _).
    rewrite Hrun in Hready1 |- *. cbn [snd] in Hready1 |- *.
    destruct (uniforms_render_run objs ts w1 Hready1)
      as (w2 & Hrun2 & _ & _ & _ & _ & _ & Hobj2 & _).
    rewrite Hrun2. cbn [snd].
    destruct Hready as (Hfits & _). rewrite Forall_forall in Hfits.
    destruct (Hfits o Ho) as (a & b & Ha & Hlen & Hb & _).
    destruct (Hobj o a Ho Ha) as (Ha1 & b0 & Hb0 & Hb1).
    destruct (Hobj2 o _ Ho Ha1) as (Ha2 & b1 & Hb1' & Hb2).
    rewrite Hwid, Hhei in Ha2, Hb2.
    rewrite uniforms_updated_twice in Ha2, Hb2 by done.
    rewrite Ha2, Ha1, Hb2, Hb1. split; [done|].
    rewrite Hb1 in Hb1'. injection Hb1' as <-. done.
  - intros o Ho.
    pose proof (struct_render_ready objs' ts w' Hready') as Hready1.
    destruct (struct_render_run objs' ts w' Hready')
      as (w1 & Hrun & _ & Hwid & Hhei & _ & _ & Hobj & _).
    rewrite Hrun in Hready1 |- *. cbn [snd] in Hready1 |- *.
    destruct (struct_render_run objs' ts w1 Hready1)
      as (w2 & Hrun2 & _ & _ & _ & _ & _ & Hobj2 & _).
    rewrite Hrun2. cbn [snd].
    destruct Hready' as (Hfits & _). rewrite Forall_forall in Hfits.
    destruct (Hfits o Ho) as (a & b & Ha & Hlen & Hb & _).
    destruct (Hobj o a Ho Ha) as (Ha1 & b0 & Hb0 & Hb1).
    destruct (Hobj2 o _ Ho Ha1) as (Ha2 & b1 & Hb1' & Hb2).
    rewrite Hwid, Hhei in Ha2, Hb2.
    rewrite struct_updated_twice in Ha2, Hb2 by done.
    rewrite Ha2, Ha1, Hb2, Hb1. split; [done|].
    rewrite Hb1 in Hb1'. injection Hb1' as <-. done.
Qed.

Lemma uniform_frames_idempotent_witness :
  heap (snd (Uniforms.render [Uniforms.one_object] (Some (of_Z 16))
               (snd (Uniforms.render [Uniforms.one_object] (Some (of_Z 16))
                       Uniforms.one_object_world))))
    !! Uniforms.uniformValues Uniforms.one_object =
  heap (snd (Uniforms.render [Uniforms.one_object] (Some (of_Z 16))
               Uniforms.one_object_world))
    !! Uniforms.uniformValues Uniforms.one_object /\
  buffers (snd (Uniforms.render [Uniforms.one_object] (Some (of_Z 16))
                  (snd (Uniforms.render [Uniforms.one_object] (Some (of_Z 16))
                          Uniforms.one_object_world))))
    !! Uniforms.uniformBuffer Uniforms.one_object =
  buffers (snd (Uniforms.render [Uniforms.one_object] (Some (of_Z 16))
                  Uniforms.one_object_world))
    !! Uniforms.uniformBuffer Uniforms.one_object.
Proof.
  apply (proj1 (uniform_frames_idempotent [Uniforms.one_object]
                  [UniformStruct.one_object] (Some (of_Z 16))
                  Uniforms.one_object_world UniformStruct.one_object_world
                  uniforms_one_object_ready struct_one_object_ready)).
  apply list_elem_of_singleton. reflexivity.
Defined.

(** X6: the frame callbacks of the other three demos ask for the next
    frame before anything else as well, so their loops never stop
    either: after any number of frames as many callbacks wait as
    before. *)
Theorem other_frames_reschedule_first :
  forall (objs : list UniformStruct.ObjectInfo) (ts : option number)
         (fs : list frame) (w : world),
    ((exists l, calls (snd (Hardcoded.render ts w)) =
                  calls w ++ RequestAnimationFrame :: l) /\
     scheduled (run Hardcoded.render fs w) = scheduled w) /\
    ((exists l, calls (snd (VertexColors.render ts w)) =
                  calls w ++ RequestAnimationFrame :: l) /\
     scheduled (run VertexColors.render fs w) = scheduled w) /\
    ((exists l, calls (snd (UniformStruct.render objs ts w)) =
                  calls w ++ RequestAnimationFrame :: l) /\
     scheduled (run (UniformStruct.render objs) fs w) = scheduled w).
Proof.
  intros objs ts fs w. split; [|split]; split.
  - by destruct (hardcoded_render_reschedules ts w) as (Hl & _).
  - apply run_keeps_queue. intros ts' w'.
    by destruct (hardcoded_render_reschedules ts' w') as (_ & Hs & _).
  - by destruct (vertex_render_reschedules ts w) as (Hl & _).
  - apply run_keeps_queue. intros ts' w'.
    by destruct (vertex_render_reschedules ts' w') as (_ & Hs & _).
  - by destruct (struct_render_reschedules objs ts w) as (Hl & _).
  - apply run_keeps_queue. intros ts' w'.
    by destruct (struct_render_reschedules objs ts' w') as (_ & Hs & _).
Qed.

Lemma uploads_to_uniforms_frames (objs : list Uniforms.ObjectInfo) (b : GPUBuffer)
    (l : list call) :
  b ∉ Uniforms.uniformBuffer <$> objs ->
  Forall (Uniforms.frame_call objs) l -> uploads_to b l = [].
Proof.
  intros Hne. induction 1 as [|e l He _ IH]; [done|].
  destruct e; simpl in *; try done.
  destruct (Nat.eqb_spec buffer b); [congruence|done].
Qed.

(** X7: in the demo with two uniform buffers per object, the static
    buffer of every object is written by [main] and by nothing else:
    after any number of frames it still holds the three colour
    channels that were drawn, the alpha 1, the two offset components
    that were drawn and two zeros of padding, no frame uploads to it,
    and it is the buffer bound at binding 0 next to the object's
    changing buffer at binding 1. *)
Theorem uniforms_static_stable :
  forall (env : host) (N : nat) (fs : list frame) (w : world),
    capable env ->
    exists objs w1 l,
      Uniforms.main env N w = (Return (Some objs), w1) /\
      calls (run (Uniforms.render objs) fs w1) = calls w1 ++ l /\
      Forall (fun o => exists d,
                buffers (run (Uniforms.render objs) fs w1) !! Uniforms.static_buffer o =
                  Some (BufferState "static uniforms for triangles"
                          Uniforms.staticUniformBufferSize
                          (Uniforms.static_values env d)) /\
                uploads_to (Uniforms.static_buffer o) l = [] /\
                bg_entries (Uniforms.bindGroup o) =
                  [(0, Uniforms.static_buffer o); (1, Uniforms.uniformBuffer o)])
             objs.
Proof.
  intros env N fs w Hcap.
  destruct (uniforms_main_run env N w Hcap)
    as (objs & w1 & Hrun & (Hready & Hstarted & Hnd) & _).
  destruct (uniforms_run_ready objs fs w1 Hready)
    as (_ & (_ & _ & _ & Hbuf & l & Hcalls & Hl) & _).
  exists objs, w1, l. split; [exact Hrun|]. split; [exact Hcalls|].
  apply Forall_forall. intros o Ho.
  rewrite Forall_forall in Hstarted.
  destruct (Hstarted o Ho) as (_ & _ & _ & _ & d & _ & Hbg & Hsb).
  assert (Hnot : Uniforms.static_buffer o ∉ Uniforms.uniformBuffer <$> objs).
  { apply NoDup_app in Hnd as (_ & Hdisj & _).
    apply Hdisj. by apply list_elem_of_fmap_2. }
  exists d. split; [rewrite Hbuf by exact Hnot; exact Hsb|].
  split; [by eapply uploads_to_uniforms_frames|exact Hbg].
Qed.

Lemma uniforms_static_stable_witness :
  exists objs w1 l,
    Uniforms.main webgpu 2 fresh_page = (Return (Some objs), w1) /\
    calls (run (Uniforms.render objs) [Frame None 300 150; Frame None 640 480] w1)
      = calls w1 ++ l /\
    Forall (fun o => exists d,
              buffers (run (Uniforms.render objs)
                         [Frame None 300 150; Frame None 640 480] w1)
                !! Uniforms.static_buffer o =
                Some (BufferState "static uniforms for triangles"
                        Uniforms.staticUniformBufferSize
                        (Uniforms.static_values webgpu d)) /\
              uploads_to (Uniforms.static_buffer o) l = [] /\
              bg_entries (Uniforms.bindGroup o) =
                [(0, Uniforms.static_buffer o); (1, Uniforms.uniformBuffer o)])
           objs.
Proof.
  exact (uniforms_static_stable webgpu 2 [Frame None 300 150; Frame None 640 480]
           fresh_page webgpu_capable).
Defined.

(** X8: once [main] has passed the gate, no frame ever throws: whatever
    frames the browser has delivered before, with whatever time stamps
    and canvas sizes (a canvas of height 0 included), the next call of
    the frame callback returns normally.  This holds for the three
    demos that write buffers every frame. *)
Theorem frames_never_throw :
  forall (env : host) (N : nat) (fs : list frame) (ts : option number) (w : world),
    capable env ->
    (exists c w1,
       StorageBuffers.main env N w = (Return (Some c), w1) /\
       fst (StorageBuffers.render c ts (run (StorageBuffers.render c) fs w1))
         = Return tt) /\
    (exists objs w1,
       Uniforms.main env N w = (Return (Some objs), w1) /\
       fst (Uniforms.render objs ts (run (Uniforms.render objs) fs w1))
         = Return tt) /\
    (exists objs w1,
       UniformStruct.main env N w = (Return (Some objs), w1) /\
       fst (UniformStruct.render objs ts (run (UniformStruct.render objs) fs w1))
         = Return tt).
Proof.
  intros env N fs ts w Hcap. split; [|split].
  - destruct (storage_main_ready env N w Hcap) as (c & w1 & Hrun & Hready & _).
    exists c, w1. split; [exact Hrun|].
    destruct (storage_run_ready c fs w1 Hready) as (Hready' & _).
    destruct (storage_frame c ts _ Hready') as (a & a' & b & sets & _ & _ & -> & _).
    reflexivity.
  - destruct (uniforms_main_run env N w Hcap) as (objs & w1 & Hrun & (Hready & _) & _).
    exists objs, w1. split; [exact Hrun|].
    destruct (uniforms_run_ready objs fs w1 Hready) as (Hready' & _).
    destruct (uniforms_render_run objs ts _ Hready') as (w' & -> & _).
    reflexivity.
  - destruct (struct_main_run env N w Hcap) as (objs & w1 & Hrun & (Hready & _) & _).
    exists objs, w1. split; [exact Hrun|].
    destruct (struct_run_ready objs fs w1 Hready) as (Hready' & _).
    destruct (struct_render_run objs ts _ Hready') as (w' & -> & _).
    reflexivity.
Qed.

Lemma frames_never_throw_witness :
  exists c w1,
    StorageBuffers.main webgpu 3 fresh_page = (Return (Some c), w1) /\
    fst (StorageBuffers.render c None
           (run (StorageBuffers.render c) [Frame (Some (of_Z 16)) 300 0] w1))
      = Return tt.
Proof.
  exact (proj1 (frames_never_throw webgpu 3 [Frame (Some (of_Z 16)) 300 0] None
                  fresh_page webgpu_capable)).
Defined.

Lemma uploads_app (l1 l2 : list call) : uploads (l1 ++ l2) = uploads l1 ++ uploads l2.
Proof. apply omap_app. Qed.

Lemma draws_app (l1 l2 : list call) : draws (l1 ++ l2) = draws l1 ++ draws l2.
Proof. apply omap_app. Qed.

Lemma sets_cost (t : Float32Array) (l : list call) :
  Forall (is_set t) l -> uploads l = [] /\ draws l = [].
Proof.
  induction 1 as [|e l (vs & off & ->) _ [IH1 IH2]]; [done|]. done.
Qed.

Lemma uniforms_update_step (time aspect : number) (o : Uniforms.ObjectInfo)
    (objs : list Uniforms.ObjectInfo) (w : world) :
  Uniforms.ready (o :: objs) w ->
  exists w1 l,
    Uniforms.update time aspect o w = (Return tt, w1) /\
    Uniforms.ready objs w1 /\
    calls w1 = calls w ++ l /\
    uploads l = [Uniforms.uniformBuffer o] /\ draws l = [(3, 1)].
Proof.
  intros (Hfits & Hnd1 & Hnd2).
  apply Forall_cons in Hfits as [Hfit Hfits].
  rewrite fmap_cons in Hnd1, Hnd2.
  apply NoDup_cons in Hnd1 as [Hnot1 Hnd1].
  apply NoDup_cons in Hnd2 as [Hnot2 Hnd2].
  destruct Hfit as (a & b & Ha & Hlen & Hb & Hsize & Hdata).
  eexists _, _. split; [by apply uniforms_update_run with (b := b)|].
  world_simpl. split; [|split; [reflexivity|split; reflexivity]].
  split; [|done]. apply Forall_forall. intros o' Ho'.
  rewrite Forall_forall in Hfits.
  apply (uniforms_fits_unchanged o' w); [| |by apply Hfits]; world_simpl.
  - apply list_lookup_insert_ne. intros E. apply Hnot1. rewrite E.
    by apply list_elem_of_fmap_2.
  - apply list_lookup_insert_ne. intros E. apply Hnot2. rewrite E.
    by apply list_elem_of_fmap_2.
Qed.

Lemma uniforms_loop_cost (time aspect : number) (objs : list Uniforms.ObjectInfo) :
  forall w,
    Uniforms.ready objs w ->
    exists w' l,
      for_of objs (Uniforms.update time aspect) w = (Return tt, w') /\
      calls w' = calls w ++ l /\
      uploads l = Uniforms.uniformBuffer <$> objs /\
      draws l = (fun _ => (3, 1)) <$> objs.
Proof.
  induction objs as [|o objs IH]; intros w Hready.
  - exists w, []. rewrite app_nil_r. done.
  - destruct (uniforms_update_step time aspect o objs w Hready)
      as (w1 & l1 & Hrun1 & Hready1 & Hcalls1 & Hup1 & Hdr1).
    destruct (IH w1 Hready1) as (w' & l & Hrun & Hcalls & Hup & Hdr).
    exists w', (l1 ++ l). rewrite for_of_cons.
    erewrite bind_run by exact Hrun1.
    split; [exact Hrun|].
    split; [by rewrite Hcalls, Hcalls1, app_assoc|].
    rewrite uploads_app, draws_app, Hup1, Hdr1, Hup, Hdr. done.
Qed.

Lemma uniforms_frame_cost (objs : list Uniforms.ObjectInfo) (ts : option number)
    (w : world) :
  Uniforms.ready objs w ->
  exists l,
    calls (snd (Uniforms.render objs ts w)) = calls w ++ l /\
    uploads l = Uniforms.uniformBuffer <$> objs /\
    draws l = (fun _ => (3, 1)) <$> objs.
Proof.
  intros Hready.
  set (w1 := World (body w) (width w) (height w) (heap w) (buffers w)
               (calls w ++ [RequestAnimationFrame; CreateCommandEncoder;
                            BeginRenderPass; SetPipeline])
               (drawn w) (S (scheduled w))).
  destruct (uniforms_loop_cost (default (of_Z 0) ts)
              (div (of_Z (width w)) (of_Z (height w))) objs w1)
    as (w' & l & Hrun & Hcalls & Hup & Hdr).
  { destruct Hready as (Hfits & Hnd). split; [|done].
    eapply Forall_impl; [exact Hfits|]. intros o Ho.
    by apply (uniforms_fits_unchanged o w). }
  assert (Hrender : Uniforms.render objs ts w =
                    (Return tt,
                     World (body w') (width w') (height w') (heap w') (buffers w')
                       (calls w' ++ [End_; Finish; Submit]) (drawn w') (scheduled w'))).
  { transitivity
      ((for_of objs (Uniforms.update (default (of_Z 0) ts)
                       (div (of_Z (width w)) (of_Z (height w)))) ;;
        endAndSubmit) w1).
    { unfold Uniforms.render, w1. run_cbv. rewrite <- !app_assoc. reflexivity. }
    erewrite bind_run by exact Hrun. apply endAndSubmit_run. }
  rewrite Hrender. cbn [snd]. world_simpl.
  exists ([RequestAnimationFrame; CreateCommandEncoder; BeginRenderPass; SetPipeline]
          ++ l ++ [End_; Finish; Submit]).
  split.
  - rewrite Hcalls. unfold w1. world_simpl. by rewrite <- !app_assoc.
  - rewrite !uploads_app, !draws_app, Hup, Hdr. cbn. by rewrite !app_nil_r.
Qed.
Lemma struct_update_step (time aspect : number) (o : UniformStruct.ObjectInfo)
    (objs : list UniformStruct.ObjectInfo) (w : world) :
  UniformStruct.ready (o :: objs) w ->
  exists w1 l,
    UniformStruct.update time aspect o w = (Return tt, w1) /\
    UniformStruct.ready objs w1 /\
    calls w1 = calls w ++ l /\
    uploads l = [UniformStruct.uniformBuffer o] /\ draws l = [(3, 1)].
Proof.
  intros (Hfits & Hnd1 & Hnd2).
  apply Forall_cons in Hfits as [Hfit Hfits].
  rewrite fmap_cons in Hnd1, Hnd2.
  apply NoDup_cons in Hnd1 as [Hnot1 Hnd1].
  apply NoDup_cons in Hnd2 as [Hnot2 Hnd2].
  destruct Hfit as (a & b & Ha & Hlen & Hb & Hsize & Hdata).
  eexists _, _. split; [by apply struct_update_run with (b := b)|].
  world_simpl. split; [|split; [reflexivity|split; reflexivity]].
  split; [|done]. apply Forall_forall. intros o' Ho'.
  rewrite Forall_forall in Hfits.
  apply (struct_fits_unchanged o' w); [| |by apply Hfits]; world_simpl.
  - apply list_lookup_insert_ne. intros E. apply Hnot1. rewrite E.
    by apply list_elem_of_fmap_2.
  - apply list_lookup_insert_ne. intros E. apply Hnot2. rewrite E.
    by apply list_elem_of_fmap_2.
Qed.

Lemma struct_loop_cost (time aspect : number) (objs : list UniformStruct.ObjectInfo) :
  forall w,
    UniformStruct.ready objs w ->
    exists w' l,
      for_of objs (UniformStruct.update time aspect) w = (Return tt, w') /\
      calls w' = calls w ++ l /\
      uploads l = UniformStruct.uniformBuffer <$> objs /\
      draws l = (fun _ => (3, 1)) <$> objs.
Proof.
  induction objs as [|o objs IH]; intros w Hready.
  - exists w, []. rewrite app_nil_r. done.
  - destruct (struct_update_step time aspect o objs w Hready)
      as (w1 & l1 & Hrun1 & Hready1 & Hcalls1 & Hup1 & Hdr1).
    destruct (IH w1 Hready1) as (w' & l & Hrun & Hcalls & Hup & Hdr).
    exists w', (l1 ++ l). rewrite for_of_cons.
    erewrite bind_run by exact Hrun1.
    split; [exact Hrun|].
    split; [by rewrite Hcalls, Hcalls1, app_assoc|].
    rewrite uploads_app, draws_app, Hup1, Hdr1, Hup, Hdr. done.
Qed.

Lemma struct_frame_cost (objs : list UniformStruct.ObjectInfo) (ts : option number)
    (w : world) :
  UniformStruct.ready objs w ->
  exists l,
    calls (snd (UniformStruct.render objs ts w)) = calls w ++ l /\
    uploads l = UniformStruct.uniformBuffer <$> objs /\
    draws l = (fun _ => (3, 1)) <$> objs.
Proof.
  intros Hready.
  set (w1 := World (body w) (width w) (height w) (heap w) (buffers w)
               (calls w ++ [RequestAnimationFrame; CreateCommandEncoder;
                            BeginRenderPass; SetPipeline])
               (drawn w) (S (scheduled w))).
  destruct (struct_loop_cost (default (of_Z 0) ts)
              (div (of_Z (width w)) (of_Z (height w))) objs w1)
    as (w' & l & Hrun & Hcalls & Hup & Hdr).
  { destruct Hready as (Hfits & Hnd). split; [|done].
    eapply Forall_impl; [exact Hfits|]. intros o Ho.
    by apply (struct_fits_unchanged o w). }
  assert (Hrender : UniformStruct.render objs ts w =
                    (Return tt,
                     World (body w') (width w') (height w') (heap w') (buffers w')
                       (calls w' ++ [End_; Finish; Submit]) (drawn w') (scheduled w'))).
  { transitivity
      ((for_of objs (UniformStruct.update (default (of_Z 0) ts)
                       (div (of_Z (width w)) (of_Z (height w)))) ;;
        endAndSubmit) w1).
    { unfold UniformStruct.render, w1. run_cbv. rewrite <- !app_assoc. reflexivity. }
    erewrite bind_run by exact Hrun. apply endAndSubmit_run. }
  rewrite Hrender. cbn [snd]. world_simpl.
  exists ([RequestAnimationFrame; CreateCommandEncoder; BeginRenderPass; SetPipeline]
          ++ l ++ [End_; Finish; Submit]).
  split.
  - rewrite Hcalls. unfold w1. world_simpl. by rewrite <- !app_assoc.
  - rewrite !uploads_app, !draws_app, Hup, Hdr. cbn. by rewrite !app_nil_r.
Qed.

(** X9: what a frame costs.  The storage-buffer demo uploads once and
    draws once per frame, whatever the number of objects: one upload of
    the changing values and one call that draws three vertices for
    [kNumObjects] instances.  The two uniform demos upload once and draw
    once per object: the uploads go to the objects' buffers in the order
    of the objects, and each draw is of three vertices and one
    instance. *)
Theorem frame_cost :
  forall (c : StorageBuffers.closure) (objs : list Uniforms.ObjectInfo)
         (objs' : list UniformStruct.ObjectInfo) (ts : option number)
         (w w' w'' : world),
    StorageBuffers.ready c w -> Uniforms.ready objs w' ->
    UniformStruct.ready objs' w'' ->
    (exists l,
       calls (snd (StorageBuffers.render c ts w)) = calls w ++ l /\
       uploads l = [StorageBuffers.changingStorageBuffer c] /\
       draws l = [(3, StorageBuffers.kNumObjects c)]) /\
    (exists l,
       calls (snd (Uniforms.render objs ts w')) = calls w' ++ l /\
       uploads l = Uniforms.uniformBuffer <$> objs /\
       draws l = (fun _ => (3, 1)) <$> objs) /\
    (exists l,
       calls (snd (UniformStruct.render objs' ts w'')) = calls w'' ++ l /\
       uploads l = UniformStruct.uniformBuffer <$> objs' /\
       draws l = (fun _ => (3, 1)) <$> objs').
Proof.
  intros c objs objs' ts w w' w'' Hready Hready' Hready''.
  split; [|split].
  - destruct (storage_frame c ts w Hready)
      as (a & a' & b & sets & _ & _ & Hrun & _ & Hsets & _).
    rewrite Hrun. cbn [snd]. world_simpl. eexists. split; [reflexivity|].
    destruct (sets_cost _ _ Hsets) as [Hup Hdr].
    rewrite !uploads_app, !draws_app, Hup, Hdr. done.
  - by apply uniforms_frame_cost.
  - by apply struct_frame_cost.
Qed.

Lemma frame_cost_witness :
  (exists l,
     calls (snd (StorageBuffers.render StorageBuffers.one_object None
                   StorageBuffers.one_object_world)) =
       calls StorageBuffers.one_object_world ++ l /\
     uploads l = [StorageBuffers.changingStorageBuffer StorageBuffers.one_object] /\
     draws l = [(3, StorageBuffers.kNumObjects StorageBuffers.one_object)]) /\
  (exists l,
     calls (snd (Uniforms.render [Uniforms.one_object] None Uniforms.one_object_world))
       = calls Uniforms.one_object_world ++ l /\
     uploads l = Uniforms.uniformBuffer <$> [Uniforms.one_object] /\
     draws l = (fun _ => (3, 1)) <$> [Uniforms.one_object]) /\
  (exists l,
     calls (snd (UniformStruct.render [UniformStruct.one_object] None
                   UniformStruct.one_object_world))
       = calls UniformStruct.one_object_world ++ l /\
     uploads l = UniformStruct.uniformBuffer <$> [UniformStruct.one_object] /\
     draws l = (fun _ => (3, 1)) <$> [UniformStruct.one_object]).
Proof.
  exact (frame_cost StorageBuffers.one_object [Uniforms.one_object]
           [UniformStruct.one_object] None
           StorageBuffers.one_object_world Uniforms.one_object_world
           UniformStruct.one_object_world
           storage_one_object_ready uniforms_one_object_ready struct_one_object_ready).
Defined.

Lemma created_buffers_app (l1 l2 : list call) :
  created_buffers (l1 ++ l2) = created_buffers l1 ++ created_buffers l2.
Proof. apply omap_app. Qed.

Lemma created_bind_groups_app (l1 l2 : list call) :
  created_bind_groups (l1 ++ l2) = created_bind_groups l1 ++ created_bind_groups l2.
Proof. apply omap_app. Qed.

Lemma sets_create_nothing (t : Float32Array) (l : list call) :
  Forall (is_set t) l -> created_buffers l = [] /\ created_bind_groups l = [].
Proof.
  induction 1 as [|e l (vs & off & ->) _ [IH1 IH2]]; [done|]. done.
Qed.

Lemma uniforms_generate_count (env : host) (n : nat) :
  forall (k : nat) (acc : list Uniforms.ObjectInfo) (w : world),
    exists news w' l,
      for_acc (seq k n) acc (Uniforms.generate env) w = (Return (acc ++ news), w') /\
      calls w' = calls w ++ l /\
      length news = n /\
      created_buffers l =
        mjoin (replicate n [Uniforms.staticUniformBufferSize; Uniforms.uniformBufferSize]) /\
      created_bind_groups l = Uniforms.bindGroup <$> news /\
      uploads l = Uniforms.static_buffer <$> news /\
      draws l = [] /\
      drawn w' = drawn w + 6 * n /\
      length (heap w') = length (heap w) + 2 * n /\
      length (buffers w') = length (buffers w) + 2 * n.
Proof.
  induction n as [|n IH]; intros k acc w.
  - exists [], w, []. rewrite !app_nil_r. repeat split; try done; lia.
  - rewrite <- cons_seq, for_acc_cons.
    erewrite bind_run by apply uniforms_generate_run.
    match goal with |- context [for_acc _ (acc ++ [?o0]) _ ?w0] =>
      set (o := o0); set (w1 := w0) end.
    destruct (IH (S k) (acc ++ [o]) w1)
      as (news & w' & l & Hrun & Hcalls & Hlen & Hcb & Hbg & Hup & Hdr & Hdrawn & Hh & Hb).
    eexists (o :: news), w', _. rewrite Hrun.
    split; [by rewrite <- app_assoc|].
    split; [rewrite Hcalls; unfold w1; world_simpl; rewrite <- app_assoc; reflexivity|].
    split; [simpl; lia|].
    rewrite created_buffers_app, created_bind_groups_app, uploads_app, draws_app.
    rewrite Hcb, Hbg, Hup, Hdr.
    split; [reflexivity|]. split; [reflexivity|]. split; [reflexivity|].
    split; [reflexivity|].
    unfold w1 in Hdrawn, Hh, Hb. world_simpl in Hdrawn. world_simpl in Hh.
    world_simpl in Hb. rewrite length_app in Hh, Hb. simpl in Hh, Hb.
    repeat split; lia.
Qed.

Lemma struct_generate_count (env : host) (n : nat) :
  forall (k : nat) (acc : list UniformStruct.ObjectInfo) (w : world),
    exists news w' l,
      for_acc (seq k n) acc (UniformStruct.generate env) w = (Return (acc ++ news), w') /\
      calls w' = calls w ++ l /\
      length news = n /\
      created_buffers l = replicate n UniformStruct.uniformBufferSize /\
      created_bind_groups l = UniformStruct.bindGroup <$> news /\
      uploads l = [] /\
      draws l = [] /\
      drawn w' = drawn w + 6 * n /\
      length (heap w') = length (heap w) + n /\
      length (buffers w') = length (buffers w) + n.
Proof.
  induction n as [|n IH]; intros k acc w.
  - exists [], w, []. rewrite !app_nil_r. repeat split; try done; lia.
  - rewrite <- cons_seq, for_acc_cons.
    erewrite bind_run by apply struct_generate_run.
    match goal with |- context [for_acc _ (acc ++ [?o0]) _ ?w0] =>
      set (o := o0); set (w1 := w0) end.
    destruct (IH (S k) (acc ++ [o]) w1)
      as (news & w' & l & Hrun & Hcalls & Hlen & Hcb & Hbg & Hup & Hdr & Hdrawn & Hh & Hb).
    eexists (o :: news), w', _. rewrite Hrun.
    split; [by rewrite <- app_assoc|].
    split; [rewrite Hcalls; unfold w1; world_simpl; rewrite <- app_assoc; reflexivity|].
    split; [simpl; lia|].
    rewrite created_buffers_app, created_bind_groups_app, uploads_app, draws_app.
    rewrite Hcb, Hbg, Hup, Hdr.
    split; [reflexivity|]. split; [reflexivity|]. split; [reflexivity|].
    split; [reflexivity|].
    unfold w1 in Hdrawn, Hh, Hb. world_simpl in Hdrawn. world_simpl in Hh.
    world_simpl in Hb. rewrite length_app in Hh, Hb. simpl in Hh, Hb.
    repeat split; lia.
Qed.

(** X10: what [main] creates and uploads, for [N] objects.  The
    storage-buffer demo creates two buffers of [N] records each and one
    bind group, and uploads the static values once.  The demo with two
    uniform buffers per object creates a static and a changing buffer
    for each object in turn, one bind group per object, and uploads each
    object's static values once.  The single-struct demo creates one
    buffer and one bind group per object and uploads nothing before the
    first frame.  None of them draws, and each makes six random draws
    per object. *)
Theorem main_resources :
  forall (env : host) (N : nat) (w : world),
    capable env ->
    (exists c w1 l,
       StorageBuffers.main env N w = (Return (Some c), w1) /\
       calls w1 = calls w ++ l /\
       created_buffers l =
         [StorageBuffers.staticUnitSize * N; StorageBuffers.changingUnitSize * N] /\
       created_bind_groups l = [StorageBuffers.bindGroup c] /\
       uploads l = [StorageBuffers.staticStorageBuffer c] /\
       draws l = [] /\
       drawn w1 = drawn w + 6 * N) /\
    (exists objs w1 l,
       Uniforms.main env N w = (Return (Some objs), w1) /\
       calls w1 = calls w ++ l /\
       length objs = N /\
       created_buffers l =
         mjoin (replicate N [Uniforms.staticUniformBufferSize;
                             Uniforms.uniformBufferSize]) /\
       created_bind_groups l = Uniforms.bindGroup <$> objs /\
       uploads l = Uniforms.static_buffer <$> objs /\
       draws l = [] /\
       drawn w1 = drawn w + 6 * N) /\
    (exists objs w1 l,
       UniformStruct.main env N w = (Return (Some objs), w1) /\
       calls w1 = calls w ++ l /\
       length objs = N /\
       created_buffers l = replicate N UniformStruct.uniformBufferSize /\
       created_bind_groups l = UniformStruct.bindGroup <$> objs /\
       uploads l = [] /\
       draws l = [] /\
       drawn w1 = drawn w + 6 * N).
Proof.
  intros env N w Hcap. split; [|split].
  - destruct (storage_main_run env N w Hcap) as (sdata & sets & Hrun & _ & Hsets & _).
    eexists _, _, _. split; [exact Hrun|]. world_simpl.
    split; [reflexivity|].
    destruct (sets_cost _ _ Hsets) as [Hup Hdr].
    destruct (sets_create_nothing _ _ Hsets) as [Hcb Hbg].
    rewrite !created_buffers_app, !created_bind_groups_app, !uploads_app, !draws_app.
    rewrite Hup, Hdr, Hcb, Hbg. done.
  - destruct Hcap as (Hgpu & Had & Hcan & Hctx).
    set (w3 := World (body w) (width w) (height w) (heap w) (buffers w)
         (calls w ++
          [RequestAdapter; RequestDevice; GetContext; GetPreferredCanvasFormat;
           Configure; CreateShaderModule "Triangle vertex shader";
           CreateRenderPipeline "Hardcoded WebGPU pipeline"])
         (drawn w) (scheduled w)).
    destruct (uniforms_generate_count env N 0 [] w3)
      as (objs & w' & l & Hrun & Hcalls & Hlen & Hcb & Hbg & Hup & Hdr & Hdrawn & _).
    cbn [app] in Hrun.
    exists objs,
      (World (body w') (width w') (height w') (heap w') (buffers w')
         (calls w' ++ [Observe; RequestAnimationFrame]) (drawn w') (S (scheduled w'))),
      ([RequestAdapter; RequestDevice; GetContext; GetPreferredCanvasFormat;
        Configure; CreateShaderModule "Triangle vertex shader";
        CreateRenderPipeline "Hardcoded WebGPU pipeline"] ++ l ++
       [Observe; RequestAnimationFrame]).
    split.
    { transitivity
        ((let* objectInfos := for_acc (seq 0 N) [] (Uniforms.generate env) in
          log Observe ;; requestAnimationFrame ;; ret (Some objectInfos)) w3).
      { unfold Uniforms.main, requestAdapter, getPreferredCanvasFormat,
          querySelector_canvas, getContext, requestDevice.
        rewrite Hgpu, Had, Hcan, Hctx. unfold w3.
        run_cbv. rewrite <- !app_assoc. reflexivity. }
      erewrite bind_run by exact Hrun. run_cbv. rewrite <- !app_assoc. reflexivity. }
    world_simpl. rewrite Hcalls. unfold w3. world_simpl.
    split; [rewrite <- !app_assoc; reflexivity|].
    split; [exact Hlen|].
    rewrite !created_buffers_app, !created_bind_groups_app, !uploads_app, !draws_app.
    rewrite Hcb, Hbg, Hup, Hdr. cbn. rewrite !app_nil_r.
    repeat split; try reflexivity. exact Hdrawn.
  - destruct Hcap as (Hgpu & Had & Hcan & Hctx).
    set (w3 := World (body w) (width w) (height w) (heap w) (buffers w)
         (calls w ++
          [RequestAdapter; RequestDevice; GetContext; GetPreferredCanvasFormat;
           Configure; CreateShaderModule "Triangle vertex shader";
           CreateRenderPipeline "Hardcoded WebGPU pipeline"])
         (drawn w) (scheduled w)).
    destruct (struct_generate_count env N 0 [] w3)
      as (objs & w' & l & Hrun & Hcalls & Hlen & Hcb & Hbg & Hup & Hdr & Hdrawn & _).
    cbn [app] in Hrun.
    exists objs,
      (World (body w') (width w') (height w') (heap w') (buffers w')
         (calls w' ++ [Observe; RequestAnimationFrame]) (drawn w') (S (scheduled w'))),
      ([RequestAdapter; RequestDevice; GetContext; GetPreferredCanvasFormat;
        Configure; CreateShaderModule "Triangle vertex shader";
        CreateRenderPipeline "Hardcoded WebGPU pipeline"] ++ l ++
       [Observe; RequestAnimationFrame]).
    split.
    { transitivity
        ((let* objectInfos := for_acc (seq 0 N) [] (UniformStruct.generate env) in
          log Observe ;; requestAnimationFrame ;; ret (Some objectInfos)) w3).
      { unfold UniformStruct.main, requestAdapter, getPreferredCanvasFormat,
          querySelector_canvas, getContext, requestDevice.
        rewrite Hgpu, Had, Hcan, Hctx. unfold w3.
        run_cbv. rewrite <- !app_assoc. reflexivity. }
      erewrite bind_run by exact Hrun. run_cbv. rewrite <- !app_assoc. reflexivity. }
    world_simpl. rewrite Hcalls. unfold w3. world_simpl.
    split; [rewrite <- !app_assoc; reflexivity|].
    split; [exact Hlen|].
    rewrite !created_buffers_app, !created_bind_groups_app, !uploads_app, !draws_app.
    rewrite Hcb, Hbg, Hup, Hdr. cbn. rewrite !app_nil_r.
    repeat split; try reflexivity. exact Hdrawn.
Qed.

Lemma main_resources_witness :
  exists objs w1 l,
    Uniforms.main webgpu 3 fresh_page = (Return (Some objs), w1) /\
    calls w1 = calls fresh_page ++ l /\
    length objs = 3 /\
    created_buffers l =
      mjoin (replicate 3 [Uniforms.staticUniformBufferSize;
                          Uniforms.uniformBufferSize]) /\
    created_bind_groups l = Uniforms.bindGroup <$> objs /\
    uploads l = Uniforms.static_buffer <$> objs /\
    draws l = [] /\
    drawn w1 = drawn fresh_page + 6 * 3.
Proof.
  exact (proj1 (proj2 (main_resources webgpu 3 fresh_page webgpu_capable))).
Defined.

Lemma triangle_frames (render : option number -> M unit) :
  (forall ts w,
     render ts w =
       (Return tt,
        World (body w) (width w) (height w) (heap w) (buffers w)
          (calls w ++ triangle_frame) (drawn w) (S (scheduled w)))) ->
  forall fs w,
    0 < scheduled w ->
    calls (run render fs w) = calls w ++ mjoin (replicate (length fs) triangle_frame) /\
    scheduled (run render fs w) = scheduled w /\
    body (run render fs w) = body w /\
    heap (run render fs w) = heap w /\
    buffers (run render fs w) = buffers w.
Proof.
  intros Hrender fs. induction fs as [|f fs IH]; intros w Hs.
  - cbn. by rewrite app_nil_r.
  - change (run render (f :: fs) w) with (run render fs (deliver render f w)).
    assert (Hd : deliver render f w =
                 World (body w) (frame_width f) (frame_height f) (heap w) (buffers w)
                   (calls w ++ triangle_frame) (drawn w) (scheduled w)).
    { unfold deliver. destruct (scheduled w) as [|n] eqn:Hn; [lia|].
      rewrite Hrender. reflexivity. }
    destruct (IH (deliver render f w)) as (Hc & Hsch & Hb & Hh & Hbuf).
    { rewrite Hd. exact Hs. }
    rewrite Hc, Hsch, Hb, Hh, Hbuf, Hd. world_simpl.
    cbn [length replicate mjoin list_join]. by rewrite <- app_assoc.
Qed.

(** X11: the two demos without buffers.  In a capable browser [main]
    configures the context, creates one shader module and one pipeline
    and asks for the first frame; it creates no buffer and shows no
    message.  Every frame the browser then delivers makes the same
    eight calls, among them one draw of three vertices, so after [k]
    frames the page has made the calls of [main] followed by [k] copies
    of them, and one callback is waiting again. *)
Theorem triangle_demos_run :
  forall (env : host) (fs : list frame) (w : world),
    capable env ->
    (calls (run Hardcoded.render fs (snd (Hardcoded.main env w))) =
       calls w ++
       [RequestAdapter; RequestDevice; GetContext; GetPreferredCanvasFormat;
        Configure; CreateShaderModule "Hardcoded WebGPU triangle";
        CreateRenderPipeline "Hardcoded WebGPU pipeline"; RequestAnimationFrame] ++
       mjoin (replicate (length fs) triangle_frame) /\
     scheduled (run Hardcoded.render fs (snd (Hardcoded.main env w))) =
       S (scheduled w) /\
     body (run Hardcoded.render fs (snd (Hardcoded.main env w))) = body w /\
     buffers (run Hardcoded.render fs (snd (Hardcoded.main env w))) = buffers w) /\
    (calls (run VertexColors.render fs (snd (VertexColors.main env w))) =
       calls w ++
       [RequestAdapter; RequestDevice; GetContext; GetPreferredCanvasFormat;
        Configure; CreateShaderModule "Triangle vertex shader";
        CreateRenderPipeline "Hardcoded WebGPU pipeline"; RequestAnimationFrame] ++
       mjoin (replicate (length fs) triangle_frame) /\
     scheduled (run VertexColors.render fs (snd (VertexColors.main env w))) =
       S (scheduled w) /\
     body (run VertexColors.render fs (snd (VertexColors.main env w))) = body w /\
     buffers (run VertexColors.render fs (snd (VertexColors.main env w))) = buffers w).
Proof.
  intros env fs w (Hgpu & Had & Hcan & Hctx). split.
  - assert (Hmain : Hardcoded.main env w =
      (Return tt,
       World (body w) (width w) (height w) (heap w) (buffers w)
         (calls w ++
          [RequestAdapter; RequestDevice; GetContext; GetPreferredCanvasFormat;
           Configure; CreateShaderModule "Hardcoded WebGPU triangle";
           CreateRenderPipeline "Hardcoded WebGPU pipeline"; RequestAnimationFrame])
         (drawn w) (S (scheduled w)))).
    { unfold Hardcoded.main, requestAdapter_optional, getPreferredCanvasFormat,
        querySelector_canvas, getContext, requestDevice.
      rewrite Hgpu, Had, Hcan, Hctx. run_cbv. rewrite <- !app_assoc. reflexivity. }
    rewrite Hmain. cbn [snd].
    edestruct (triangle_frames Hardcoded.render) as (Hc & Hs & Hb & _ & Hbuf);
      [| |rewrite Hc, Hs, Hb, Hbuf; world_simpl; by rewrite <- app_assoc].
    + intros ts w'. unfold Hardcoded.render, triangle_frame. run_cbv.
      rewrite <- !app_assoc. reflexivity.
    + world_simpl. lia.
  - assert (Hmain : VertexColors.main env w =
      (Return tt,
       World (body w) (width w) (height w) (heap w) (buffers w)
         (calls w ++
          [RequestAdapter; RequestDevice; GetContext; GetPreferredCanvasFormat;
           Configure; CreateShaderModule "Triangle vertex shader";
           CreateRenderPipeline "Hardcoded WebGPU pipeline"; RequestAnimationFrame])
         (drawn w) (S (scheduled w)))).
    { unfold VertexColors.main, requestAdapter, getPreferredCanvasFormat,
        querySelector_canvas, getContext, requestDevice.
      rewrite Hgpu, Had, Hcan, Hctx. run_cbv. rewrite <- !app_assoc. reflexivity. }
    rewrite Hmain. cbn [snd].
    edestruct (triangle_frames VertexColors.render) as (Hc & Hs & Hb & _ & Hbuf);
      [| |rewrite Hc, Hs, Hb, Hbuf; world_simpl; by rewrite <- app_assoc].
    + intros ts w'. unfold VertexColors.render, triangle_frame. run_cbv.
      rewrite <- !app_assoc. reflexivity.
    + world_simpl. lia.
Qed.

Lemma triangle_demos_run_witness :
  calls (run Hardcoded.render [Frame None 300 150; Frame (Some (of_Z 16)) 300 150]
           (snd (Hardcoded.main webgpu fresh_page))) =
    calls fresh_page ++
    [RequestAdapter; RequestDevice; GetContext; GetPreferredCanvasFormat;
     Configure; CreateShaderModule "Hardcoded WebGPU triangle";
     CreateRenderPipeline "Hardcoded WebGPU pipeline"; RequestAnimationFrame] ++
    mjoin (replicate 2 triangle_frame).
Proof.
  exact (proj1 (proj1 (triangle_demos_run webgpu
                         [Frame None 300 150; Frame (Some (of_Z 16)) 300 150]
                         fresh_page webgpu_capable))).
Defined.

Lemma run_snoc (render : option number -> M unit) (fs : list frame) (f : frame)
    (w : world) :
  run render (fs ++ [f]) w = deliver render f (run render fs w).
Proof. unfold run. by rewrite foldl_app. Qed.

Lemma run_invariant (render : option number -> M unit) (P : world -> Prop) :
  (forall f w, P w -> P (deliver render f w)) ->
  forall fs w, P w -> P (run render fs w).
Proof.
  intros Hstep fs. induction fs as [|f fs IH]; intros w Hw; [done|].
  change (run render (f :: fs) w) with (run render fs (deliver render f w)).
  apply IH, Hstep, Hw.
Qed.

Lemma storage_changing_values_length (objs : list StorageBuffers.ObjectInfo)
    (time aspect : number) :
  length (StorageBuffers.changing_values objs time aspect) = 4 * length objs.
Proof.
  unfold StorageBuffers.changing_values.
  induction objs as [|o objs IH]; [done|].
  rewrite fmap_cons.
  change (mjoin (?x :: ?l)) with (x ++ mjoin l).
  rewrite length_app, IH. simpl. lia.
Qed.

Lemma storage_changing_values_lookup (objs : list StorageBuffers.ObjectInfo)
    (time aspect : number) :
  forall i o, objs !! i = Some o ->
    StorageBuffers.changing_record time aspect o i
      (StorageBuffers.changing_values objs time aspect) /\
    StorageBuffers.changing_values objs time aspect !! (i * 4 + 3) = Some zero32.
Proof.
  induction objs as [|o' objs IH]; intros i o Ho; [done|].
  destruct i as [|i].
  - injection Ho as ->. repeat split; reflexivity.
  - destruct (IH i o Ho) as ((H0 & H1 & H2) & H3).
    unfold StorageBuffers.changing_record.
    cbn [StorageBuffers.changing_values fmap list_fmap mjoin list_join app].
    replace (S i * 4) with (S (S (S (S (i * 4))))) by lia.
    cbn [Nat.add lookup list_lookup].
    repeat split; assumption.
Qed.

Lemma storage_deliver_state (c : StorageBuffers.closure) (f : frame) (w : world) :
  StorageBuffers.ready c w -> 0 < scheduled w ->
  (exists a, heap w !! StorageBuffers.storageValues c = Some a /\
             StorageBuffers.padding_zero a) ->
  heap (deliver (StorageBuffers.render c) f w) !! StorageBuffers.storageValues c =
    Some (StorageBuffers.changing_values (StorageBuffers.objectInfos c)
            (default (of_Z 0) (timeStamp f))
            (div (of_Z (frame_width f)) (of_Z (frame_height f)))) /\
  exists b,
    buffers (deliver (StorageBuffers.render c) f w)
      !! StorageBuffers.changingStorageBuffer c = Some b /\
    buf_data b =
      StorageBuffers.changing_values (StorageBuffers.objectInfos c)
        (default (of_Z 0) (timeStamp f))
        (div (of_Z (frame_width f)) (of_Z (frame_height f))).
Proof.
  intros Hready Hs (a0 & Ha0 & Hpad0).
  unfold deliver. destruct (scheduled w) as [|n] eqn:Hn; [lia|].
  set (w0 := set_canvas _ _ _).
  assert (Hready0 : StorageBuffers.ready c w0).
  { destruct Hready as (a & b & H). by exists a, b. }
  destruct (storage_frame c (timeStamp f) w0 Hready0)
    as (a & a' & b & sets & Ha & Hb & Hrun & Hlen & _ & Hrec & Hpad).
  assert (a = a0) as -> by (unfold w0 in Ha; world_simpl in Ha; congruence).
  assert (Hlen0 : length a0 = 4 * length (StorageBuffers.objectInfos c)).
  { destruct Hready as (a1 & b1 & Ha1 & Hl1 & _). congruence. }
  assert (Heq : a' = StorageBuffers.changing_values (StorageBuffers.objectInfos c)
                       (default (of_Z 0) (timeStamp f))
                       (div (of_Z (frame_width f)) (of_Z (frame_height f)))).
  { eapply storage_changing_ext.
    - apply storage_changing_values_length.
    - exact Hlen.
    - intros i o Ho. by apply storage_changing_values_lookup.
    - exact Hrec.
    - intros j Hj. rewrite (Hpad j Hj).
      destruct (decide (j < 4 * length (StorageBuffers.objectInfos c))) as [Hlt|Hge].
      + rewrite Hpad0 by (done || lia).
        pose proof (Nat.div_mod_eq j 4) as Hdiv.
        destruct (lookup_lt_is_Some_2 (StorageBuffers.objectInfos c) (j `div` 4))
          as [o Ho]; [lia|].
        destruct (storage_changing_values_lookup (StorageBuffers.objectInfos c)
                    (default (of_Z 0) (timeStamp f))
                    (div (of_Z (frame_width f)) (of_Z (frame_height f)))
                    _ _ Ho) as (_ & H3).
        rewrite <- H3. f_equal. lia.
      + rewrite !lookup_ge_None_2; [done| |lia].
        rewrite storage_changing_values_length. lia. }
  rewrite Hrun. cbn [snd]. world_simpl. rewrite <- Heq.
  split; [apply list_lookup_insert_eq; by eapply lookup_lt_Some|].
  eexists. split; [apply list_lookup_insert_eq; by eapply lookup_lt_Some|].
  reflexivity.
Qed.

Lemma storage_deliver_padding (c : StorageBuffers.closure) (f : frame) (w : world) :
  StorageBuffers.ready c w /\ 0 < scheduled w /\
  (exists a, heap w !! StorageBuffers.storageValues c = Some a /\
             StorageBuffers.padding_zero a) ->
  StorageBuffers.ready c (deliver (StorageBuffers.render c) f w) /\
  0 < scheduled (deliver (StorageBuffers.render c) f w) /\
  (exists a, heap (deliver (StorageBuffers.render c) f w)
               !! StorageBuffers.storageValues c = Some a /\
             StorageBuffers.padding_zero a).
Proof.
  intros (Hready & Hs & Hpad).
  destruct (storage_deliver_ready c f w Hready) as (Hready' & _ & Hs').
  split; [exact Hready'|]. split; [rewrite Hs' by exact Hs; exact Hs|].
  destruct (storage_deliver_state c f w Hready Hs Hpad) as (Hheap & _).
  eexists. split; [exact Hheap|].
  intros j Hj Hlt. rewrite storage_changing_values_length in Hlt.
  pose proof (Nat.div_mod_eq j 4) as Hdiv.
  destruct (lookup_lt_is_Some_2 (StorageBuffers.objectInfos c) (j `div` 4))
    as [o Ho]; [lia|].
  destruct (storage_changing_values_lookup (StorageBuffers.objectInfos c)
              (default (of_Z 0) (timeStamp f))
              (div (of_Z (frame_width f)) (of_Z (frame_height f)))
              _ _ Ho) as (_ & H3).
  replace j with (j `div` 4 * 4 + 3) by lia. exact H3.
Qed.

(** X12: what the shader of the storage-buffer demo sees.  After [main]
    and any frames, the changing buffer and the typed array behind it
    hold, for every object in turn, the pair (base scale over aspect
    ratio, base scale), the time and a zero of padding, all computed
    from the last frame delivered: its time stamp, or zero without one,
    and the canvas size of that moment.  Earlier frames leave no
    trace. *)
Theorem storage_gpu_state :
  forall (env : host) (N : nat) (fs : list frame) (f : frame) (w : world),
    capable env ->
    exists c w1 b,
      StorageBuffers.main env N w = (Return (Some c), w1) /\
      length (StorageBuffers.objectInfos c) = N /\
      heap (run (StorageBuffers.render c) (fs ++ [f]) w1)
        !! StorageBuffers.storageValues c =
        Some (StorageBuffers.changing_values (StorageBuffers.objectInfos c)
                (default (of_Z 0) (timeStamp f))
                (div (of_Z (frame_width f)) (of_Z (frame_height f)))) /\
      buffers (run (StorageBuffers.render c) (fs ++ [f]) w1)
        !! StorageBuffers.changingStorageBuffer c = Some b /\
      buf_data b =
        StorageBuffers.changing_values (StorageBuffers.objectInfos c)
          (default (of_Z 0) (timeStamp f))
          (div (of_Z (frame_width f)) (of_Z (frame_height f))).
Proof.
  intros env N fs f w Hcap.
  destruct (storage_main_facts env N w Hcap)
    as (c & w1 & sdata & sets & Hrun & Hready & _ & Hobjs & _ & _ & _ & Ha & _ & _ &
        _ & Hsch & _).
  assert (Hinv : StorageBuffers.ready c (run (StorageBuffers.render c) fs w1) /\
                 0 < scheduled (run (StorageBuffers.render c) fs w1) /\
                 (exists a, heap (run (StorageBuffers.render c) fs w1)
                              !! StorageBuffers.storageValues c = Some a /\
                            StorageBuffers.padding_zero a)).
  { apply (run_invariant (StorageBuffers.render c)
             (fun w => StorageBuffers.ready c w /\ 0 < scheduled w /\
                       (exists a, heap w !! StorageBuffers.storageValues c = Some a /\
                                  StorageBuffers.padding_zero a))).
    - intros f' w'. apply storage_deliver_padding.
    - split; [exact Hready|]. split; [lia|].
      eexists. split; [exact Ha|].
      intros j _ Hj. apply lookup_replicate_2. by rewrite length_replicate in Hj. }
  destruct Hinv as (Hready' & Hs' & Hpad').
  destruct (storage_deliver_state c f _ Hready' Hs' Hpad') as (Hheap & b & Hb & Hdata).
  exists c, w1, b. rewrite run_snoc.
  split; [exact Hrun|].
  split; [by rewrite Hobjs, length_fmap, length_seq|].
  done.
Qed.

Lemma storage_gpu_state_witness :
  exists c w1 b,
    StorageBuffers.main webgpu 2 fresh_page = (Return (Some c), w1) /\
    length (StorageBuffers.objectInfos c) = 2 /\
    heap (run (StorageBuffers.render c)
            ([Frame None 300 150] ++ [Frame (Some (of_Z 16)) 640 480]) w1)
      !! StorageBuffers.storageValues c =
      Some (StorageBuffers.changing_values (StorageBuffers.objectInfos c)
              (default (of_Z 0) (timeStamp (Frame (Some (of_Z 16)) 640 480)))
              (div (of_Z (frame_width (Frame (Some (of_Z 16)) 640 480)))
                 (of_Z (frame_height (Frame (Some (of_Z 16)) 640 480))))) /\
    buffers (run (StorageBuffers.render c)
               ([Frame None 300 150] ++ [Frame (Some (of_Z 16)) 640 480]) w1)
      !! StorageBuffers.changingStorageBuffer c = Some b /\
    buf_data b =
      StorageBuffers.changing_values (StorageBuffers.objectInfos c)
        (default (of_Z 0) (timeStamp (Frame (Some (of_Z 16)) 640 480)))
        (div (of_Z (frame_width (Frame (Some (of_Z 16)) 640 480)))
           (of_Z (frame_height (Frame (Some (of_Z 16)) 640 480)))).
Proof.
  exact (storage_gpu_state webgpu 2 [Frame None 300 150]
           (Frame (Some (of_Z 16)) 640 480) fresh_page webgpu_capable).
Defined.

Lemma uniforms_deliver_values (objs : list Uniforms.ObjectInfo) (f : frame) (w : world) :
  Uniforms.ready objs w -> 0 < scheduled w ->
  forall o a, o ∈ objs -> heap w !! Uniforms.uniformValues o = Some a ->
    heap (deliver (Uniforms.render objs) f w) !! Uniforms.uniformValues o =
      Some (Uniforms.updated (default (of_Z 0) (timeStamp f))
              (div (of_Z (frame_width f)) (of_Z (frame_height f))) o a) /\
    exists b,
      buffers (deliver (Uniforms.render objs) f w) !! Uniforms.uniformBuffer o = Some b /\
      buf_data b =
        Uniforms.updated (default (of_Z 0) (timeStamp f))
          (div (of_Z (frame_width f)) (of_Z (frame_height f))) o a.
Proof.
  intros Hready Hs o a Ho Ha.
  unfold deliver. destruct (scheduled w) as [|n] eqn:Hn; [lia|].
  set (w0 := set_canvas _ _ _).
  assert (Hready0 : Uniforms.ready objs w0).
  { destruct Hready as (Hfits & Hnd). split; [|done].
    eapply Forall_impl; [exact Hfits|]. intros o' Ho'.
    by apply (uniforms_fits_unchanged o' w). }
  destruct (uniforms_render_run objs (timeStamp f) w0 Hready0)
    as (w' & Hrun & _ & _ & _ & _ & _ & Hobj & _).
  rewrite Hrun. cbn [snd].
  destruct (Hobj o a Ho Ha) as (Ha' & b & _ & Hb').
  split; [exact Ha'|]. eexists. split; [exact Hb'|]. reflexivity.
Qed.

Lemma struct_deliver_values (objs : list UniformStruct.ObjectInfo) (f : frame)
    (w : world) :
  UniformStruct.ready objs w -> 0 < scheduled w ->
  forall o a, o ∈ objs -> heap w !! UniformStruct.uniformValues o = Some a ->
    heap (deliver (UniformStruct.render objs) f w) !! UniformStruct.uniformValues o =
      Some (UniformStruct.updated (default (of_Z 0) (timeStamp f))
              (div (of_Z (frame_width f)) (of_Z (frame_height f))) o a) /\
    exists b,
      buffers (deliver (UniformStruct.render objs) f w)
        !! UniformStruct.uniformBuffer o = Some b /\
      buf_data b =
        UniformStruct.updated (default (of_Z 0) (timeStamp f))
          (div (of_Z (frame_width f)) (of_Z (frame_height f))) o a.
Proof.
  intros Hready Hs o a Ho Ha.
  unfold deliver. destruct (scheduled w) as [|n] eqn:Hn; [lia|].
  set (w0 := set_canvas _ _ _).
  assert (Hready0 : UniformStruct.ready objs w0).
  { destruct Hready as (Hfits & Hnd). split; [|done].
    eapply Forall_impl; [exact Hfits|]. intros o' Ho'.
    by apply (struct_fits_unchanged o' w). }
  destruct (struct_render_run objs (timeStamp f) w0 Hready0)
    as (w' & Hrun & _ & _ & _ & _ & _ & Hobj & _).
  rewrite Hrun. cbn [snd].
  destruct (Hobj o a Ho Ha) as (Ha' & b & _ & Hb').
  split; [exact Ha'|]. eexists. split; [exact Hb'|]. reflexivity.
Qed.

Lemma uniforms_updated_values (time aspect : number) (o : Uniforms.ObjectInfo)
    (a : list f32) :
  length a = Uniforms.uniformBufferSize / 4 -> a !! 3 = Some zero32 ->
  Uniforms.updated time aspect o a = Uniforms.changing_values o time aspect.
Proof.
  intros Hlen Hpad.
  destruct (uniforms_updated_record time aspect o a Hlen) as (pad & Hp & ->).
  unfold Uniforms.changing_values. congruence.
Qed.

Lemma struct_updated_values (env : host) (d : nat) (time aspect : number)
    (o : UniformStruct.ObjectInfo) (a : list f32) :
  UniformStruct.record_of env d o a ->
  UniformStruct.updated time aspect o a = UniformStruct.record_values env d o time aspect.
Proof. intros (_ & s0 & s1 & t & ->). reflexivity. Qed.

(** X13: what the shaders of the two uniform demos see.  After [main]
    and any frames, the changing buffer of every object of the demo with
    two buffers holds the pair (base scale over aspect ratio, base
    scale), the time and a zero, and the buffer of every object of the
    single-struct demo holds its drawn colour, the alpha 1, that pair,
    its drawn offset, the time and three zeros; scale pair and time are
    those of the last frame delivered, and the typed arrays hold the
    same values. *)
Theorem uniform_gpu_state :
  forall (env : host) (N : nat) (fs : list frame) (f : frame) (w : world),
    capable env ->
    (exists objs w1,
       Uniforms.main env N w = (Return (Some objs), w1) /\
       Forall (fun o => exists b,
                 heap (run (Uniforms.render objs) (fs ++ [f]) w1)
                   !! Uniforms.uniformValues o =
                   Some (Uniforms.changing_values o (default (of_Z 0) (timeStamp f))
                           (div (of_Z (frame_width f)) (of_Z (frame_height f)))) /\
                 buffers (run (Uniforms.render objs) (fs ++ [f]) w1)
                   !! Uniforms.uniformBuffer o = Some b /\
                 buf_data b =
                   Uniforms.changing_values o (default (of_Z 0) (timeStamp f))
                     (div (of_Z (frame_width f)) (of_Z (frame_height f))))
              objs) /\
    (exists objs w1,
       UniformStruct.main env N w = (Return (Some objs), w1) /\
       Forall (fun o => exists d b,
                 UniformStruct.scale o =
                   random env (d + 5) (decimal 2 1) (decimal 5 1) /\
                 heap (run (UniformStruct.render objs) (fs ++ [f]) w1)
                   !! UniformStruct.uniformValues o =
                   Some (UniformStruct.record_values env d o
                           (default (of_Z 0) (timeStamp f))
                           (div (of_Z (frame_width f)) (of_Z (frame_height f)))) /\
                 buffers (run (UniformStruct.render objs) (fs ++ [f]) w1)
                   !! UniformStruct.uniformBuffer o = Some b /\
                 buf_data b =
                   UniformStruct.record_values env d o
                     (default (of_Z 0) (timeStamp f))
                     (div (of_Z (frame_width f)) (of_Z (frame_height f))))
              objs).
Proof.
  intros env N fs f w Hcap. split.
  - destruct (uniforms_main_run env N w Hcap)
      as (objs & w1 & Hrun & (Hready & Hstarted & _) & _ & _ & Hsch & _).
    exists objs, w1. split; [exact Hrun|]. rewrite run_snoc.
    assert (Hinv :
      Uniforms.ready objs (run (Uniforms.render objs) fs w1) /\
      0 < scheduled (run (Uniforms.render objs) fs w1) /\
      Forall (fun o => exists a,
                heap (run (Uniforms.render objs) fs w1) !! Uniforms.uniformValues o
                  = Some a /\ a !! 3 = Some zero32) objs).
    { apply (run_invariant (Uniforms.render objs)
               (fun w => Uniforms.ready objs w /\ 0 < scheduled w /\
                         Forall (fun o => exists a,
                                   heap w !! Uniforms.uniformValues o = Some a /\
                                   a !! 3 = Some zero32) objs)).
      - intros f' w' (Hr & Hs & Hpad).
        destruct (uniforms_deliver_ready objs f' w' Hr) as (Hr' & _ & Hs').
        split; [exact Hr'|]. split; [rewrite Hs' by exact Hs; exact Hs|].
        apply Forall_forall. intros o Ho. rewrite Forall_forall in Hpad.
        destruct (Hpad o Ho) as (a & Ha & Ha3).
        destruct (uniforms_deliver_values objs f' w' Hr Hs o a Ho Ha) as (Ha' & _).
        eexists. split; [exact Ha'|].
        destruct Hr as (Hfits & _). rewrite Forall_forall in Hfits.
        destruct (Hfits o Ho) as (a0 & b0 & Ha0 & Hlen & _).
        rewrite uniforms_updated_values; [reflexivity|congruence|exact Ha3].
      - split; [exact Hready|]. split; [lia|].
        eapply Forall_impl; [exact Hstarted|].
        intros o (_ & _ & _ & Ha & _). eexists. split; [exact Ha|reflexivity]. }
    destruct Hinv as (Hr & Hs & Hpad).
    apply Forall_forall. intros o Ho. rewrite Forall_forall in Hpad.
    destruct (Hpad o Ho) as (a & Ha & Ha3).
    destruct (uniforms_deliver_values objs f _ Hr Hs o a Ho Ha) as (Ha' & b & Hb & Hdata).
    destruct Hr as (Hfits & _). rewrite Forall_forall in Hfits.
    destruct (Hfits o Ho) as (a0 & b0 & Ha0 & Hlen & _).
    rewrite uniforms_updated_values in Ha', Hdata by (congruence || exact Ha3).
    exists b. done.
  - destruct (struct_main_run env N w Hcap)
      as (objs & w1 & Hrun & (Hready & Hstarted) & _ & _ & Hsch & _).
    exists objs, w1. split; [exact Hrun|]. rewrite run_snoc.
    assert (Hinv :
      UniformStruct.ready objs (run (UniformStruct.render objs) fs w1) /\
      0 < scheduled (run (UniformStruct.render objs) fs w1) /\
      Forall (fun o => exists d a,
                heap (run (UniformStruct.render objs) fs w1)
                  !! UniformStruct.uniformValues o = Some a /\
                UniformStruct.record_of env d o a) objs).
    { apply (run_invariant (UniformStruct.render objs)
               (fun w => UniformStruct.ready objs w /\ 0 < scheduled w /\
                         Forall (fun o => exists d a,
                                   heap w !! UniformStruct.uniformValues o = Some a /\
                                   UniformStruct.record_of env d o a) objs)).
      - intros f' w' (Hr & Hs & Hrec).
        destruct (struct_deliver_ready objs f' w' Hr) as (Hr' & _ & Hs').
        split; [exact Hr'|]. split; [rewrite Hs' by exact Hs; exact Hs|].
        apply Forall_forall. intros o Ho. rewrite Forall_forall in Hrec.
        destruct (Hrec o Ho) as (d & a & Ha & Hof).
        destruct (struct_deliver_values objs f' w' Hr Hs o a Ho Ha) as (Ha' & _).
        eexists d, _. split; [exact Ha'|].
        rewrite (struct_updated_values env d) by exact Hof.
        split; [apply Hof|]. eexists _, _, _. reflexivity.
      - split; [exact Hready|]. split; [lia|].
        eapply Forall_impl; [exact Hstarted|].
        intros o (_ & _ & _ & d & Hscale & Ha). eexists d, _. split; [exact Ha|].
        split; [exact Hscale|]. eexists _, _, _. reflexivity. }
    destruct Hinv as (Hr & Hs & Hrec).
    apply Forall_forall. intros o Ho. rewrite Forall_forall in Hrec.
    destruct (Hrec o Ho) as (d & a & Ha & Hof).
    destruct (struct_deliver_values objs f _ Hr Hs o a Ho Ha) as (Ha' & b & Hb & Hdata).
    rewrite (struct_updated_values env d) in Ha', Hdata by exact Hof.
    exists d, b. split; [apply Hof|]. done.
Qed.

Lemma uniform_gpu_state_witness :
  exists objs w1,
    Uniforms.main webgpu 2 fresh_page = (Return (Some objs), w1) /\
    Forall (fun o => exists b,
              heap (run (Uniforms.render objs)
                      ([Frame None 300 150] ++ [Frame (Some (of_Z 16)) 640 480]) w1)
                !! Uniforms.uniformValues o =
                Some (Uniforms.changing_values o
                        (default (of_Z 0) (timeStamp (Frame (Some (of_Z 16)) 640 480)))
                        (div (of_Z (frame_width (Frame (Some (of_Z 16)) 640 480)))
                           (of_Z (frame_height (Frame (Some (of_Z 16)) 640 480))))) /\
              buffers (run (Uniforms.render objs)
                         ([Frame None 300 150] ++ [Frame (Some (of_Z 16)) 640 480]) w1)
                !! Uniforms.uniformBuffer o = Some b /\
              buf_data b =
                Uniforms.changing_values o
                  (default (of_Z 0) (timeStamp (Frame (Some (of_Z 16)) 640 480)))
                  (div (of_Z (frame_width (Frame (Some (of_Z 16)) 640 480)))
                     (of_Z (frame_height (Frame (Some (of_Z 16)) 640 480)))))
           objs.
Proof.
  exact (proj1 (uniform_gpu_state webgpu 2 [Frame None 300 150]
                  (Frame (Some (of_Z 16)) 640 480) fresh_page webgpu_capable)).
Defined.

(** ** The resize observer *)

Local Open Scope Z_scope.

Lemma of_Z_max_dimension :
  of_Z 2147483647 = S754_finite false 9007199250546688 (-22).
Proof. vm_compute. reflexivity. Qed.

Lemma dimension_range (r : number) :
  valid_binary prec64 emax64 r = true ->
  SFleb (of_Z 1) r = true -> SFleb r (of_Z 2147483647) = true ->
  exists m e, r = S754_finite false m e /\ -52 <= e <= -22 /\
    4503599627370496 <= Z.pos m < 9007199254740992 /\
    (e = -22 -> Z.pos m <= 9007199250546688).
Proof.
  intros Hv H1 HC. rewrite of_Z_one in H1. rewrite of_Z_max_dimension in HC.
  destruct r as [s|s| |s m e]; try discriminate.
  { destruct s; discriminate. }
  destruct s; [discriminate|].
  rewrite SFleb_finite_pos in H1, HC.
  apply valid64_canonical in Hv.
  pose proof (digits2_pos_upper m) as Hup.
  pose proof (digits2_pos_lower m) as Hlo.
  assert (He : -52 <= e <= -22).
  { split.
    - destruct (Z.compare_spec (-52) e); [lia|lia|discriminate].
    - destruct (Z.compare_spec e (-22)); [lia|lia|discriminate]. }
  assert (Hd : Z.pos (digits2_pos m) = 53) by lia.
  rewrite Hd in Hup, Hlo.
  change (2 ^ 53) with 9007199254740992 in Hup.
  change (2 ^ (53 - 1)) with 4503599627370496 in Hlo.
  exists m, e. split; [done|]. split; [done|]. split; [lia|].
  intros ->. rewrite Z.compare_refl in HC. apply Z.leb_le in HC. exact HC.
Qed.

Lemma to_unsigned_long_range (m : positive) (e : Z) :
  -52 <= e <= -22 ->
  4503599627370496 <= Z.pos m < 9007199254740992 ->
  (e = -22 -> Z.pos m <= 9007199250546688) ->
  to_unsigned_long (S754_finite false m e) = Z.pos m / 2 ^ (- e) /\
  1 <= Z.pos m / 2 ^ (- e) <= 2147483647.
Proof.
  intros He Hm Hmax.
  assert (Hpos : 0 < 2 ^ (- e)) by (apply Z.pow_pos_nonneg; lia).
  assert (Hk52 : 2 ^ (- e) <= 4503599627370496).
  { change 4503599627370496 with (2 ^ 52). apply Z.pow_le_mono_r; lia. }
  assert (Hlow : 1 <= Z.pos m / 2 ^ (- e)).
  { apply Z.div_le_lower_bound; lia. }
  assert (Hhigh : Z.pos m / 2 ^ (- e) < 2147483648).
  { apply Z.div_lt_upper_bound; [exact Hpos|].
    destruct (Z.eq_dec e (-22)) as [->|Hne].
    - specialize (Hmax eq_refl). change (2 ^ (- -22)) with 4194304. lia.
    - assert (Hk23 : 8388608 <= 2 ^ (- e)).
      { change 8388608 with (2 ^ 23). apply Z.pow_le_mono_r; lia. }
      lia. }
  split; [|lia].
  unfold to_unsigned_long.
  destruct (Z.leb_spec 0 e) as [Hle|_]; [lia|].
  cbv zeta. apply Z.mod_small. change (2 ^ 32) with 4294967296. lia.
Qed.

Lemma truncation_monotone (m1 m2 : positive) (e1 e2 : Z) :
  -52 <= e1 -> e2 <= -22 ->
  4503599627370496 <= Z.pos m2 ->
  Z.pos m1 < 9007199254740992 ->
  e1 < e2 \/ (e1 = e2 /\ Z.pos m1 <= Z.pos m2) ->
  Z.pos m1 / 2 ^ (- e1) <= Z.pos m2 / 2 ^ (- e2).
Proof.
  intros He1 He2 Hm2 Hm1 [Hlt|[-> Hle]].
  - assert (H1 : Z.pos m1 / 2 ^ (- e1) < 2 ^ (53 + e1)).
    { apply Z.div_lt_upper_bound; [apply Z.pow_pos_nonneg; lia|].
      rewrite <- Z.pow_add_r by lia.
      replace (- e1 + (53 + e1)) with 53 by lia.
      change (2 ^ 53) with 9007199254740992. exact Hm1. }
    assert (H2 : 2 ^ (52 + e2) <= Z.pos m2 / 2 ^ (- e2)).
    { apply Z.div_le_lower_bound; [apply Z.pow_pos_nonneg; lia|].
      rewrite <- Z.pow_add_r by lia.
      replace (- e2 + (52 + e2)) with 52 by lia.
      change (2 ^ 52) with 4503599627370496. exact Hm2. }
    assert (H3 : 2 ^ (53 + e1) <= 2 ^ (52 + e2)) by (apply Z.pow_le_mono_r; lia).
    lia.
  - apply Z.div_le_mono; [apply Z.pow_pos_nonneg; lia|exact Hle].
Qed.

Lemma max_one_cases (y : number) :
  y <> S754_nan ->
  Math_max (of_Z 1) y = of_Z 1 \/
  (Math_max (of_Z 1) y = y /\ SFleb (of_Z 1) y = true).
Proof.
  intros Hy. unfold Math_max, SFleb.
  destruct (SFcompare (of_Z 1) y) as [[| |]|] eqn:Hc.
  - left. rewrite of_Z_one. reflexivity.
  - right. done.
  - left. reflexivity.
  - rewrite of_Z_one in Hc. destruct y; try discriminate. done.
Qed.

Lemma min_cases (x limit : number) :
  x <> S754_nan -> limit <> S754_nan ->
  Math_min x limit = limit \/
  (Math_min x limit = x /\ SFleb x limit = true).
Proof.
  intros Hx Hl. unfold Math_min, SFleb.
  destruct (SFcompare x limit) as [[| |]|] eqn:Hc.
  - destruct x as [[|]| | |]; auto.
  - right. done.
  - left. reflexivity.
  - destruct x, limit; try discriminate; done.
Qed.

Lemma canvas_dimension_clamped (default : Z) (x limit : number) :
  is_size x ->
  valid_binary prec64 emax64 limit = true ->
  SFleb (of_Z 1) limit = true -> SFleb limit (of_Z 2147483647) = true ->
  1 <= canvas_dimension default (Math_max (of_Z 1) (Math_min x limit))
    <= to_unsigned_long limit /\
  to_unsigned_long limit <= 2147483647.
Proof.
  intros [Hvx Hx] Hvl H1 HC.
  destruct (dimension_range limit Hvl H1 HC) as (ml & el & -> & Hel & Hml & Hmaxl).
  destruct (to_unsigned_long_range ml el Hel Hml Hmaxl) as (Htl & Htl1).
  assert (Hone : forall d, canvas_dimension d (of_Z 1) = 1).
  { intros d. rewrite of_Z_one. reflexivity. }
  assert (Hlim : forall d, canvas_dimension d (S754_finite false ml el) = Z.pos ml / 2 ^ (- el)).
  { intros d. unfold canvas_dimension. rewrite Htl.
    destruct (Z.leb_spec (Z.pos ml / 2 ^ (- el)) 2147483647); [done|lia]. }
  rewrite Htl. split; [|lia].
  destruct (min_cases x (S754_finite false ml el) Hx) as [->|[-> Hle]]; [done| |].
  - destruct (max_one_cases (S754_finite false ml el)) as [->|[-> _]]; [done| |].
    + rewrite Hone. lia.
    + rewrite Hlim. lia.
  - destruct (max_one_cases x Hx) as [->|[-> Hge]].
    + rewrite Hone. lia.
    + rewrite of_Z_one in Hge.
      destruct x as [s|s| |s m e]; try discriminate.
      { destruct s; discriminate. }
      destruct s; [discriminate|].
      rewrite SFleb_finite_pos in Hge, Hle.
      apply valid64_canonical in Hvx.
      pose proof (digits2_pos_upper m) as Hup.
      pose proof (digits2_pos_lower m) as Hlo.
      assert (He : -52 <= e) by (destruct (Z.compare_spec (-52) e); [lia|lia|discriminate]).
      assert (Hlex : e < el \/ (e = el /\ Z.pos m <= Z.pos ml)).
      { destruct (Z.compare_spec e el); [|by left|discriminate].
        right. split; [done|]. by apply Z.leb_le. }
      assert (Hd : Z.pos (digits2_pos m) = 53) by lia.
      rewrite Hd in Hup, Hlo.
      change (2 ^ 53) with 9007199254740992 in Hup.
      change (2 ^ (53 - 1)) with 4503599627370496 in Hlo.
      assert (Hmax : e = -22 -> Z.pos m <= 9007199250546688) by lia.
      destruct (to_unsigned_long_range m e) as (Ht & Ht1); [lia|lia|exact Hmax|].
      assert (Hmono := truncation_monotone m ml e el).
      unfold canvas_dimension. rewrite Ht.
      destruct (Z.leb_spec (Z.pos m / 2 ^ (- e)) 2147483647); lia.
Qed.

Local Close Scope Z_scope.

Lemma onResize_run (limit : number) (entries : list ResizeObserverEntry) :
  forall w,
    exists x y,
      onResize limit entries w =
        (Return tt,
         World (body w) x y (heap w) (buffers w) (calls w) (drawn w) (scheduled w)) /\
      (Forall (fun e => target_is_canvas e = false) entries ->
       x = width w /\ y = height w) /\
      (valid_binary prec64 emax64 limit = true ->
       SFleb (of_Z 1) limit = true -> SFleb limit (of_Z 2147483647) = true ->
       Forall (fun e => is_size (inlineSize e) /\ is_size (blockSize e)) entries ->
       (1 <= width w <= to_unsigned_long limit /\
        1 <= height w <= to_unsigned_long limit)%Z \/
       Exists (fun e => target_is_canvas e = true) entries ->
       (1 <= x <= to_unsigned_long limit /\ 1 <= y <= to_unsigned_long limit)%Z).
Proof.
  unfold onResize.
  induction entries as [|entry entries IH]; intros w.
  - exists (width w), (height w). cbn [for_of]. unfold ret. rewrite world_eta.
    split; [done|]. split; [done|].
    intros _ _ _ _ [H|H]; [exact H|by apply Exists_nil in H].
  - rewrite for_of_cons.
    destruct (target_is_canvas entry) eqn:Hcanvas.
    + set (x1 := canvas_dimension 300 (Math_max (of_Z 1) (Math_min (inlineSize entry) limit))).
      set (y1 := canvas_dimension 150 (Math_max (of_Z 1) (Math_min (blockSize entry) limit))).
      destruct (IH (World (body w) x1 y1 (heap w) (buffers w) (calls w) (drawn w)
                      (scheduled w))) as (x & y & Hrun & Hnone & Hsome).
      exists x, y. split; [exact Hrun|]. split.
      * intros Hall. apply Forall_cons in Hall as [Hno _]. congruence.
      * intros Hv H1 HC Hsizes _.
        apply Forall_cons in Hsizes as [[Hi Hb] Hsizes].
        apply Hsome; try done. left. world_simpl.
        destruct (canvas_dimension_clamped 300 (inlineSize entry) limit Hi Hv H1 HC).
        destruct (canvas_dimension_clamped 150 (blockSize entry) limit Hb Hv H1 HC).
        done.
    + destruct (IH w) as (x & y & Hrun & Hnone & Hsome).
      exists x, y. split; [exact Hrun|]. split.
      * intros Hall. apply Forall_cons in Hall as [_ Hall]. by apply Hnone.
      * intros Hv H1 HC Hsizes Hor.
        apply Forall_cons in Hsizes as [_ Hsizes].
        apply Hsome; try done.
        destruct Hor as [H|H]; [by left|].
        apply Exists_cons in H as [H|H]; [congruence|by right].
Qed.

(** X14: the resize observer of the three demos that write buffers.
    Its callback never throws and changes nothing but the size of the
    canvas.  When the device limit [maxTextureDimension2D] is a number
    from 1 to 2147483647 and the observed sizes are numbers (not NaN), a
    notification about the canvas leaves both [canvas.width] and
    [canvas.height] at least 1 and at most the limit, however small,
    large or fractional the observed size is: the height by which a
    frame divides is never 0.  A notification without the canvas leaves
    the size as it was. *)
Theorem resize_keeps_canvas_drawable :
  forall (limit : number) (entries : list ResizeObserverEntry) (w : world),
    valid_binary prec64 emax64 limit = true ->
    SFleb (of_Z 1) limit = true -> SFleb limit (of_Z 2147483647) = true ->
    Forall (fun e => is_size (inlineSize e) /\ is_size (blockSize e)) entries ->
    fst (onResize limit entries w) = Return tt /\
    body (snd (onResize limit entries w)) = body w /\
    heap (snd (onResize limit entries w)) = heap w /\
    buffers (snd (onResize limit entries w)) = buffers w /\
    calls (snd (onResize limit entries w)) = calls w /\
    scheduled (snd (onResize limit entries w)) = scheduled w /\
    (Exists (fun e => target_is_canvas e = true) entries ->
     (1 <= width (snd (onResize limit entries w)) <= to_unsigned_long limit /\
      1 <= height (snd (onResize limit entries w)) <= to_unsigned_long limit /\
      to_unsigned_long limit <= 2147483647)%Z) /\
    (Forall (fun e => target_is_canvas e = false) entries ->
     snd (onResize limit entries w) = w).
Proof.
  intros limit entries w Hv H1 HC Hsizes.
  destruct (onResize_run limit entries w) as (x & y & Hrun & Hnone & Hsome).
  rewrite Hrun. cbn [fst snd]. world_simpl.
  do 6 (split; [done|]). split.
  - intros Hex. destruct (Hsome Hv H1 HC Hsizes (or_intror Hex)) as [Hx Hy].
    split; [exact Hx|]. split; [exact Hy|].
    destruct (dimension_range limit Hv H1 HC) as (ml & el & -> & Hel & Hml & Hmaxl).
    destruct (to_unsigned_long_range ml el Hel Hml Hmaxl) as (-> & Htl1). lia.
  - intros Hall. destruct (Hnone Hall) as [-> ->]. apply world_eta.
Qed.

Lemma resize_keeps_canvas_drawable_witness :
  (1 <= width (snd (onResize (of_Z 8192)
                      [Entry true (decimal 12805 1) (of_Z 0)] fresh_page))
     <= to_unsigned_long (of_Z 8192) /\
   1 <= height (snd (onResize (of_Z 8192)
                       [Entry true (decimal 12805 1) (of_Z 0)] fresh_page))
     <= to_unsigned_long (of_Z 8192) /\
   to_unsigned_long (of_Z 8192) <= 2147483647)%Z.
Proof.
  apply (resize_keeps_canvas_drawable (of_Z 8192)
           [Entry true (decimal 12805 1) (of_Z 0)] fresh_page).
  - vm_compute. reflexivity.
  - vm_compute. reflexivity.
  - vm_compute. reflexivity.
  - repeat constructor; try (vm_compute; reflexivity); vm_compute; discriminate.
  - repeat constructor.
Defined.

(** * Static fields and time stamps, as the code has them *)

Lemma struct_main_uploads (env : host) (N : nat) (w : world) :
  capable env ->
  exists objs w1 l,
    UniformStruct.main env N w = (Return (Some objs), w1) /\
    calls w1 = calls w ++ l /\
    uploads l = [].
Proof.
  intros (Hgpu & Had & Hcan & Hctx).
  set (w3 := World (body w) (width w) (height w) (heap w) (buffers w)
       (calls w ++
        [RequestAdapter; RequestDevice; GetContext; GetPreferredCanvasFormat;
         Configure; CreateShaderModule "Triangle vertex shader";
         CreateRenderPipeline "Hardcoded WebGPU pipeline"])
       (drawn w) (scheduled w)).
  destruct (struct_generate_count env N 0 [] w3)
    as (objs & w' & l & Hrun & Hcalls & _ & _ & _ & Hup & _).
  cbn [app] in Hrun.
  exists objs,
    (World (body w') (width w') (height w') (heap w') (buffers w')
       (calls w' ++ [Observe; RequestAnimationFrame]) (drawn w') (S (scheduled w'))),
    ([RequestAdapter; RequestDevice; GetContext; GetPreferredCanvasFormat;
      Configure; CreateShaderModule "Triangle vertex shader";
      CreateRenderPipeline "Hardcoded WebGPU pipeline"] ++ l ++
     [Observe; RequestAnimationFrame]).
  split.
  { transitivity
      ((let* objectInfos := for_acc (seq 0 N) [] (UniformStruct.generate env) in
        log Observe ;; requestAnimationFrame ;; ret (Some objectInfos)) w3).
    { unfold UniformStruct.main, requestAdapter, getPreferredCanvasFormat,
        querySelector_canvas, getContext, requestDevice.
      rewrite Hgpu, Had, Hcan, Hctx. unfold w3.
      run_cbv. rewrite <- !app_assoc. reflexivity. }
    erewrite bind_run by exact Hrun. run_cbv. rewrite <- !app_assoc. reflexivity. }
  world_simpl. rewrite Hcalls. unfold w3. world_simpl.
  split; [rewrite <- !app_assoc; reflexivity|].
  rewrite !uploads_app, Hup. reflexivity.
Qed.

(** What [main] and the frames do to the record of an object of the
    single-struct demo. *)
Lemma struct_record_history (env : host) (N : nat) (fs : list frame) (f : frame)
    (w : world) :
  capable env ->
  exists objs w1 l,
    UniformStruct.main env N w = (Return (Some objs), w1) /\
    calls w1 = calls w ++ l /\
    uploads l = [] /\
    Forall (fun o => exists d a b,
              buffers w1 !! UniformStruct.uniformBuffer o =
                Some (BufferState "uniforms for triangle"
                        UniformStruct.uniformBufferSize (replicate 12 zero32)) /\
              heap w1 !! UniformStruct.uniformValues o =
                Some (UniformStruct.initial_values env d) /\
              heap (run (UniformStruct.render objs) (fs ++ [f]) w1)
                !! UniformStruct.uniformValues o = Some a /\
              buffers (run (UniformStruct.render objs) (fs ++ [f]) w1)
                !! UniformStruct.uniformBuffer o = Some b /\
              buf_data b = a /\
              UniformStruct.static_part a =
                UniformStruct.static_part (UniformStruct.initial_values env d))
           objs.
Proof.
  intros Hcap.
  destruct (struct_main_uploads env N w Hcap) as (objs & w1 & l & Hrun & Hcalls & Hup).
  destruct (struct_main_run env N w Hcap)
    as (objs' & w1' & Hrun' & (Hready & Hstarted) & _ & _ & Hsch & _).
  rewrite Hrun in Hrun'. injection Hrun' as <- <-.
  exists objs, w1, l. split; [exact Hrun|]. split; [exact Hcalls|]. split; [exact Hup|].
  destruct (struct_run_ready objs fs w1 Hready) as (Hready' & _ & Hsch').
  assert (Hs : 0 < scheduled (run (UniformStruct.render objs) fs w1))
    by (rewrite Hsch'; lia).
  apply Forall_forall. intros o Ho. rewrite Forall_forall in Hstarted.
  destruct (Hstarted o Ho) as (_ & _ & Hb & d & _ & Ha).
  destruct (struct_run_static objs fs w1 Hready o _ Ho Ha) as (a1 & Ha1 & Hstatic).
  destruct (struct_deliver_values objs f _ Hready' Hs o a1 Ho Ha1)
    as (Ha' & b & Hb' & Hdata).
  eexists d, _, b. rewrite run_snoc.
  split; [exact Hb|]. split; [exact Ha|]. split; [exact Ha'|].
  split; [exact Hb'|]. split; [exact Hdata|].
  rewrite struct_updated_static; [exact Hstatic|].
  destruct Hready' as (Hfits & _). rewrite Forall_forall in Hfits.
  destruct (Hfits o Ho) as (a0 & b0 & Ha0 & Hlen & _). congruence.
Qed.

(** C2 (amended): where the static fields have a buffer of their own,
    they are written once and never again.  [main] of the storage-buffer
    demo uploads to the static buffer exactly once, and what it uploads
    is, record by record, the drawn colour, the alpha 1, the drawn offset
    and two zeros of padding; after any number of frames the buffer
    holds just that, no call of [main] or of a frame has uploaded to it
    a second time, and every write of a frame goes to the changing
    values or the changing buffer, which is another buffer.  In the
    single-struct demo colour and offset share the record and the buffer
    with scale and time: [main] uploads nothing, every frame uploads the
    record of every object again, and what stays as [main] drew it is
    the value of colour and offset, in the typed array and, from the
    first frame on, in the buffer. *)
Theorem static_fields_stable :
  forall (env : host) (N : nat) (fs : list frame) (f : frame) (w : world),
    capable env ->
    (exists c w1 sdata l,
       StorageBuffers.main env N w = (Return (Some c), w1) /\
       length sdata = 8 * N /\
       (forall i, i < N ->
          StorageBuffers.static_record env (drawn w + 6 * i) i sdata /\
          sdata !! (i * 8 + 6) = Some zero32 /\ sdata !! (i * 8 + 7) = Some zero32) /\
       buffers (run (StorageBuffers.render c) fs w1)
         !! StorageBuffers.staticStorageBuffer c =
         Some (BufferState "static storage for triangles"
                 (StorageBuffers.staticUnitSize * N) sdata) /\
       calls (run (StorageBuffers.render c) fs w1) = calls w ++ l /\
       uploads_to (StorageBuffers.staticStorageBuffer c) l =
         [WriteBuffer (StorageBuffers.staticStorageBuffer c) 0 sdata] /\
       StorageBuffers.untouched c w1 (run (StorageBuffers.render c) fs w1) /\
       StorageBuffers.staticStorageBuffer c <> StorageBuffers.changingStorageBuffer c) /\
    (exists objs w1 l,
       UniformStruct.main env N w = (Return (Some objs), w1) /\
       calls w1 = calls w ++ l /\
       uploads l = [] /\
       (forall ts w2, UniformStruct.ready objs w2 ->
          exists l2, calls (snd (UniformStruct.render objs ts w2)) = calls w2 ++ l2 /\
                     uploads l2 = UniformStruct.uniformBuffer <$> objs) /\
       Forall (fun o => exists d a b,
                 buffers w1 !! UniformStruct.uniformBuffer o =
                   Some (BufferState "uniforms for triangle"
                           UniformStruct.uniformBufferSize (replicate 12 zero32)) /\
                 heap w1 !! UniformStruct.uniformValues o =
                   Some (UniformStruct.initial_values env d) /\
                 heap (run (UniformStruct.render objs) (fs ++ [f]) w1)
                   !! UniformStruct.uniformValues o = Some a /\
                 buffers (run (UniformStruct.render objs) (fs ++ [f]) w1)
                   !! UniformStruct.uniformBuffer o = Some b /\
                 buf_data b = a /\
                 UniformStruct.static_part a =
                   UniformStruct.static_part (UniformStruct.initial_values env d))
              objs).
Proof.
  intros env N fs f w Hcap. split.
  - destruct (storage_main_facts env N w Hcap)
      as (c & w1 & sdata & sets & Hrun & Hready & _ & _ & Hne & Hsb & _ & _ & Hc1
          & (t & Hsets) & _ & _ & Hlen & Hrec & Hpad).
    destruct (storage_run_ready _ fs _ Hready) as (_ & Hunt & _).
    pose proof Hunt as (_ & _ & _ & Hbuf & lf & Hcalls & Hlf).
    eexists c, w1, sdata, _. split; [exact Hrun|].
    split; [exact Hlen|].
    split; [intros i Hi; split; [by apply Hrec|by apply Hpad]|].
    split; [rewrite (Hbuf _ Hne); exact Hsb|].
    split; [rewrite Hcalls, Hc1, <- app_assoc; reflexivity|].
    split; [|split; [exact Hunt|exact Hne]].
    rewrite !uploads_to_app.
    rewrite (uploads_to_sets _ _ _ Hsets).
    rewrite (uploads_to_storage_frames _ _ _ Hne Hlf).
    cbn [uploads_to List.filter app]. rewrite Nat.eqb_refl. reflexivity.
  - destruct (struct_record_history env N fs f w Hcap)
      as (objs & w1 & l & Hrun & Hcalls & Hup & Hobjs).
    exists objs, w1, l. split; [exact Hrun|]. split; [exact Hcalls|].
    split; [exact Hup|]. split; [|exact Hobjs].
    intros ts w2 Hready2.
    destruct (struct_frame_cost objs ts w2 Hready2) as (l2 & Hc2 & Hup2 & _).
    by exists l2.
Qed.

Lemma static_fields_stable_witness :
  exists objs w1 l,
    UniformStruct.main webgpu 2 fresh_page = (Return (Some objs), w1) /\
    calls w1 = calls fresh_page ++ l /\
    uploads l = [] /\
    (forall ts w2, UniformStruct.ready objs w2 ->
       exists l2, calls (snd (UniformStruct.render objs ts w2)) = calls w2 ++ l2 /\
                  uploads l2 = UniformStruct.uniformBuffer <$> objs) /\
    Forall (fun o => exists d a b,
              buffers w1 !! UniformStruct.uniformBuffer o =
                Some (BufferState "uniforms for triangle"
                        UniformStruct.uniformBufferSize (replicate 12 zero32)) /\
              heap w1 !! UniformStruct.uniformValues o =
                Some (UniformStruct.initial_values webgpu d) /\
              heap (run (UniformStruct.render objs)
                      ([Frame (Some (of_Z 16)) 300 150] ++ [Frame (Some (of_Z 33)) 300 150])
                      w1)
                !! UniformStruct.uniformValues o = Some a /\
              buffers (run (UniformStruct.render objs)
                         ([Frame (Some (of_Z 16)) 300 150] ++
                          [Frame (Some (of_Z 33)) 300 150]) w1)
                !! UniformStruct.uniformBuffer o = Some b /\
              buf_data b = a /\
              UniformStruct.static_part a =
                UniformStruct.static_part (UniformStruct.initial_values webgpu d))
           objs.
Proof.
  exact (proj2 (static_fields_stable webgpu 2 [Frame (Some (of_Z 16)) 300 150]
                  (Frame (Some (of_Z 33)) 300 150) fresh_page webgpu_capable)).
Defined.

(** C2, the claim as worded fails in the single-struct demo it cites:
    with one object, [main] has uploaded nothing and the buffer of the
    object is still zero, and the two frames that follow upload the
    record twice, colour and offset included: the static fields reach
    the GPU once per frame, not once during initialization, and in the
    one 48-byte record they share with scale and time. *)
Lemma static_fields_reuploaded :
  exists o w1 r1 r2,
    UniformStruct.main webgpu 1 fresh_page = (Return (Some [o]), w1) /\
    uploads (calls w1) = [] /\
    buffers w1 !! UniformStruct.uniformBuffer o =
      Some (BufferState "uniforms for triangle" 48 (replicate 12 zero32)) /\
    uploads_to (UniformStruct.uniformBuffer o)
      (calls (run (UniformStruct.render [o])
                [Frame (Some (of_Z 16)) 300 150; Frame (Some (of_Z 33)) 300 150] w1)) =
      [WriteBuffer (UniformStruct.uniformBuffer o) 0 r1;
       WriteBuffer (UniformStruct.uniformBuffer o) 0 r2] /\
    UniformStruct.static_part r1 =
      ([zero32; zero32; zero32; one32], [SFopp one32; SFopp one32]) /\
    UniformStruct.static_part r2 =
      ([zero32; zero32; zero32; one32], [SFopp one32; SFopp one32]) /\
    length r1 * 4 = UniformStruct.uniformBufferSize.
Proof.
  eexists _, _, _, _.
  split; [vm_compute; reflexivity|].
  vm_compute. repeat split.
Qed.

(** The time the first frame after [main] writes, when the browser
    delivers it with the stamp [t]. *)
Lemma storage_first_frame_time (env : host) (N : nat) (t : number) (x y : Z)
    (w : world) :
  capable env ->
  exists c w1 a,
    StorageBuffers.main env N w = (Return (Some c), w1) /\
    scheduled w1 = S (scheduled w) /\
    heap (deliver (StorageBuffers.render c) (Frame (Some t) x y) w1)
      !! StorageBuffers.storageValues c = Some a /\
    forall i, i < N ->
      a !! (i * 4 + StorageBuffers.kTimeOffset) = Some (fround t).
Proof.
  intros Hcap.
  destruct (storage_main_facts env N w Hcap)
    as (c & w1 & sdata & sets & Hrun & Hready & _ & Hobjs & _ & _ & _ & Ha & _ & _ &
        _ & Hsch & _).
  destruct (storage_deliver_state c (Frame (Some t) x y) w1 Hready) as (Hheap & _).
  { lia. }
  { eexists. split; [exact Ha|].
    intros j _ Hj. apply lookup_replicate_2. by rewrite length_replicate in Hj. }
  eexists c, w1, _. split; [exact Hrun|]. split; [exact Hsch|].
  split; [exact Hheap|].
  intros i Hi.
  destruct (lookup_lt_is_Some_2 (StorageBuffers.objectInfos c) i) as [o Ho].
  { by rewrite Hobjs, length_fmap, length_seq. }
  destruct (storage_changing_values_lookup (StorageBuffers.objectInfos c)
              (default (of_Z 0) (timeStamp (Frame (Some t) x y)))
              (div (of_Z (frame_width (Frame (Some t) x y)))
                 (of_Z (frame_height (Frame (Some t) x y)))) i o Ho)
    as ((_ & _ & Ht) & _).
  change StorageBuffers.kTimeOffset with 2. exact Ht.
Qed.

Lemma uniforms_first_frame_time (env : host) (N : nat) (t : number) (x y : Z)
    (w : world) :
  capable env ->
  exists objs w1,
    Uniforms.main env N w = (Return (Some objs), w1) /\
    scheduled w1 = S (scheduled w) /\
    Forall (fun o => exists a,
              heap (deliver (Uniforms.render objs) (Frame (Some t) x y) w1)
                !! Uniforms.uniformValues o = Some a /\
              a !! Uniforms.kTimeOffset = Some (fround t))
           objs.
Proof.
  intros Hcap.
  destruct (uniforms_main_run env N w Hcap)
    as (objs & w1 & Hrun & (Hready & Hstarted & _) & _ & _ & Hsch & _).
  exists objs, w1. split; [exact Hrun|]. split; [exact Hsch|].
  apply Forall_forall. intros o Ho. rewrite Forall_forall in Hstarted.
  destruct (Hstarted o Ho) as (_ & _ & _ & Ha & _).
  destruct (uniforms_deliver_values objs (Frame (Some t) x y) w1 Hready) with (o := o)
    (a := replicate 4 zero32) as (Ha' & _); [lia|exact Ho|exact Ha|].
  eexists. split; [exact Ha'|].
  destruct (uniforms_updated_record
              (default (of_Z 0) (timeStamp (Frame (Some t) x y)))
              (div (of_Z (frame_width (Frame (Some t) x y)))
                 (of_Z (frame_height (Frame (Some t) x y)))) o (replicate 4 zero32))
    as (pad & _ & ->); [reflexivity|].
  reflexivity.
Qed.

(** C9 (amended): the time a frame writes is the callback's timestamp
    argument whenever there is one, at the first call as at every other:
    the first frame the browser delivers after [main], with the stamp
    [t], writes [t] into the time of every record, not zero.  Zero is
    written only when the callback is called without a timestamp
    ([timeStamp ?? 0]), which [requestAnimationFrame], its only caller,
    does not do. *)
Theorem time_is_timestamp :
  (forall (c : StorageBuffers.closure) (objs : list Uniforms.ObjectInfo)
          (ts : option number) (w w' : world),
     StorageBuffers.ready c w -> Uniforms.ready objs w' ->
     (exists a,
        heap (snd (StorageBuffers.render c ts w)) !! StorageBuffers.storageValues c
          = Some a /\
        forall i, i < length (StorageBuffers.objectInfos c) ->
          a !! (i * 4 + StorageBuffers.kTimeOffset) =
            Some (match ts with Some t => fround t | None => zero32 end)) /\
     Forall (fun o => exists a,
               heap (snd (Uniforms.render objs ts w')) !! Uniforms.uniformValues o
                 = Some a /\
               a !! Uniforms.kTimeOffset =
                 Some (match ts with Some t => fround t | None => zero32 end))
            objs) /\
  (forall (env : host) (N : nat) (t : number) (x y : Z) (w : world),
     capable env ->
     (exists c w1 a,
        StorageBuffers.main env N w = (Return (Some c), w1) /\
        scheduled w1 = S (scheduled w) /\
        heap (deliver (StorageBuffers.render c) (Frame (Some t) x y) w1)
          !! StorageBuffers.storageValues c = Some a /\
        forall i, i < N ->
          a !! (i * 4 + StorageBuffers.kTimeOffset) = Some (fround t)) /\
     (exists objs w1,
        Uniforms.main env N w = (Return (Some objs), w1) /\
        scheduled w1 = S (scheduled w) /\
        Forall (fun o => exists a,
                  heap (deliver (Uniforms.render objs) (Frame (Some t) x y) w1)
                    !! Uniforms.uniformValues o = Some a /\
                  a !! Uniforms.kTimeOffset = Some (fround t))
               objs)).
Proof.
  split.
  - intros c objs ts w w' Hready Hready'.
    assert (Htime : fround (default (of_Z 0) ts) =
                    match ts with Some t => fround t | None => zero32 end).
    { destruct ts; [done|apply fround_zero]. }
    split.
    + destruct (storage_frame c ts w Hready)
        as (a & a' & b & sets & Ha & Hb & Hrun & Hlen & _ & Hrec & _).
      exists a'. rewrite Hrun. cbn [snd]. world_simpl.
      split; [apply list_lookup_insert_eq; by eapply lookup_lt_Some|].
      intros i Hi.
      destruct (lookup_lt_is_Some_2 (StorageBuffers.objectInfos c) i Hi) as [o Ho].
      destruct (Hrec i o Ho) as (_ & _ & Ht).
      change StorageBuffers.kTimeOffset with 2. by rewrite Ht, Htime.
    + destruct (uniforms_render_run objs ts w' Hready')
        as (w1 & Hrun & _ & _ & _ & _ & _ & Hobj & _).
      rewrite Hrun. cbn [snd]. apply Forall_forall. intros o Ho.
      destruct Hready' as (Hfits & _).
      rewrite Forall_forall in Hfits.
      destruct (Hfits o Ho) as (a & b & Ha & Hlen & _).
      destruct (Hobj o a Ho Ha) as (Ha' & _).
      eexists. split; [exact Ha'|].
      destruct (uniforms_updated_record (default (of_Z 0) ts)
                  (div (of_Z (width w')) (of_Z (height w'))) o a Hlen)
        as (pad & _ & ->).
      change Uniforms.kTimeOffset with 2. cbn [lookup list_lookup].
      by rewrite Htime.
  - intros env N t x y w Hcap. split.
    + by apply storage_first_frame_time.
    + by apply uniforms_first_frame_time.
Qed.

Lemma time_is_timestamp_witness :
  ((exists a,
      heap (snd (StorageBuffers.render StorageBuffers.one_object None
                   StorageBuffers.one_object_world))
        !! StorageBuffers.storageValues StorageBuffers.one_object = Some a /\
      forall i, i < length (StorageBuffers.objectInfos StorageBuffers.one_object) ->
        a !! (i * 4 + StorageBuffers.kTimeOffset) = Some zero32) /\
   Forall (fun o => exists a,
             heap (snd (Uniforms.render [Uniforms.one_object] None
                          Uniforms.one_object_world))
               !! Uniforms.uniformValues o = Some a /\
             a !! Uniforms.kTimeOffset = Some zero32)
          [Uniforms.one_object]) /\
  (exists c w1 a,
     StorageBuffers.main webgpu 2 fresh_page = (Return (Some c), w1) /\
     scheduled w1 = S (scheduled fresh_page) /\
     heap (deliver (StorageBuffers.render c) (Frame (Some (of_Z 16)) 300 150) w1)
       !! StorageBuffers.storageValues c = Some a /\
     forall i, i < 2 ->
       a !! (i * 4 + StorageBuffers.kTimeOffset) = Some (fround (of_Z 16))).
Proof.
  split.
  - exact (proj1 time_is_timestamp StorageBuffers.one_object [Uniforms.one_object] None
             StorageBuffers.one_object_world Uniforms.one_object_world
             storage_one_object_ready uniforms_one_object_ready).
  - exact (proj1 (proj2 time_is_timestamp webgpu 2 (of_Z 16) 300%Z 150%Z fresh_page
                    webgpu_capable)).
Defined.

(** C9, the claim as worded fails at the first call: after [main], one
    callback waits; the browser delivers the first frame with its time
    stamp, here 16, and the time written is 16, which is not zero. *)
Lemma first_frame_time_not_zero :
  exists c w1 a,
    StorageBuffers.main webgpu 1 fresh_page = (Return (Some c), w1) /\
    scheduled w1 = 1 /\
    calls (deliver (StorageBuffers.render c) (Frame (Some (of_Z 16)) 300 150) w1) <>
      calls w1 /\
    heap (deliver (StorageBuffers.render c) (Frame (Some (of_Z 16)) 300 150) w1)
      !! StorageBuffers.storageValues c = Some a /\
    a !! StorageBuffers.kTimeOffset = Some (fround (of_Z 16)) /\
    fround (of_Z 16) <> zero32.
Proof.
  eexists _, _, _.
  split; [vm_compute; reflexivity|].
  vm_compute.
  split; [reflexivity|]. split; [discriminate|]. split; [reflexivity|].
  split; [reflexivity|discriminate].
Qed.
